(** * Your-PaL-MoE: provider selection, complexity analysis and metrics

    A shallow embedding of the decision core of the repository:

    - [src/ml/task_reasoning_engine.py]   (module [Engine])
    - [src/config/csv_provider_loader.py] (module [Loader])
    - [src/selection/dynamic_selector.py] (module [Selector])
    - [src/monitoring/metrics_collector.py] (module [Metrics])
    - [src/cost/token_counter.py]         (module [TokenCounter], model choice)

    Conventions of the embedding.

    - Python [float] values are exact rationals ([Q]) and [int] values are
      integers ([Z]); rounding, infinities and NaN are not represented.
      Equalities between computed rationals are stated with [==] ([Qeq]).
      Properties of computed floats are therefore limited to what rounding
      to nearest keeps: the formula of one assignment, order ([<=]) between
      results of the same computation on ordered inputs, and bounds whose
      end points are floats.  An [int] operand of a float operation is
      converted first, which fails from about 1.8e308 on ([fits_float]).
    - Python [str] is [string] over 8-bit characters.  The ASCII range behaves
      as in Python; characters above 127 are caseless and are neither word
      characters, digits nor white space.
    - A [Dict[str, Any]] argument is an association list from keys to [PyVal]
      (None, numbers, strings, lists); [dict.get] is [get].
    - A raised exception is the [Raise] result of the [Result] type; methods
      that touch [self] take it as an argument and, when they mutate or log,
      return the new [self].
    - Clock reads ([datetime.now()], [time.time()]) are an explicit [now]. *)

From Stdlib Require Import Ascii QArith Qminmax Qpower Lqa Lia.
From stdpp Require Import base strings gmap list.

Open Scope Q_scope.

(* ===================================================================== *)
(** * Python values, truthiness and exceptions *)
(* ===================================================================== *)

Module Py.

Inductive exn : Type :=
| KeyError
| ValueError
| TypeError
| AttributeError
| IndexError.

Inductive Result (A : Type) : Type :=
| Ok (a : A)
| Raise (e : exn).
Arguments Ok {A} a.
Arguments Raise {A} e.

(** Sequencing: an exception ends the computation. *)
#[global] Instance Result_ret : MRet Result := fun _ a => Ok a.
#[global] Instance Result_bind : MBind Result := fun _ _ k r =>
  match r with
  | Ok a => k a
  | Raise e => Raise e
  end.

Definition raises {A} (r : Result A) : Prop :=
  match r with Ok _ => False | Raise _ => True end.

#[local] Set Warnings "-register-all".
Inductive PyVal : Type :=
| PyNone
| PyNum (q : Q)
| PyStr (s : string)
| PyList (l : list PyVal).

Definition Dict : Type := list (string * PyVal).

(** [d.get(key)]: the value, or [None] when the key is absent. *)
Fixpoint get (d : Dict) (key : string) : PyVal :=
  match d with
  | [] => PyNone
  | (k, v) :: d' => if String.eqb k key then v else get d' key
  end.

(** Truth value of an object in a condition. *)
Definition truthy (v : PyVal) : bool :=
  match v with
  | PyNone => false
  | PyNum q => negb (Qeq_bool q 0)
  | PyStr s => negb (String.eqb s "")
  | PyList l => match l with [] => false | _ => true end
  end.

(** [if d:] for an optional dict: [None] and [{}] are false. *)
Definition truthy_dict (d : option Dict) : bool :=
  match d with
  | None => false
  | Some [] => false
  | Some _ => true
  end.

(** [d.get(key)] on a dict already known to be true in a condition. *)
Definition oget (d : option Dict) (key : string) : PyVal :=
  match d with
  | None => PyNone
  | Some d => get d key
  end.

(** [v == s] for a string literal [s]. *)
Definition eq_str (v : PyVal) (s : string) : bool :=
  match v with
  | PyStr t => String.eqb t s
  | _ => false
  end.

(** [x < y] on numbers, as a boolean. *)
Definition Qltb (x y : Q) : bool := if Qlt_le_dec x y then true else false.

(** [x > v] for a number [x]: ordering against a string or a list raises. *)
Definition num_gt (x : Q) (v : PyVal) : Result bool :=
  match v with
  | PyNum q => Ok (Qltb q x)
  | _ => Raise TypeError
  end.

(** [x * v] for a float [x]; an [int] [v] is converted to a float first. *)
Definition num_mul (x : Q) (v : PyVal) : Result Q :=
  match v with
  | PyNum q => Ok (x * q)
  | _ => Raise TypeError
  end.

(** [v.lower()]: only strings have the method. *)
Definition str_of (v : PyVal) : Result string :=
  match v with
  | PyStr s => Ok s
  | _ => Raise AttributeError
  end.

End Py.

Export Py.

(* ===================================================================== *)
(** * Text primitives: [str] methods and the regular expressions used *)
(* ===================================================================== *)

Module Text.

Definition code (c : ascii) : nat := nat_of_ascii c.

Definition between (lo hi : nat) (c : ascii) : bool :=
  (lo <=? code c)%nat && (code c <=? hi)%nat.

Definition is_upper : ascii -> bool := between 65 90.
Definition is_lower : ascii -> bool := between 97 122.
Definition is_digit : ascii -> bool := between 48 57.

(** [\w]: letters, digits and the underscore. *)
Definition is_word (c : ascii) : bool :=
  is_upper c || is_lower c || is_digit c || (code c =? 95)%nat.

(** White space of [str.split()]: TAB..CR, FS..US and the blank. *)
Definition is_space (c : ascii) : bool :=
  between 9 13 c || between 28 32 c.

Definition lower_char (c : ascii) : ascii :=
  if is_upper c then ascii_of_nat (code c + 32) else c.

(** [s.lower()] *)
Fixpoint lower (s : string) : string :=
  match s with
  | EmptyString => EmptyString
  | String c s' => String (lower_char c) (lower s')
  end.

(** [sub in s] *)
Fixpoint contains (sub s : string) : bool :=
  String.prefix sub s ||
  match s with
  | EmptyString => false
  | String _ s' => contains sub s'
  end.

(** [any(t in s for t in terms)] *)
Definition contains_any (terms : list string) (s : string) : bool :=
  existsb (fun t => contains t s) terms.

(** [sum(1 for k in keywords if k in s)] *)
Definition count_in (keywords : list string) (s : string) : nat :=
  length (filter (fun k => Is_true (contains k s)) keywords).

Fixpoint drop (n : nat) (s : string) : string :=
  match n, s with
  | O, _ => s
  | S _, EmptyString => EmptyString
  | S n', String _ s' => drop n' s'
  end.

(** The part of [s] before its first line feed: what [.*] can cover. *)
Fixpoint line (s : string) : string :=
  match s with
  | EmptyString => EmptyString
  | String c s' => if (code c =? 10)%nat then EmptyString else String c (line s')
  end.

(** [re.search(a + '.*' + b, s)] for literal [a] and [b]: some occurrence
    of [a] is followed, before the next line feed, by an occurrence of [b]. *)
Fixpoint search_dotstar (a b s : string) : bool :=
  (String.prefix a s && contains b (line (drop (String.length a) s))) ||
  match s with
  | EmptyString => false
  | String _ s' => search_dotstar a b s'
  end.

(** Length of the longest prefix of [s] made of characters in [p]. *)
Fixpoint run (p : ascii -> bool) (s : string) : nat :=
  match s with
  | EmptyString => O
  | String c s' => if p c then S (run p s') else O
  end.

Definition head_is (p : ascii -> bool) (s : string) : bool :=
  match s with
  | EmptyString => false
  | String c _ => p c
  end.

(** A match of [\b[A-Z][a-z]+\b] starting at the head of [s], where
    [prev_word] tells whether the preceding character is a word character.
    The run of lower-case letters is taken whole: a shorter run would be
    followed by a lower-case letter, where [\b] cannot hold. *)
Definition proper_noun_at (prev_word : bool) (s : string) : option nat :=
  match s with
  | EmptyString => None
  | String c s' =>
      if negb prev_word && is_upper c then
        let k := run is_lower s' in
        if (0 <? k)%nat && negb (head_is is_word (drop k s'))
        then Some (S k) else None
      else None
  end.

(** [re.findall(r'\b[A-Z][a-z]+\b', s)], scanning from the left;
    [skip] counts the characters still inside the last match. *)
Fixpoint findall_proper_from (prev_word : bool) (skip : nat) (s : string)
  : list string :=
  match s with
  | EmptyString => []
  | String c s' =>
      match skip with
      | S k => findall_proper_from (is_word c) k s'
      | O =>
          match proper_noun_at prev_word s with
          | Some n => String.substring 0 n s :: findall_proper_from (is_word c) (n - 1) s'
          | None => findall_proper_from (is_word c) 0 s'
          end
      end
  end.

Definition findall_proper (s : string) : list string :=
  findall_proper_from false 0 s.

(** [re.findall(r'\d+', s)]: the maximal runs of digits. *)
Fixpoint findall_digits_from (skip : nat) (s : string) : list string :=
  match s with
  | EmptyString => []
  | String c s' =>
      match skip with
      | S k => findall_digits_from k s'
      | O =>
          if is_digit c
          then String.substring 0 (run is_digit s) s :: findall_digits_from (run is_digit s') s'
          else findall_digits_from 0 s'
      end
  end.

Definition findall_digits (s : string) : list string :=
  findall_digits_from 0 s.

(** [len(s.split())]: the number of maximal runs of non-blank characters;
    [in_word] tells whether the preceding character belongs to a word. *)
Fixpoint word_count_from (in_word : bool) (s : string) : nat :=
  match s with
  | EmptyString => O
  | String c s' =>
      if is_space c then word_count_from false s'
      else if in_word then word_count_from true s'
      else S (word_count_from true s')
  end.

Definition word_count (s : string) : nat := word_count_from false s.

(** [s.lstrip()], [s.rstrip()] and [s.strip()] *)
Fixpoint lstrip (s : string) : string :=
  match s with
  | EmptyString => EmptyString
  | String c s' => if is_space c then lstrip s' else s
  end.

Fixpoint rstrip (s : string) : string :=
  match s with
  | EmptyString => EmptyString
  | String c s' =>
      match rstrip s' with
      | EmptyString => if is_space c then EmptyString else String c EmptyString
      | t => String c t
      end
  end.

Definition strip (s : string) : string := rstrip (lstrip s).

(** [s.split(sep)] for a one-character separator: the pieces between the
    separators, empty pieces included; never an empty list. *)
Fixpoint split (sep : ascii) (s : string) : list string :=
  match s with
  | EmptyString => [EmptyString]
  | String c s' =>
      if Ascii.eqb c sep then EmptyString :: split sep s'
      else match split sep s' with
           | piece :: pieces => String c piece :: pieces
           | [] => [String c EmptyString]
           end
  end.

(** [s.startswith(t)] and [s.endswith(t)] *)
Definition startswith (s t : string) : bool := String.prefix t s.

Fixpoint endswith (s t : string) : bool :=
  String.eqb s t ||
  match s with
  | EmptyString => false
  | String _ s' => endswith s' t
  end.

(** [s[a:-1]] for [a <= len(s) - 1]: drop [a] characters, then the last. *)
Fixpoint drop_last (s : string) : string :=
  match s with
  | EmptyString => EmptyString
  | String c EmptyString => EmptyString
  | String c s' => String c (drop_last s')
  end.

(** [s.replace(a, b)] for one-character [a] and [b]. *)
Fixpoint replace_char (a b : ascii) (s : string) : string :=
  match s with
  | EmptyString => EmptyString
  | String c s' => String (if Ascii.eqb c a then b else c) (replace_char a b s')
  end.

End Text.

(* ===================================================================== *)
(** * [ml/task_reasoning_engine.py] *)
(* ===================================================================== *)

Module Engine.
Import Text.

(** [ComplexityLevel]: the enum and its [.value]. *)
Inductive ComplexityLevel : Type := LOW | MEDIUM | HIGH.

Definition value (l : ComplexityLevel) : string :=
  match l with
  | LOW => "low"
  | MEDIUM => "medium"
  | HIGH => "high"
  end.

Record ComplexityScore : Type := mkComplexityScore {
  reasoning : Q;
  knowledge : Q;
  computation : Q;
  coordination : Q
}.

Definition total_score (self : ComplexityScore) : Q :=
  (reasoning self + knowledge self + computation self + coordination self) / 4.

Definition complexity_level (self : ComplexityScore) : string :=
  if Qlt_le_dec (total_score self) 0.4 then value LOW
  else if Qlt_le_dec (total_score self) 0.7 then value MEDIUM
  else value HIGH.

(** ** The vocabularies set up by [TaskReasoningEngine.__init__] *)

Definition reasoning_keywords : list string :=
  ["analyze"; "explain"; "reason"; "logic"; "because"; "therefore";
   "conclude"; "infer"; "deduce"; "argue"; "justify"; "prove"].

Definition knowledge_keywords : list string :=
  ["history"; "science"; "literature"; "mathematics"; "physics";
   "chemistry"; "biology"; "geography"; "philosophy"; "psychology";
   "economics"; "politics"; "law"; "medicine"; "technology"].

Definition computation_keywords : list string :=
  ["calculate"; "compute"; "solve"; "equation"; "formula"; "algorithm";
   "programming"; "code"; "debug"; "optimize"; "data"; "statistics"].

Definition coordination_keywords : list string :=
  ["plan"; "schedule"; "organize"; "coordinate"; "manage"; "workflow";
   "steps"; "process"; "sequence"; "timeline"; "project"; "task"].

(** Each pattern is an alternation of literals. *)
Definition high_complexity_patterns : list (list string) :=
  [ ["multi-step"; "multiple steps"];
    ["complex"; "complicated"; "sophisticated"];
    ["detailed analysis"; "in-depth"];
    ["comprehensive"; "thorough"];
    ["advanced"; "expert level"] ].

(** [for x in xs: if test(x): score += w], from a running [score]. *)
Definition add_each {A} (test : A -> bool) (w : Q) (xs : list A) (score : Q) : Q :=
  fold_left (fun acc x => if test x then acc + w else acc) xs score.

Definition of_nat (n : nat) : Q := inject_Z (Z.of_nat n).

Definition _calculate_reasoning_score (content : string) : Q :=
  let score := 0.0 in
  let keyword_count := count_in reasoning_keywords content in
  let score := score + Qmin 0.5 (of_nat keyword_count * 0.1) in
  (* 'if.*then', 'because.*therefore', 'since.*thus', 'given.*conclude' *)
  let logical_patterns :=
    [("if", "then"); ("because", "therefore"); ("since", "thus"); ("given", "conclude")] in
  let score :=
    add_each (fun p => search_dotstar (fst p) (snd p) content) 0.2 logical_patterns score in
  let question_words := ["why"; "how"; "what if"; "suppose"] in
  let score := add_each (fun w => contains w content) 0.15 question_words score in
  Qmin 1.0 score.

Definition _calculate_knowledge_score (content : string) : Q :=
  let score := 0.0 in
  let keyword_count := count_in knowledge_keywords content in
  let score := score + Qmin 0.6 (of_nat keyword_count * 0.1) in
  let score :=
    if contains_any ["research"; "study"; "theory"; "concept"] content
    then score + 0.2 else score in
  let proper_nouns := findall_proper content in
  let score := if (3 <? length proper_nouns)%nat then score + 0.2 else score in
  Qmin 1.0 score.

Definition _calculate_computation_score (content : string) : Q :=
  let score := 0.0 in
  let keyword_count := count_in computation_keywords content in
  let score := score + Qmin 0.5 (of_nat keyword_count * 0.15) in
  let numbers := findall_digits content in
  let score := if (2 <? length numbers)%nat then score + 0.2 else score in
  let math_operators := ["+"; "-"; "*"; "/"; "="; "<"; ">"; "%"] in
  let score := if contains_any math_operators content then score + 0.2 else score in
  let code_terms := ["function"; "variable"; "loop"; "condition"; "array"; "object"] in
  let score := if contains_any code_terms content then score + 0.3 else score in
  Qmin 1.0 score.

Definition _calculate_coordination_score (content : string) : Q :=
  let score := 0.0 in
  let keyword_count := count_in coordination_keywords content in
  let score := score + Qmin 0.4 (of_nat keyword_count * 0.1) in
  let sequential_terms :=
    ["first"; "second"; "third"; "next"; "then"; "finally"; "step"] in
  let seq_count := count_in sequential_terms content in
  let score := if (2 <? seq_count)%nat then score + 0.3 else score in
  let coord_terms := ["coordinate"; "collaborate"; "integrate"; "combine"; "merge"] in
  let score := if contains_any coord_terms content then score + 0.3 else score in
  Qmin 1.0 score.

Definition _get_length_modifier (content : string) : Q :=
  let word_count := word_count content in
  if (word_count <? 10)%nat then 0.8
  else if (word_count <? 50)%nat then 1.0
  else if (word_count <? 200)%nat then 1.2
  else 1.4.

Definition _get_pattern_modifier (content : string) : Q :=
  let modifier := 1.0 in
  let modifier :=
    add_each (fun alts => contains_any alts content) 0.2 high_complexity_patterns modifier in
  Qmin 2.0 modifier.

Definition _get_context_modifier (context : Dict) (dimension : string) : Result Q :=
  let modifier := 1.0 in
  modifier ←
    (if truthy (get context "complexity_hint") then
       hint ← str_of (get context "complexity_hint");
       let hint := lower hint in
       if existsb (String.eqb hint) ["high"; "complex"; "advanced"] then Ok 1.5
       else if existsb (String.eqb hint) ["low"; "simple"; "basic"] then Ok 0.7
       else Ok modifier
     else Ok modifier);
  if truthy (get context "domain") then
    domain ← str_of (get context "domain");
    let domain := lower domain in
    if String.eqb dimension "knowledge"
       && existsb (String.eqb domain) ["academic"; "research"; "technical"]
    then Ok (modifier * 1.3)
    else if String.eqb dimension "computation"
            && existsb (String.eqb domain) ["programming"; "math"; "engineering"]
    then Ok (modifier * 1.4)
    else Ok modifier
  else Ok modifier.

Definition analyze_complexity (content : string) (context : option Dict)
  : Result ComplexityScore :=
  let content_lower := lower content in
  let reasoning_score := _calculate_reasoning_score content_lower in
  let knowledge_score := _calculate_knowledge_score content_lower in
  let computation_score := _calculate_computation_score content_lower in
  let coordination_score := _calculate_coordination_score content_lower in
  '(reasoning_score, knowledge_score, computation_score, coordination_score) ←
    match context with
    | Some ((_ :: _) as ctx) =>
        m1 ← _get_context_modifier ctx "reasoning";
        m2 ← _get_context_modifier ctx "knowledge";
        m3 ← _get_context_modifier ctx "computation";
        m4 ← _get_context_modifier ctx "coordination";
        Ok (reasoning_score * m1, knowledge_score * m2,
            computation_score * m3, coordination_score * m4)
    | _ => Ok (reasoning_score, knowledge_score, computation_score, coordination_score)
    end;
  let length_modifier := _get_length_modifier content in
  let pattern_modifier := _get_pattern_modifier content_lower in
  Ok {| reasoning := Qmin 1.0 (reasoning_score * length_modifier * pattern_modifier);
        knowledge := Qmin 1.0 (knowledge_score * length_modifier * pattern_modifier);
        computation := Qmin 1.0 (computation_score * length_modifier * pattern_modifier);
        coordination := Qmin 1.0 (coordination_score * length_modifier * pattern_modifier) |}.

End Engine.

(* ===================================================================== *)
(** * [config/csv_provider_loader.py]: the provider records *)
(* ===================================================================== *)

Module Loader.

Inductive ProviderTier : Type := OFFICIAL | COMMUNITY | UNOFFICIAL.

Definition ProviderTier_eqb (a b : ProviderTier) : bool :=
  match a, b with
  | OFFICIAL, OFFICIAL | COMMUNITY, COMMUNITY | UNOFFICIAL, UNOFFICIAL => true
  | _, _ => false
  end.

(** [ProviderTier(v)]: the member whose value is [v], else [ValueError]. *)
Definition ProviderTier_of (v : PyVal) : Result ProviderTier :=
  match v with
  | PyStr s =>
      if String.eqb s "official" then Ok OFFICIAL
      else if String.eqb s "community" then Ok COMMUNITY
      else if String.eqb s "unofficial" then Ok UNOFFICIAL
      else Raise ValueError
  | _ => Raise ValueError
  end.

Record ProviderConfig : Type := mkProviderConfig {
  name : string;
  tier : ProviderTier;
  base_url : string;
  api_key : string;
  models : list string;
  timeout : Z;
  max_requests_per_minute : Z;
  cost_per_1k_tokens : Q;
  priority : Z;
  health_score : Q;
  other : string
}.


Definition with_health (p : ProviderConfig) (h : Q) : ProviderConfig :=
  {| name := name p; tier := tier p; base_url := base_url p;
     api_key := api_key p; models := models p; timeout := timeout p;
     max_requests_per_minute := max_requests_per_minute p;
     cost_per_1k_tokens := cost_per_1k_tokens p; priority := priority p;
     health_score := h; other := other p |}.

(** ** [CSVProviderLoader]

    [self.providers] is a dict in insertion order, held as an association
    list; its keys are the lower-cased provider names. *)

(** [providers.get(key)] *)
Fixpoint lookup (providers : list (string * ProviderConfig)) (key : string)
  : option ProviderConfig :=
  match providers with
  | [] => None
  | (k, p) :: rest => if String.eqb k key then Some p else lookup rest key
  end.

(** [providers[key] = provider]: the value is replaced where the key is, a
    new key goes to the end. *)
Fixpoint assign (providers : list (string * ProviderConfig)) (key : string)
         (provider : ProviderConfig) : list (string * ProviderConfig) :=
  match providers with
  | [] => [(key, provider)]
  | (k, p) :: rest =>
      if String.eqb k key then (k, provider) :: rest
      else (k, p) :: assign rest key provider
  end.

Definition get_provider (providers : list (string * ProviderConfig)) (name : string)
  : option ProviderConfig :=
  lookup providers (Text.lower name).

Definition get_providers_by_tier (providers : list (string * ProviderConfig))
           (tier : ProviderTier) : list ProviderConfig :=
  List.filter (fun provider => ProviderTier_eqb (Loader.tier provider) tier)
              (map snd providers).

Definition get_available_providers (providers : list (string * ProviderConfig))
  : list ProviderConfig :=
  List.filter (fun provider => negb (String.eqb (api_key provider) "")) (map snd providers).

(** [update_provider_health]: the record found under the lower-cased name
    gets the score clamped to [[0,1]]; an unknown name changes nothing. *)
Definition update_provider_health (providers : list (string * ProviderConfig))
           (name : string) (health_score : Q) : list (string * ProviderConfig) :=
  match get_provider providers name with
  | Some provider =>
      assign providers (Text.lower name)
             (with_health provider (Qmax 0.0 (Qmin 1.0 health_score)))
  | None => providers
  end.

(** [sorted(..., key=lambda p: p.priority)]: a stable sort, lowest priority
    number first. *)
Fixpoint insert_by_priority (x : ProviderConfig) (l : list ProviderConfig)
  : list ProviderConfig :=
  match l with
  | [] => [x]
  | y :: l' =>
      if (priority y <? priority x)%Z then y :: insert_by_priority x l' else x :: l
  end.

Definition get_providers_by_priority (providers : list (string * ProviderConfig))
  : list ProviderConfig :=
  fold_right insert_by_priority [] (map snd providers).

(** The issues [validate_providers] collects for one provider. *)
Definition provider_issues (provider : ProviderConfig) : list string :=
  (if String.eqb (base_url provider) "" then ["Missing base URL"%string]
   else if negb (Text.startswith (base_url provider) "http://"
                 || Text.startswith (base_url provider) "https://")
        then ["Invalid base URL format"%string]
        else []) ++
  (match models provider with [] => ["No models specified"%string] | _ => [] end) ++
  (if ProviderTier_eqb (tier provider) OFFICIAL && String.eqb (api_key provider) ""
   then ["Official provider missing API key"%string] else []) ++
  (if (timeout provider <=? 0)%Z then ["Invalid timeout value"%string] else []) ++
  (if (max_requests_per_minute provider <=? 0)%Z
   then ["Invalid max requests per minute"%string] else []) ++
  (if Qltb (cost_per_1k_tokens provider) 0 then ["Invalid cost per 1k tokens"%string]
   else []).

(** [validate_providers]: the providers with at least one issue, by key. *)
Fixpoint validate_providers (providers : list (string * ProviderConfig))
  : list (string * list string) :=
  match providers with
  | [] => []
  | (name, provider) :: rest =>
      match provider_issues provider with
      | [] => validate_providers rest
      | issues => (name, issues) :: validate_providers rest
      end
  end.

(** The value of a tier: [tier.value]. *)
Definition tier_value (t : ProviderTier) : string :=
  match t with
  | OFFICIAL => "official"
  | COMMUNITY => "community"
  | UNOFFICIAL => "unofficial"
  end.

(** The dict [get_provider_stats] returns: [{"total": 0}] for an empty
    loader, the four entries otherwise. *)
Inductive ProviderStats : Type :=
| NoProviders
| Stats (total : nat) (by_tier : list (string * nat)) (with_api_keys : nat)
        (average_cost_per_1k : Q).

Definition get_provider_stats (providers : list (string * ProviderConfig)) : ProviderStats :=
  match providers with
  | [] => NoProviders
  | _ =>
      let tier_counts :=
        map (fun tier => (tier_value tier, length (get_providers_by_tier providers tier)))
            [OFFICIAL; COMMUNITY; UNOFFICIAL] in
      Stats (length providers) tier_counts (length (get_available_providers providers))
            (fold_left Qplus (map (fun kp => cost_per_1k_tokens (snd kp)) providers) 0
             / inject_Z (Z.of_nat (length providers)))
  end.


(** ** Reading the CSV rows *)

(** A row of [csv.DictReader]: a column maps to its text, or to [None] when
    the line is shorter than the header. *)
Definition Row : Type := list (string * option string).

(** What [row.get(key, default)] finds. *)
Inductive Cell : Type :=
| Missing                 (* no such column: the default is returned *)
| Null                    (* the column holds [None] *)
| Content (s : string).

Fixpoint row_get (row : Row) (key : string) : Cell :=
  match row with
  | [] => Missing
  | (k, v) :: rest =>
      if String.eqb k key
      then match v with Some s => Content s | None => Null end
      else row_get rest key
  end.

Section Parsing.

(** [int(s)] and [float(s)] on a string, [None] standing for [ValueError];
    [os.getenv]. *)
Variable py_int : string -> option Z.
Variable py_float : string -> option Q.
Variable getenv : string -> option string.

(** [row.get(key, '').strip()]: [None] has no [strip], which raises. *)
Definition stripped (row : Row) (key : string) : option string :=
  match row_get row key with
  | Missing => Some (Text.strip "")
  | Null => None
  | Content s => Some (Text.strip s)
  end.

(** [int(row.get(key, default))]: [int(None)] raises as well. *)
Definition int_field (row : Row) (key : string) (default : Z) : option Z :=
  match row_get row key with
  | Missing => Some default
  | Null => None
  | Content s => py_int s
  end.

Definition float_field (row : Row) (key : string) (default : Q) : option Q :=
  match row_get row key with
  | Missing => Some default
  | Null => None
  | Content s => py_float s
  end.

(** The API key after the special values are handled. *)
Definition resolve_api_key (api_key : string) : string :=
  if existsb (String.eqb (Text.lower api_key)) ["none"; "null"; ""] then ""
  else if Text.startswith api_key "${" && Text.endswith api_key "}" then
    let env_var := Text.drop_last (Text.drop 2 api_key) in
    default "" (getenv env_var)
  else api_key.

(** [_parse_provider_row]: [None] both for an incomplete row and for any
    exception, which the method catches.  (Log records are left out.) *)
Definition _parse_provider_row (row : Row) : option ProviderConfig :=
  name ← stripped row "Name";
  tier_str ← Text.lower <$> stripped row "Tier";
  base_url ← stripped row "Base_URL";
  api_key ← stripped row "APIKey";
  models_str ← stripped row "Model(s)";
  if existsb (String.eqb "") [name; tier_str; base_url; models_str] then None else
  let tier :=
    match ProviderTier_of (PyStr tier_str) with
    | Ok tier => tier
    | Raise _ => UNOFFICIAL
    end in
  let models :=
    map Text.strip
        (List.filter (fun model => negb (String.eqb (Text.strip model) ""))
                     (Text.split "|"%char models_str)) in
  timeout ← int_field row "Timeout" 30;
  max_requests ← int_field row "Max_Requests_Per_Minute" 60;
  cost_per_1k ← float_field row "Cost_Per_1K_Tokens" 0.002;
  priority ← int_field row "Priority" 1;
  other ← stripped row "Other";
  let api_key := resolve_api_key api_key in
  Some {| name := name; tier := tier; base_url := base_url; api_key := api_key;
          models := models; timeout := timeout; max_requests_per_minute := max_requests;
          cost_per_1k_tokens := cost_per_1k; priority := priority;
          health_score := 1.0; other := other |}.

(** The loop of [load_providers] over the rows of the file. *)
Definition load_rows (providers : list (string * ProviderConfig)) (rows : list Row)
  : list (string * ProviderConfig) :=
  fold_left (fun providers row =>
               match _parse_provider_row row with
               | Some provider => assign providers (Text.lower (name provider)) provider
               | None => providers
               end) rows providers.

End Parsing.

End Loader.

(* ===================================================================== *)
(** * [selection/dynamic_selector.py] *)
(* ===================================================================== *)

Module Selector.
Import Engine Loader.

Record ProviderPerformance : Type := mkProviderPerformance {
  perf_name : string;
  success_rate : Q;
  avg_response_time : Q;
  avg_cost_efficiency : Q;
  last_updated : Q;
  request_count : Z
}.

(** [ProviderPerformance(name=provider_name)]: the dataclass defaults. *)
Definition fresh (provider_name : string) (now : Q) : ProviderPerformance :=
  {| perf_name := provider_name; success_rate := 1.0; avg_response_time := 1.0;
     avg_cost_efficiency := 1.0; last_updated := now; request_count := 0 |}.

Inductive LogRecord : Type :=
| Warning (msg : string)
| Info (msg : string) (provider_name : string) (score : Q)
| Debug (msg : string) (provider_name : string) (success_rate response_time : Q).

(** The selector object: [providers] keeps the insertion order of the dict. *)
Record ProviderSelector : Type := mkProviderSelector {
  providers : list (string * ProviderConfig);
  performance_metrics : gmap string ProviderPerformance;
  logger : list LogRecord
}.

Definition log (self : ProviderSelector) (r : LogRecord) : ProviderSelector :=
  {| providers := providers self;
     performance_metrics := performance_metrics self;
     logger := logger self ++ [r] |}.

Definition __init__ (providers : list (string * ProviderConfig)) (now : Q)
  : ProviderSelector :=
  {| providers := providers;
     performance_metrics :=
       fold_left (fun m provider_name => <[provider_name := fresh provider_name now]> m)
                 (map fst providers) ∅;
     logger := [] |}.

(** [[ProviderTier(tier) for tier in v]] *)
Definition tiers_of (v : PyVal) : Result (list ProviderTier) :=
  match v with
  | PyList l =>
      fold_right (fun x acc => t ← ProviderTier_of x; ts ← acc; Ok (t :: ts)) (Ok []) l
  | PyStr _ => Raise ValueError   (* a non-empty string: its first character is no tier *)
  | _ => Raise TypeError           (* a number is not iterable *)
  end.

(** The body of the loop of [_filter_available_providers] for one provider:
    [Ok true] appends it, [Ok false] is [continue]. *)
Definition keeps (provider : ProviderConfig) (constraints : option Dict) : Result bool :=
  if negb (ProviderTier_eqb (tier provider) UNOFFICIAL) && String.eqb (api_key provider) ""
  then Ok false
  else if Qlt_le_dec (health_score provider) 0.1 then Ok false
  else if truthy_dict constraints then
    over_budget ←
      (if truthy (oget constraints "max_cost_per_1k")
       then num_gt (cost_per_1k_tokens provider) (oget constraints "max_cost_per_1k")
       else Ok false);
    if over_budget : bool then Ok false else
    too_slow ←
      (if truthy (oget constraints "max_timeout")
       then num_gt (inject_Z (timeout provider)) (oget constraints "max_timeout")
       else Ok false);
    if too_slow : bool then Ok false else
    wrong_tier ←
      (if truthy (oget constraints "allowed_tiers")
       then allowed_tiers ← tiers_of (oget constraints "allowed_tiers");
            Ok (negb (existsb (ProviderTier_eqb (tier provider)) allowed_tiers))
       else Ok false);
    if wrong_tier : bool then Ok false else
    if truthy (oget constraints "required_model")
       && negb (existsb (eq_str (oget constraints "required_model")) (models provider))
    then Ok false
    else Ok true
  else Ok true.

Fixpoint filter_loop (ps : list ProviderConfig) (constraints : option Dict)
         (available : list ProviderConfig) : Result (list ProviderConfig) :=
  match ps with
  | [] => Ok available
  | provider :: ps' =>
      keep ← keeps provider constraints;
      filter_loop ps' constraints (if keep : bool then available ++ [provider] else available)
  end.

Definition _filter_available_providers (self : ProviderSelector)
           (constraints : option Dict) : Result (list ProviderConfig) :=
  filter_loop (map snd (providers self)) constraints [].

(** [tier_capabilities[provider.tier]] *)
Definition tier_capabilities (t : ProviderTier) : ComplexityScore :=
  match t with
  | OFFICIAL =>
      {| reasoning := 0.9; knowledge := 0.95; computation := 0.85; coordination := 0.8 |}
  | COMMUNITY =>
      {| reasoning := 0.7; knowledge := 0.75; computation := 0.8; coordination := 0.6 |}
  | UNOFFICIAL =>
      {| reasoning := 0.5; knowledge := 0.6; computation := 0.7; coordination := 0.4 |}
  end.

Definition _calculate_capability_score (provider : ProviderConfig)
           (complexity_score : ComplexityScore) : Q :=
  let capabilities := tier_capabilities (tier provider) in
  let reasoning_match :=
    Qmin 1.0 (reasoning capabilities / Qmax 0.1 (reasoning complexity_score)) in
  let knowledge_match :=
    Qmin 1.0 (knowledge capabilities / Qmax 0.1 (knowledge complexity_score)) in
  let computation_match :=
    Qmin 1.0 (computation capabilities / Qmax 0.1 (computation complexity_score)) in
  let coordination_match :=
    Qmin 1.0 (coordination capabilities / Qmax 0.1 (coordination complexity_score)) in
  reasoning_match * 0.3 + knowledge_match * 0.3 +
  computation_match * 0.25 + coordination_match * 0.15.

Definition _calculate_performance_score (self : ProviderSelector)
           (provider : ProviderConfig) : Q :=
  match performance_metrics self !! name provider with
  | None => 0.5
  | Some metrics =>
      let response_time_score := Qmax 0.0 (1.0 - avg_response_time metrics / 10.0) in
      let success_rate_score := success_rate metrics in
      let cost_efficiency_score := avg_cost_efficiency metrics in
      response_time_score * 0.4 + success_rate_score * 0.4 + cost_efficiency_score * 0.2
  end.

Definition _calculate_cost_score (provider : ProviderConfig)
           (constraints : option Dict) : Result Q :=
  let max_cost := 0.01 in
  let cost_score := Qmax 0.0 (1.0 - cost_per_1k_tokens provider / max_cost) in
  if truthy_dict constraints && truthy (oget constraints "budget_weight")
  then num_mul cost_score (oget constraints "budget_weight")
  else Ok cost_score.

Definition tier_reliability (t : ProviderTier) : Q :=
  match t with
  | OFFICIAL => 0.95
  | COMMUNITY => 0.8
  | UNOFFICIAL => 0.6
  end.

(** The rate limit is an [int]; the division converts it to a float, which
    succeeds for the integers of [fits_float]. *)
Definition _calculate_reliability_score (provider : ProviderConfig) : Q :=
  let base_score := tier_reliability (tier provider) in
  let reliability_score := base_score * health_score provider in
  let rate_limit_factor :=
    Qmin 1.0 (inject_Z (max_requests_per_minute provider) / 1000.0) in
  reliability_score * (0.8 + 0.2 * rate_limit_factor).

Record Weights : Type := mkWeights {
  w_capability : Q;
  w_performance : Q;
  w_cost : Q;
  w_reliability : Q
}.

(** The [weights] dict after the context-based adjustments. *)
Definition weights_for (context : option Dict) : Weights :=
  let weights :=
    {| w_capability := 0.35; w_performance := 0.25; w_cost := 0.25; w_reliability := 0.15 |} in
  if truthy_dict context then
    if eq_str (oget context "priority") "cost" then
      {| w_capability := 0.25; w_performance := w_performance weights;
         w_cost := 0.4; w_reliability := w_reliability weights |}
    else if eq_str (oget context "priority") "performance" then
      {| w_capability := w_capability weights; w_performance := 0.4;
         w_cost := 0.15; w_reliability := w_reliability weights |}
    else if eq_str (oget context "priority") "quality" then
      {| w_capability := 0.5; w_performance := w_performance weights;
         w_cost := 0.15; w_reliability := w_reliability weights |}
    else weights
  else weights.

Definition _calculate_provider_score (self : ProviderSelector)
           (provider : ProviderConfig) (complexity_score : ComplexityScore)
           (context constraints : option Dict) : Result Q :=
  let capability_score := _calculate_capability_score provider complexity_score in
  let performance_score := _calculate_performance_score self provider in
  cost_score ← _calculate_cost_score provider constraints;
  let reliability_score := _calculate_reliability_score provider in
  let weights := weights_for context in
  Ok (capability_score * w_capability weights +
      performance_score * w_performance weights +
      cost_score * w_cost weights +
      reliability_score * w_reliability weights).

(** [provider_scores.sort(key=lambda x: x[1], reverse=True)]: a stable
    sort, highest score first; equal scores keep their order. *)
Fixpoint insert_desc (x : ProviderConfig * Q) (l : list (ProviderConfig * Q))
  : list (ProviderConfig * Q) :=
  match l with
  | [] => [x]
  | y :: l' => if Qlt_le_dec (snd x) (snd y) then y :: insert_desc x l' else x :: l
  end.

Definition sort_desc (l : list (ProviderConfig * Q)) : list (ProviderConfig * Q) :=
  fold_right insert_desc [] l.

(** The scoring loop of [select_provider]. *)
Fixpoint score_loop (self : ProviderSelector) (available : list ProviderConfig)
         (complexity_score : ComplexityScore) (context constraints : option Dict)
         (provider_scores : list (ProviderConfig * Q))
  : Result (list (ProviderConfig * Q)) :=
  match available with
  | [] => Ok provider_scores
  | provider :: rest =>
      score ← _calculate_provider_score self provider complexity_score context constraints;
      score_loop self rest complexity_score context constraints
                 (provider_scores ++ [(provider, score)])
  end.

Definition select_provider (self : ProviderSelector)
           (complexity_score : ComplexityScore) (context constraints : option Dict)
  : Result (option ProviderConfig) * ProviderSelector :=
  match _filter_available_providers self constraints with
  | Raise e => (Raise e, self)
  | Ok [] => (Ok None, log self (Warning "No available providers found"))
  | Ok available =>
      match score_loop self available complexity_score context constraints [] with
      | Raise e => (Raise e, self)
      | Ok provider_scores =>
          match sort_desc provider_scores with
          | [] => (Raise IndexError, self)
          | (selected_provider, score) :: _ =>
              (Ok (Some selected_provider),
               log self (Info "Selected provider" (name selected_provider) score))
          end
      end
  end.

Definition update_provider_metrics (self : ProviderSelector) (provider_name : string)
           (response_time : Q) (success : bool) (cost_efficiency : Q) (now : Q)
  : ProviderSelector :=
  let metrics :=
    match performance_metrics self !! provider_name with
    | None => fresh provider_name now
    | Some metrics => metrics
    end in
  let alpha := 0.1 in
  let avg_response_time' := (1 - alpha) * avg_response_time metrics + alpha * response_time in
  let avg_cost_efficiency' :=
    (1 - alpha) * avg_cost_efficiency metrics + alpha * cost_efficiency in
  let request_count' := (request_count metrics + 1)%Z in
  let success_rate' :=
    if success then (1 - alpha) * success_rate metrics + alpha * 1.0
    else (1 - alpha) * success_rate metrics + alpha * 0.0 in
  let metrics' :=
    {| perf_name := perf_name metrics; success_rate := success_rate';
       avg_response_time := avg_response_time';
       avg_cost_efficiency := avg_cost_efficiency';
       last_updated := now; request_count := request_count' |} in
  {| providers := providers self;
     performance_metrics := <[provider_name := metrics']> (performance_metrics self);
     logger := logger self ++
               [Debug "Updated metrics" provider_name success_rate' avg_response_time'] |}.

(** [rankings.sort(key=lambda x: x[1], reverse=True)] on (name, score)
    pairs: the same stable sort, highest score first. *)
Fixpoint insert_ranking (x : string * Q) (l : list (string * Q)) : list (string * Q) :=
  match l with
  | [] => [x]
  | y :: l' => if Qlt_le_dec (snd x) (snd y) then y :: insert_ranking x l' else x :: l
  end.

Definition sort_rankings (l : list (string * Q)) : list (string * Q) :=
  fold_right insert_ranking [] l.

(** The loop of [get_provider_rankings]: every provider of the registry,
    scored without context and without constraints. *)
Fixpoint rankings_loop (self : ProviderSelector) (ps : list ProviderConfig)
         (complexity_score : ComplexityScore) (rankings : list (string * Q))
  : Result (list (string * Q)) :=
  match ps with
  | [] => Ok rankings
  | provider :: ps' =>
      score ← _calculate_provider_score self provider complexity_score None None;
      rankings_loop self ps' complexity_score (rankings ++ [(name provider, score)])
  end.

(** [get_provider_rankings], called where [asyncio.run] is allowed (no
    event loop running in the calling thread). *)
Definition get_provider_rankings (self : ProviderSelector)
           (complexity_score : ComplexityScore) : Result (list (string * Q)) :=
  rankings ← rankings_loop self (map snd (providers self)) complexity_score [];
  Ok (sort_rankings rankings).

End Selector.

(* ===================================================================== *)
(** * [monitoring/metrics_collector.py] *)
(* ===================================================================== *)

Module Metrics.

Record RequestMetric : Type := mkRequestMetric {
  timestamp : Q;
  provider : string;
  model : string;
  success : bool;
  response_time : Q;
  cost : Q;
  input_tokens : Z;
  output_tokens : Z;
  complexity_level : string;
  error_type : option string
}.

Record ProviderMetrics : Type := mkProviderMetrics {
  name : string;
  total_requests : Z;
  successful_requests : Z;
  failed_requests : Z;
  total_response_time : Q;
  total_cost : Q;
  total_tokens : Z;
  last_request_time : option Q;
  error_counts : gmap string Z
}.

(** [ProviderMetrics(name=provider_name)] *)
Definition fresh (provider_name : string) : ProviderMetrics :=
  {| name := provider_name; total_requests := 0; successful_requests := 0;
     failed_requests := 0; total_response_time := 0.0; total_cost := 0.0;
     total_tokens := 0; last_request_time := None; error_counts := ∅ |}.

(** One value of [hourly_stats]: the dict with the keys ["requests"],
    ["successes"], ["total_cost"], ["total_response_time"], ["providers"]
    (a [defaultdict(int)]) and ["complexity"]. *)
Record HourStats : Type := mkHourStats {
  h_requests : Z;
  h_successes : Z;
  h_total_cost : Q;
  h_total_response_time : Q;
  h_providers : gmap string Z;
  h_complexity : gmap string Z
}.

(** [{"low": 0, "medium": 0, "high": 0}] *)
Definition zero_levels : gmap string Z :=
  <["high" := 0%Z]> (<["medium" := 0%Z]> (<["low" := 0%Z]> ∅)).

Definition fresh_hour : HourStats :=
  {| h_requests := 0; h_successes := 0; h_total_cost := 0.0;
     h_total_response_time := 0.0; h_providers := ∅; h_complexity := zero_levels |}.

Inductive LogRecord : Type :=
| Debug (msg : string) (provider_name : string) (success : bool) (response_time : Q)
| Info (msg : string) (hours : Z).

Record MetricsCollector : Type := mkMetricsCollector {
  retention_hours : Z;
  start_time : Q;
  request_metrics : list RequestMetric;
  provider_metrics : gmap string ProviderMetrics;
  hourly_stats : gmap string HourStats;
  complexity_stats : gmap string Z;
  logger : list LogRecord
}.

Definition __init__ (retention_hours : Z) (now : Q) : MetricsCollector :=
  {| retention_hours := retention_hours; start_time := now;
     request_metrics := []; provider_metrics := ∅; hourly_stats := ∅;
     complexity_stats := zero_levels; logger := [] |}.

Definition set_request_metrics (self : MetricsCollector) (l : list RequestMetric) :=
  {| retention_hours := retention_hours self; start_time := start_time self;
     request_metrics := l; provider_metrics := provider_metrics self;
     hourly_stats := hourly_stats self; complexity_stats := complexity_stats self;
     logger := logger self |}.

Definition set_provider_metrics (self : MetricsCollector) (m : gmap string ProviderMetrics) :=
  {| retention_hours := retention_hours self; start_time := start_time self;
     request_metrics := request_metrics self; provider_metrics := m;
     hourly_stats := hourly_stats self; complexity_stats := complexity_stats self;
     logger := logger self |}.

Definition set_hourly_stats (self : MetricsCollector) (m : gmap string HourStats) :=
  {| retention_hours := retention_hours self; start_time := start_time self;
     request_metrics := request_metrics self; provider_metrics := provider_metrics self;
     hourly_stats := m; complexity_stats := complexity_stats self;
     logger := logger self |}.

Definition set_complexity_stats (self : MetricsCollector) (m : gmap string Z) :=
  {| retention_hours := retention_hours self; start_time := start_time self;
     request_metrics := request_metrics self; provider_metrics := provider_metrics self;
     hourly_stats := hourly_stats self; complexity_stats := m;
     logger := logger self |}.

Definition log (self : MetricsCollector) (r : LogRecord) :=
  {| retention_hours := retention_hours self; start_time := start_time self;
     request_metrics := request_metrics self; provider_metrics := provider_metrics self;
     hourly_stats := hourly_stats self; complexity_stats := complexity_stats self;
     logger := logger self ++ [r] |}.

(** The aggregate record of a provider after one more request. *)
Definition aggregate (pm : ProviderMetrics) (metric : RequestMetric) : ProviderMetrics :=
  let failed_with_type :=
    match error_type metric with
    | Some e => negb (success metric) && negb (String.eqb e "")
    | None => false
    end in
  {| name := name pm;
     total_requests := (total_requests pm + 1)%Z;
     successful_requests :=
       if success metric then (successful_requests pm + 1)%Z else successful_requests pm;
     failed_requests :=
       if success metric then failed_requests pm else (failed_requests pm + 1)%Z;
     total_response_time := total_response_time pm + response_time metric;
     total_cost := total_cost pm + cost metric;
     total_tokens := (total_tokens pm + (input_tokens metric + output_tokens metric))%Z;
     last_request_time := Some (timestamp metric);
     error_counts :=
       match error_type metric with
       | Some e =>
           if failed_with_type
           then <[e := (default 0%Z (error_counts pm !! e) + 1)%Z]> (error_counts pm)
           else error_counts pm
       | None => error_counts pm
       end |}.

Definition _update_provider_metrics (self : MetricsCollector) (metric : RequestMetric)
  : MetricsCollector :=
  let provider_name := provider metric in
  let pm := default (fresh provider_name) (provider_metrics self !! provider_name) in
  set_provider_metrics self (<[provider_name := aggregate pm metric]> (provider_metrics self)).

(** ** The derived properties of [ProviderMetrics] *)

Definition success_rate (pm : ProviderMetrics) : Q :=
  if (0 <? total_requests pm)%Z
  then inject_Z (successful_requests pm) / inject_Z (total_requests pm) else 0.0.

Definition avg_response_time (pm : ProviderMetrics) : Q :=
  if (0 <? total_requests pm)%Z
  then total_response_time pm / inject_Z (total_requests pm) else 0.0.

Definition avg_cost_per_request (pm : ProviderMetrics) : Q :=
  if (0 <? total_requests pm)%Z
  then total_cost pm / inject_Z (total_requests pm) else 0.0.

(** ** Reports *)

(** The dict [get_system_metrics] returns. *)
Record SystemMetrics : Type := mkSystemMetrics {
  sm_uptime : Q;
  sm_total_requests : Z;
  sm_successful_requests : Z;
  sm_failed_requests : Z;
  sm_success_rate : Q;
  sm_avg_response_time : Q;
  sm_total_cost : Q;
  sm_cost_savings : Q;
  sm_cost_savings_percentage : Q;
  sm_active_providers : Z;
  sm_complexity_distribution : gmap string Z;
  sm_requests_per_hour : Z
}.

(** [sum(...)] of a generator of numbers. *)
Definition sum (l : list Q) : Q := fold_left Qplus l 0.

Definition len {A} (l : list A) : Z := Z.of_nat (length l).

(** [_calculate_requests_per_hour]: the requests of the last 3600 seconds. *)
Definition _calculate_requests_per_hour (self : MetricsCollector) (now : Q) : Z :=
  match request_metrics self with
  | [] => 0
  | _ =>
      let one_hour_ago := now - 3600 in
      len (List.filter (fun m => Qltb one_hour_ago (timestamp m)) (request_metrics self))
  end.

(** [get_system_metrics]; [now] is the clock read for the uptime and [later]
    the one read for the requests of the last hour. *)
Definition get_system_metrics (self : MetricsCollector) (now later : Q) : SystemMetrics :=
  let total_requests := len (request_metrics self) in
  let successful_requests := len (List.filter success (request_metrics self)) in
  let failed_requests := (total_requests - successful_requests)%Z in
  let total_cost := sum (map cost (request_metrics self)) in
  let total_response_time := sum (map response_time (request_metrics self)) in
  let estimated_premium_cost := inject_Z total_requests * 0.002 in
  let cost_savings := Qmax 0 (estimated_premium_cost - total_cost) in
  {| sm_uptime := now - start_time self;
     sm_total_requests := total_requests;
     sm_successful_requests := successful_requests;
     sm_failed_requests := failed_requests;
     sm_success_rate :=
       if (0 <? total_requests)%Z
       then inject_Z successful_requests / inject_Z total_requests else 0;
     sm_avg_response_time :=
       if (0 <? total_requests)%Z then total_response_time / inject_Z total_requests else 0;
     sm_total_cost := total_cost;
     sm_cost_savings := cost_savings;
     sm_cost_savings_percentage :=
       if Qltb 0 estimated_premium_cost
       then cost_savings / estimated_premium_cost * 100 else 0;
     sm_active_providers := Z.of_nat (size (provider_metrics self));
     sm_complexity_distribution := complexity_stats self;
     sm_requests_per_hour := _calculate_requests_per_hour self later |}.

(** The dict [get_provider_metrics] returns: six entries for a provider
    never seen, eleven otherwise.  [last_used] holds the time stamp that is
    formatted, [None] when [last_request_time] is false in the condition. *)
Record ProviderDetails : Type := mkProviderDetails {
  pd_successful_requests : Z;
  pd_failed_requests : Z;
  pd_avg_cost_per_request : Q;
  pd_total_tokens : Z;
  pd_error_breakdown : gmap string Z
}.

Record ProviderReport : Type := mkProviderReport {
  pr_name : string;
  pr_total_requests : Z;
  pr_success_rate : Q;
  pr_avg_response_time : Q;
  pr_total_cost : Q;
  pr_last_used : option Q;
  pr_details : option ProviderDetails
}.

Definition get_provider_metrics (self : MetricsCollector) (provider_name : string)
  : ProviderReport :=
  match provider_metrics self !! provider_name with
  | None =>
      {| pr_name := provider_name; pr_total_requests := 0; pr_success_rate := 0;
         pr_avg_response_time := 0; pr_total_cost := 0; pr_last_used := None;
         pr_details := None |}
  | Some pm =>
      {| pr_name := name pm;
         pr_total_requests := total_requests pm;
         pr_success_rate := success_rate pm;
         pr_avg_response_time := avg_response_time pm;
         pr_total_cost := total_cost pm;
         pr_last_used :=
           match last_request_time pm with
           | Some t => if Qeq_bool t 0 then None else Some t
           | None => None
           end;
         pr_details :=
           Some {| pd_successful_requests := successful_requests pm;
                   pd_failed_requests := failed_requests pm;
                   pd_avg_cost_per_request := avg_cost_per_request pm;
                   pd_total_tokens := total_tokens pm;
                   pd_error_breakdown := error_counts pm |} |}
  end.

Section Clock.

(** [datetime.fromtimestamp(t).strftime("%Y-%m-%d-%H")], which depends on
    the local time zone of the process. *)
Variable hour_key_of : Q -> string.

(** The bucket is updated field by field, so the increments before
    [stats["complexity"][level] += 1] survive a [KeyError] raised there. *)
Definition _update_hourly_stats (self : MetricsCollector) (metric : RequestMetric)
  : Result unit * MetricsCollector :=
  let hour_key := hour_key_of (timestamp metric) in
  let stats := default fresh_hour (hourly_stats self !! hour_key) in
  let stats :=
    {| h_requests := (h_requests stats + 1)%Z;
       h_successes := h_successes stats;
       h_total_cost := h_total_cost stats + cost metric;
       h_total_response_time := h_total_response_time stats + response_time metric;
       h_providers :=
         <[provider metric := (default 0%Z (h_providers stats !! provider metric) + 1)%Z]>
           (h_providers stats);
       h_complexity := h_complexity stats |} in
  match h_complexity stats !! complexity_level metric with
  | None => (Raise KeyError, set_hourly_stats self (<[hour_key := stats]> (hourly_stats self)))
  | Some n =>
      let stats :=
        {| h_requests := h_requests stats;
           h_successes :=
             if success metric then (h_successes stats + 1)%Z else h_successes stats;
           h_total_cost := h_total_cost stats;
           h_total_response_time := h_total_response_time stats;
           h_providers := h_providers stats;
           h_complexity := <[complexity_level metric := (n + 1)%Z]> (h_complexity stats) |} in
      (Ok (), set_hourly_stats self (<[hour_key := stats]> (hourly_stats self)))
  end.

Definition record_request (self : MetricsCollector) (provider_name model : string)
           (success : bool) (response_time cost : Q) (input_tokens output_tokens : Z)
           (complexity_level : string) (error_type : option string) (now : Q)
  : Result unit * MetricsCollector :=
  let metric :=
    {| timestamp := now; provider := provider_name; model := model;
       success := success; response_time := response_time; cost := cost;
       input_tokens := input_tokens; output_tokens := output_tokens;
       complexity_level := complexity_level; error_type := error_type |} in
  let self := set_request_metrics self (request_metrics self ++ [metric]) in
  let self := _update_provider_metrics self metric in
  match complexity_stats self !! complexity_level with
  | None => (Raise KeyError, self)
  | Some n =>
      let self :=
        set_complexity_stats self (<[complexity_level := (n + 1)%Z]> (complexity_stats self)) in
      match _update_hourly_stats self metric with
      | (Raise e, self) => (Raise e, self)
      | (Ok _, self) =>
          (Ok (), log self (Debug "Recorded metric" provider_name success response_time))
      end
  end.

Definition _cleanup_old_metrics (self : MetricsCollector) (now : Q) : MetricsCollector :=
  let cutoff_time := now - inject_Z (retention_hours self * 3600) in
  let self :=
    set_request_metrics self
      (filter (fun m => Is_true (Qltb cutoff_time (timestamp m))) (request_metrics self)) in
  let cutoff_hour := hour_key_of cutoff_time in
  let self :=
    set_hourly_stats self
      (filter (fun kv => ¬ Is_true (String.ltb (fst kv) cutoff_hour)) (hourly_stats self)) in
  log self (Info "Cleaned up metrics older than" (retention_hours self)).

(** The collector states a process can be in: built by [__init__], then
    changed only by [record_request] (whether it returns or raises) and
    by the periodic [_cleanup_old_metrics]. *)
Inductive reachable : MetricsCollector -> Prop :=
| reach_init retention now : reachable (__init__ retention now)
| reach_record self provider_name model success response_time cost
               input_tokens output_tokens complexity_level error_type now :
    reachable self ->
    reachable (snd (record_request self provider_name model success response_time cost
                                   input_tokens output_tokens complexity_level
                                   error_type now))
| reach_cleanup self now :
    reachable self -> reachable (_cleanup_old_metrics self now).

End Clock.

End Metrics.

(* ===================================================================== *)
(** * [cost/token_counter.py]: the choice of the model to price *)
(* ===================================================================== *)

Module TokenCounter.

(** [self.provider_model_mapping]: per provider key, the default model and
    the list of models. *)
Definition provider_model_mapping : list (string * (string * list string)) :=
  [ ("openai", ("gpt-3.5-turbo", ["gpt-3.5-turbo"; "gpt-4"; "gpt-4-turbo"]));
    ("anthropic", ("claude-3-5-sonnet", ["claude-3-5-sonnet"; "claude-3-haiku"]));
    ("cohere", ("command", ["command"; "command-light"]));
    ("together", ("meta-llama/Llama-2-7b-chat-hf",
                  ["meta-llama/Llama-2-7b-chat-hf"; "mistralai/Mixtral-8x7B-Instruct-v0.1"]));
    ("local_ollama", ("llama2", ["llama2"; "codellama"; "mistral"])) ]%string.

Fixpoint mapping_get (m : list (string * (string * list string))) (key : string)
  : option (string * list string) :=
  match m with
  | [] => None
  | (k, v) :: rest => if String.eqb k key then Some v else mapping_get rest key
  end.

(** [provider.lower().replace(' ', '_').replace('-', '_')] *)
Definition provider_key (provider : string) : string :=
  Text.replace_char "-"%char "_"%char
    (Text.replace_char " "%char "_"%char (Text.lower provider)).

(** [_get_effective_model]; [model] is [None] or a string, and the empty
    string counts as no model. *)
Definition _get_effective_model (provider : string) (model : option string) : string :=
  let provider_key := provider_key provider in
  let given := match model with Some m => negb (String.eqb m "") | None => false end in
  if given then
    let model := default ""%string model in
    match mapping_get provider_model_mapping provider_key with
    | Some (_, models) =>
        if existsb (String.eqb model) models then model else model
    | None => model
    end
  else
    match mapping_get provider_model_mapping provider_key with
    | Some (default_model, _) => default_model
    | None => "gpt-3.5-turbo"%string
    end.

Definition get_supported_models (provider : string) : list string :=
  match mapping_get provider_model_mapping (provider_key provider) with
  | Some (_, models) => models
  | None => []
  end.

Definition get_default_model (provider : string) : string :=
  match mapping_get provider_model_mapping (provider_key provider) with
  | Some (default_model, _) => default_model
  | None => "gpt-3.5-turbo"%string
  end.

End TokenCounter.

(* ===================================================================== *)
(** * Predicates and sample data used in the statements *)
(* ===================================================================== *)

Definition in_unit (x : Q) : Prop := 0 <= x <= 1.

Definition is_str (v : PyVal) : bool :=
  match v with PyStr _ => true | _ => false end.

Definition is_num (v : PyVal) : bool :=
  match v with PyNum _ => true | _ => false end.

(** A hint the analyzer can read: skipped in the condition (absent, [None],
    zero, empty) or a string. *)
Definition readable_hint (v : PyVal) : bool := negb (truthy v) || is_str v.

Definition hints_are_strings (context : option Dict) : Prop :=
  match context with
  | None => True
  | Some d =>
      readable_hint (get d "complexity_hint") = true /\
      readable_hint (get d "domain") = true
  end.

(** What the filter step demands of every provider it lets through. *)
Definition eligible (p : Loader.ProviderConfig) : Prop :=
  0.1 <= Loader.health_score p /\
  ~ (Loader.tier p <> Loader.UNOFFICIAL /\ Loader.api_key p = ""%string).

(** A numeric field that is skipped or holds a number. *)
Definition ok_bound (v : PyVal) : bool := negb (truthy v) || is_num v.

(** One of the three tier strings. *)
Definition is_tier_value (v : PyVal) : bool :=
  eq_str v "official" || eq_str v "community" || eq_str v "unofficial".

(** A tier constraint that is skipped or is a list of tier strings. *)
Definition ok_tiers (v : PyVal) : bool :=
  negb (truthy v) || match v with PyList l => forallb is_tier_value l | _ => false end.

(** Constraints of the documented types: numeric bounds and budget weight,
    a list of tier strings.  ([required_model] is only compared for
    equality, which no value can fail.) *)
Definition well_formed_constraints (constraints : option Dict) : Prop :=
  match constraints with
  | None => True
  | Some d =>
      ok_bound (get d "max_cost_per_1k") = true /\
      ok_bound (get d "max_timeout") = true /\
      ok_tiers (get d "allowed_tiers") = true /\
      ok_bound (get d "budget_weight") = true
  end.

(** A bound that is present (true in a condition) but is not a number. *)
Definition malformed_bound (v : PyVal) : bool := negb (ok_bound v).

(** A tier constraint that is present but is not a list of tier strings. *)
Definition malformed_tiers (v : PyVal) : bool := negb (ok_tiers v).

(** The bound [v] is skipped, or is a number that [x] does not exceed. *)
Definition bound_allows (x : Q) (v : PyVal) : bool :=
  negb (truthy v) || match v with PyNum q => negb (Qltb q x) | _ => false end.

(** The integers that convert to a float.  [n / 1000.0] and [x * n] convert
    an [int] operand first and raise [OverflowError] from [2^1024 - 2^970]
    on, the first integer that rounds to [2^1024]; the embedding has no such
    exception, so this range is a premise where a score is asserted. *)
Definition float_limit : Z := (2 ^ 1024 - 2 ^ 970)%Z.

Definition fits_float (n : Z) : Prop := (Z.abs n < float_limit)%Z.


(** The tracker invariant on one record. *)
Definition bounded (r : Selector.ProviderPerformance) : Prop :=
  in_unit (Selector.success_rate r) /\ in_unit (Selector.avg_cost_efficiency r).

(** One call of [update_provider_metrics], with the clock it reads. *)
Record MetricsUpdate : Type := mkMetricsUpdate {
  u_provider_name : string;
  u_response_time : Q;
  u_success : bool;
  u_cost_efficiency : Q;
  u_now : Q
}.

Definition apply_update (self : Selector.ProviderSelector) (u : MetricsUpdate)
  : Selector.ProviderSelector :=
  Selector.update_provider_metrics self (u_provider_name u) (u_response_time u)
    (u_success u) (u_cost_efficiency u) (u_now u).

Definition apply_updates (self : Selector.ProviderSelector) (us : list MetricsUpdate)
  : Selector.ProviderSelector :=
  fold_left apply_update us self.

(** [request_count] of a provider's record, 0 before the record exists. *)
Definition request_count_of (self : Selector.ProviderSelector) (provider_name : string) : Z :=
  match Selector.performance_metrics self !! provider_name with
  | Some r => Selector.request_count r
  | None => 0%Z
  end.

(** The three keys of the complexity counters. *)
Definition known_levels : list string := ["low"; "medium"; "high"].

(** Every complexity counter of the collector has exactly the three keys. *)
Definition counters_keyed (self : Metrics.MetricsCollector) : Prop :=
  dom (Metrics.complexity_stats self) = dom Metrics.zero_levels /\
  forall hour stats,
    Metrics.hourly_stats self !! hour = Some stats ->
    dom (Metrics.h_complexity stats) = dom Metrics.zero_levels.

(** ** Predicates for the further properties of the selector *)

(** The tier constraint [v] is skipped, or is a list naming the tier [t]. *)
Definition tier_allowed (t : Loader.ProviderTier) (v : PyVal) : bool :=
  negb (truthy v) ||
  match v with
  | PyList l =>
      existsb (fun x => match Loader.ProviderTier_of x with
                        | Ok t' => Loader.ProviderTier_eqb t t'
                        | Raise _ => false
                        end) l
  | _ => false
  end.

(** The model constraint [v] is skipped, or is one of [models]. *)
Definition model_offered (models : list string) (v : PyVal) : bool :=
  negb (truthy v) || existsb (eq_str v) models.

(** The conditions of the filter step as one test on a provider: key and
    health, then every constraint that is present. *)
Definition passes (constraints : option Dict) (p : Loader.ProviderConfig) : bool :=
  (Loader.ProviderTier_eqb (Loader.tier p) Loader.UNOFFICIAL
   || negb (String.eqb (Loader.api_key p) "")) &&
  negb (Qltb (Loader.health_score p) 0.1) &&
  (negb (truthy_dict constraints) ||
   bound_allows (Loader.cost_per_1k_tokens p) (oget constraints "max_cost_per_1k") &&
   bound_allows (inject_Z (Loader.timeout p)) (oget constraints "max_timeout") &&
   tier_allowed (Loader.tier p) (oget constraints "allowed_tiers") &&
   model_offered (Loader.models p) (oget constraints "required_model")).

(** Scores in non-increasing order: each entry is at least every later one. *)
Definition descending {A} (l : list (A * Q)) : Prop :=
  forall i j x y, (i < j)%nat -> l !! i = Some x -> l !! j = Some y -> snd y <= snd x.

(** The four constraint fields of the filter step are all skipped. *)
Definition all_skipped (d : Dict) : Prop :=
  truthy (get d "max_cost_per_1k") = false /\
  truthy (get d "max_timeout") = false /\
  truthy (get d "allowed_tiers") = false /\
  truthy (get d "required_model") = false.

(** The task asks no more than the tier offers, on every axis. *)
Definition covered_by (cs caps : Engine.ComplexityScore) : Prop :=
  Engine.reasoning cs <= Engine.reasoning caps /\
  Engine.knowledge cs <= Engine.knowledge caps /\
  Engine.computation cs <= Engine.computation caps /\
  Engine.coordination cs <= Engine.coordination caps.

(** [success_rate] of a provider's record, 1.0 before the record exists. *)
Definition success_rate_of (self : Selector.ProviderSelector) (provider_name : string) : Q :=
  match Selector.performance_metrics self !! provider_name with
  | Some r => Selector.success_rate r
  | None => 1.0
  end.

(** The record the selector reads for a provider, if any, is within range. *)
Definition tracked_in_range (self : Selector.ProviderSelector) (p : Loader.ProviderConfig)
  : Prop :=
  forall r, Selector.performance_metrics self !! Loader.name p = Some r ->
            bounded r /\ 0 <= Selector.avg_response_time r.

(** ** Predicates for the properties of the loader *)

(** A provider record [validate_providers] has nothing to say about. *)
Definition valid_config (p : Loader.ProviderConfig) : Prop :=
  (Text.startswith (Loader.base_url p) "http://" = true \/
   Text.startswith (Loader.base_url p) "https://" = true) /\
  Loader.models p <> [] /\
  (Loader.tier p = Loader.OFFICIAL -> Loader.api_key p <> ""%string) /\
  (0 < Loader.timeout p)%Z /\
  (0 < Loader.max_requests_per_minute p)%Z /\
  0 <= Loader.cost_per_1k_tokens p.

(** The registry invariant: keys are unique, and each is the lower-cased
    name of the record it holds. *)
Definition keyed_by_name (providers : list (string * Loader.ProviderConfig)) : Prop :=
  NoDup (map fst providers) /\
  forall k p, (k, p) ∈ providers -> k = Text.lower (Loader.name p).

(** Priorities in non-decreasing order. *)
Definition ascending_priority (l : list Loader.ProviderConfig) : Prop :=
  forall i j x y, (i < j)%nat -> l !! i = Some x -> l !! j = Some y ->
                  (Loader.priority x <= Loader.priority y)%Z.

(** The providers of priority [k], in the order of the list. *)
Definition with_priority (k : Z) (l : list Loader.ProviderConfig)
  : list Loader.ProviderConfig :=
  List.filter (fun p => (Loader.priority p =? k)%Z) l.

(** ** Predicates for the further properties of the collector *)

(** The three complexity counters of a dict, added up. *)
Definition level_sum (m : gmap string Z) : Z :=
  (default 0 (m !! "low"%string) + default 0 (m !! "medium"%string)
   + default 0 (m !! "high"%string))%Z.

(** An aggregate record that adds up, stored under its own name. *)
Definition aggregate_consistent (key : string) (pm : Metrics.ProviderMetrics) : Prop :=
  Metrics.name pm = key /\
  (Metrics.total_requests pm =
   Metrics.successful_requests pm + Metrics.failed_requests pm)%Z /\
  (0 <= Metrics.successful_requests pm)%Z /\ (0 <= Metrics.failed_requests pm)%Z.

(** The requests of a provider that are still in the log. *)
Definition logged_requests (self : Metrics.MetricsCollector) (provider_name : string) : Z :=
  Metrics.len (List.filter (fun m => String.eqb (Metrics.provider m) provider_name)
                           (Metrics.request_metrics self)).

(** [total_requests] of a provider's aggregate, 0 before it exists. *)
Definition total_requests_of (self : Metrics.MetricsCollector) (provider_name : string) : Z :=
  match Metrics.provider_metrics self !! provider_name with
  | Some pm => Metrics.total_requests pm
  | None => 0%Z
  end.

(** ** Predicates for the further properties of the analyzer *)

(** Every axis of [a] is at most the same axis of [b]. *)
Definition axes_le (a b : Engine.ComplexityScore) : Prop :=
  Engine.reasoning a <= Engine.reasoning b /\
  Engine.knowledge a <= Engine.knowledge b /\
  Engine.computation a <= Engine.computation b /\
  Engine.coordination a <= Engine.coordination b.

(** ** A small registry: the three providers of the end-to-end scenario *)

Definition P1 : Loader.ProviderConfig :=
  Loader.mkProviderConfig "P1" Loader.OFFICIAL "https://api.p1.example" "sk-1" ["m-large"]
    30 60 0.0001 1 1.0 "".

Definition P2 : Loader.ProviderConfig :=
  Loader.mkProviderConfig "P2" Loader.COMMUNITY "https://api.p2.example" "sk-2" ["m-small"]
    30 60 0.00005 2 1.0 "".

Definition P3 : Loader.ProviderConfig :=
  Loader.mkProviderConfig "P3" Loader.UNOFFICIAL "http://localhost:8000" "" ["m-local"]
    30 60 0.0 3 0.05 "".


Definition registry : Selector.ProviderSelector :=
  Selector.__init__ [("p1"%string, P1); ("p2"%string, P2); ("p3"%string, P3)] 0.


Definition low_complexity : Engine.ComplexityScore :=
  Engine.mkComplexityScore 0.1 0.1 0.1 0.1.

(** A text with five capitalized names and no knowledge keyword. *)
Definition names_text : string := "Alice met Bob, Carol and Dave in Paris".

(** ** Sample rows of a provider file *)

(** A row without the numeric columns, which then take their defaults. *)
Definition sample_row (name tier api_key : string) : Loader.Row :=
  [("Name"%string, Some name); ("Tier"%string, Some tier);
   ("Base_URL"%string, Some "https://api.example.com"%string);
   ("APIKey"%string, Some api_key);
   ("Model(s)"%string, Some "gpt-4 | gpt-3.5-turbo |"%string)].

(** Stand-ins for [int], [float] and the environment where none is read. *)
Definition no_int : string -> option Z := fun _ => None.
Definition no_float : string -> option Q := fun _ => None.
Definition no_env : string -> option string := fun _ => None.

(** ** A collector that has recorded one request *)

Definition fixed_hour : Q -> string := fun _ => "2026-01-01-00"%string.

Definition one_request : Metrics.MetricsCollector :=
  snd (Metrics.record_request fixed_hour (Metrics.__init__ 24 0)
         "p1" "m-large" true 0.25 0.001 10 20 "low" None 1).

(* ===================================================================== *)
(** * Properties of the complexity analyzer *)
(* ===================================================================== *)

Ltac split_ifs :=
  repeat match goal with |- context [if ?b then _ else _] => destruct b end.

Section EngineFacts.
Import Text Engine.

Lemma of_nat_nonneg n : 0 <= of_nat n.
Proof. unfold of_nat, Qle; simpl; lia. Qed.

Lemma add_each_nonneg {A} (test : A -> bool) w xs : forall score,
  0 <= w -> 0 <= score -> 0 <= add_each test w xs score.
Proof.
  unfold add_each. induction xs as [|x xs IH]; intros score Hw Hs; simpl; [exact Hs|].
  apply IH; [exact Hw|]. destruct (test x); lra.
Qed.

Lemma Qmin_unit x : 0 <= x -> in_unit (Qmin 1.0 x).
Proof.
  intros Hx. split.
  - apply Q.min_glb; lra.
  - pose proof (Q.le_min_l 1.0 x). lra.
Qed.

Lemma keyword_part_nonneg cap kws c w :
  0 <= cap -> 0 <= w -> 0 <= Qmin cap (of_nat (count_in kws c) * w).
Proof.
  intros Hcap Hw. apply Q.min_glb; [exact Hcap|].
  apply Qmult_le_0_compat; [apply of_nat_nonneg | exact Hw].
Qed.

Lemma reasoning_range c : in_unit (_calculate_reasoning_score c).
Proof.
  unfold _calculate_reasoning_score. apply Qmin_unit.
  repeat apply add_each_nonneg; try lra.
  pose proof (keyword_part_nonneg 0.5 reasoning_keywords c 0.1). lra.
Qed.

Lemma knowledge_range c : in_unit (_calculate_knowledge_score c).
Proof.
  unfold _calculate_knowledge_score. apply Qmin_unit.
  pose proof (keyword_part_nonneg 0.6 knowledge_keywords c 0.1).
  split_ifs; lra.
Qed.

Lemma computation_range c : in_unit (_calculate_computation_score c).
Proof.
  unfold _calculate_computation_score. apply Qmin_unit.
  pose proof (keyword_part_nonneg 0.5 computation_keywords c 0.15).
  split_ifs; lra.
Qed.

Lemma coordination_range c : in_unit (_calculate_coordination_score c).
Proof.
  unfold _calculate_coordination_score. apply Qmin_unit.
  pose proof (keyword_part_nonneg 0.4 coordination_keywords c 0.1).
  split_ifs; lra.
Qed.

Lemma length_modifier_nonneg c : 0 <= _get_length_modifier c.
Proof. unfold _get_length_modifier. split_ifs; lra. Qed.

Lemma pattern_modifier_nonneg c : 0 <= _get_pattern_modifier c.
Proof.
  unfold _get_pattern_modifier. apply Q.min_glb; [lra|].
  apply add_each_nonneg; lra.
Qed.

(** A readable hint is either skipped or lower-cased without error. *)
Lemma readable_hint_cases v :
  readable_hint v = true ->
  truthy v = false \/ exists s, v = PyStr s /\ truthy v = true.
Proof.
  unfold readable_hint. destruct (truthy v) eqn:Et; [|by left].
  destruct v; cbn; try discriminate. intros _. right. by eexists.
Qed.

Lemma context_modifier_ok d dimension :
  hints_are_strings (Some d) ->
  exists m, _get_context_modifier d dimension = Ok m /\ 0 <= m.
Proof.
  intros [Hh Hd]. unfold _get_context_modifier.
  destruct (readable_hint_cases _ Hh) as [->|(h & -> & ->)];
  destruct (readable_hint_cases _ Hd) as [->|(dm & -> & ->)];
  cbn [str_of mbind Result_bind]; split_ifs;
  cbn [mbind Result_bind]; eexists; (split; [reflexivity | lra]).
Qed.

Lemma final_axis_range s l p :
  0 <= s -> 0 <= l -> 0 <= p -> in_unit (Qmin 1.0 (s * l * p)).
Proof.
  intros Hs Hl Hp. apply Qmin_unit.
  repeat apply Qmult_le_0_compat; assumption.
Qed.

Lemma level_thresholds (score : ComplexityScore) :
  total_score score ==
    (reasoning score + knowledge score + computation score + coordination score) / 4 /\
  (total_score score < 0.4 -> complexity_level score = "low"%string) /\
  (0.4 <= total_score score -> total_score score < 0.7 ->
   complexity_level score = "medium"%string) /\
  (0.7 <= total_score score -> complexity_level score = "high"%string).
Proof.
  split; [reflexivity|]. unfold complexity_level.
  destruct (Qlt_le_dec (total_score score) 0.4) as [H4|H4];
    [|destruct (Qlt_le_dec (total_score score) 0.7) as [H7|H7]];
    (split; [|split]); intros; try reflexivity; lra.
Qed.

(** Claim C1, as amended.  For every content string and every optional
    context whose [complexity_hint] and [domain] entries are strings (or are
    skipped: absent, [None], zero, empty), [analyze_complexity] returns a
    score whose four axes lie in [[0,1]]; its [total_score] is the unweighted
    mean of the four axes, and its [complexity_level] is "low" below 0.4,
    "medium" from 0.4 up to but excluding 0.7, and "high" from 0.7 on. *)
Theorem analyze_complexity_score (content : string) (context : option Dict) :
  hints_are_strings context ->
  exists score,
    analyze_complexity content context = Ok score /\
    in_unit (reasoning score) /\ in_unit (knowledge score) /\
    in_unit (computation score) /\ in_unit (coordination score) /\
    total_score score ==
      (reasoning score + knowledge score + computation score + coordination score) / 4 /\
    (total_score score < 0.4 -> complexity_level score = "low"%string) /\
    (0.4 <= total_score score -> total_score score < 0.7 ->
     complexity_level score = "medium"%string) /\
    (0.7 <= total_score score -> complexity_level score = "high"%string).
Proof.
  intros Hctx.
  pose proof (reasoning_range (lower content)) as [Hr _].
  pose proof (knowledge_range (lower content)) as [Hk _].
  pose proof (computation_range (lower content)) as [Hc _].
  pose proof (coordination_range (lower content)) as [Ho _].
  pose proof (length_modifier_nonneg content) as Hl.
  pose proof (pattern_modifier_nonneg (lower content)) as Hp.
  unfold analyze_complexity.
  destruct context as [[|kv d]|].
  - eexists. split; [reflexivity|]. cbn [reasoning knowledge computation coordination].
    repeat (split; [apply final_axis_range; assumption|]). apply level_thresholds.
  - destruct (context_modifier_ok (kv :: d) "reasoning" Hctx) as (m1 & E1 & H1).
    destruct (context_modifier_ok (kv :: d) "knowledge" Hctx) as (m2 & E2 & H2).
    destruct (context_modifier_ok (kv :: d) "computation" Hctx) as (m3 & E3 & H3).
    destruct (context_modifier_ok (kv :: d) "coordination" Hctx) as (m4 & E4 & H4).
    rewrite E1, E2, E3, E4. cbn [mbind Result_bind].
    eexists. split; [reflexivity|]. cbn [reasoning knowledge computation coordination].
    repeat (split; [apply final_axis_range; try assumption;
                    apply Qmult_le_0_compat; assumption|]).
    apply level_thresholds.
  - eexists. split; [reflexivity|]. cbn [reasoning knowledge computation coordination].
    repeat (split; [apply final_axis_range; assumption|]). apply level_thresholds.
Qed.

(** The analyzer on a request with an upper-case complexity hint. *)
Lemma analyze_complexity_score_witness :
  exists score,
    analyze_complexity "Please analyze and explain why 2 + 2 = 4 if x then y"
                       (Some [("complexity_hint"%string, PyStr "HIGH")]) = Ok score /\
    in_unit (reasoning score) /\ in_unit (knowledge score) /\
    in_unit (computation score) /\ in_unit (coordination score) /\
    total_score score ==
      (reasoning score + knowledge score + computation score + coordination score) / 4 /\
    (total_score score < 0.4 -> complexity_level score = "low"%string) /\
    (0.4 <= total_score score -> total_score score < 0.7 ->
     complexity_level score = "medium"%string) /\
    (0.7 <= total_score score -> complexity_level score = "high"%string).
Proof.
  apply (analyze_complexity_score
           "Please analyze and explain why 2 + 2 = 4 if x then y"
           (Some [("complexity_hint"%string, PyStr "HIGH")])).
  vm_compute. split; reflexivity.
Defined.

(** Claim C1 as stated fails: a context whose [complexity_hint] is the
    number 5 makes [analyze_complexity] raise [AttributeError] at
    [context['complexity_hint'].lower()], so no score is returned. *)
Lemma analyze_complexity_numeric_hint :
  analyze_complexity "explain why" (Some [("complexity_hint"%string, PyNum 5)])
  = Raise AttributeError.
Proof. vm_compute. reflexivity. Qed.

Lemma is_upper_lower_char c : is_upper (lower_char c) = false.
Proof. destruct c as [[] [] [] [] [] [] [] []]; reflexivity. Qed.

Lemma findall_proper_lower s : forall prev_word,
  findall_proper_from prev_word 0 (lower s) = [].
Proof.
  induction s as [|c s IH]; intros prev_word; [reflexivity|].
  cbn [lower findall_proper_from proper_noun_at].
  rewrite is_upper_lower_char, andb_false_r. apply IH.
Qed.

(** Claim C7 against the code.  [analyze_complexity] hands the lower-cased
    content to [_calculate_knowledge_score], and a lower-cased text has no
    match of [\b[A-Z][a-z]+\b]: the proper-noun bonus is never added.  On
    [names_text], with five capitalized names, the scorer itself gives 0.2,
    but the analyzer's knowledge axis is 0, the same as for the text
    written in lower case. *)
Theorem knowledge_score_misses_proper_nouns :
  (forall content, findall_proper (lower content) = []) /\
  length (findall_proper names_text) = 5%nat /\
  _calculate_knowledge_score names_text == 0.2 /\
  exists score score',
    analyze_complexity names_text None = Ok score /\
    analyze_complexity (lower names_text) None = Ok score' /\
    knowledge score == 0 /\ knowledge score' == 0.
Proof.
  split; [intros content; apply findall_proper_lower|].
  split; [reflexivity|]. split; [vm_compute; reflexivity|].
  do 2 eexists. split; [reflexivity|]. split; [reflexivity|].
  split; vm_compute; reflexivity.
Qed.

End EngineFacts.

(* ===================================================================== *)
(** * Properties of the selection engine *)
(* ===================================================================== *)

Section SelectorFacts.
Import Engine Loader Selector.

Lemma ProviderTier_eqb_eq a b : ProviderTier_eqb a b = true <-> a = b.
Proof. destruct a, b; simpl; split; congruence. Qed.

(** ** The filter step *)

Lemma keeps_true p constraints : keeps p constraints = Ok true -> eligible p.
Proof.
  unfold keeps, eligible. intros H.
  destruct (negb (ProviderTier_eqb (tier p) UNOFFICIAL) && String.eqb (api_key p) "") eqn:Ekey;
    [discriminate|].
  destruct (Qlt_le_dec (health_score p) 0.1) as [Hh|Hh]; [discriminate|].
  split; [exact Hh|]. intros [Ht Hk].
  apply andb_false_iff in Ekey as [E|E].
  - apply negb_false_iff, ProviderTier_eqb_eq in E. contradiction.
  - rewrite Hk in E. discriminate.
Qed.

Lemma filter_loop_elem constraints ps : forall available l,
  filter_loop ps constraints available = Ok l ->
  forall x, x ∈ l -> x ∈ available \/ (x ∈ ps /\ keeps x constraints = Ok true).
Proof.
  induction ps as [|p ps IH]; intros available l H x Hx; cbn in H.
  - injection H as <-. left; exact Hx.
  - destruct (keeps p constraints) as [b|e] eqn:Ek; cbn in H; [|discriminate].
    destruct (IH _ _ H x Hx) as [Hin|[Hin Hk]].
    + destruct b.
      * apply elem_of_app in Hin as [Hin|Hin]; [left; exact Hin|].
        apply list_elem_of_singleton in Hin as ->. right. split; [left|exact Ek].
      * left; exact Hin.
    + right. split; [right; exact Hin|exact Hk].
Qed.

Lemma filter_loop_raises constraints p e ps :
  p ∈ ps -> keeps p constraints = Raise e ->
  forall available, raises (filter_loop ps constraints available).
Proof.
  intros Hin Hk. induction ps as [|x ps IH]; intros available; [by apply elem_of_nil in Hin|].
  cbn. destruct (keeps x constraints) as [b|e'] eqn:Ex; cbn; [|exact I].
  apply IH. apply elem_of_cons in Hin as [->|Hin]; [congruence|exact Hin].
Qed.

(** ** Scoring and sorting *)

Lemma score_loop_providers self cs context constraints available : forall acc l,
  score_loop self available cs context constraints acc = Ok l ->
  map fst l = map fst acc ++ available.
Proof.
  induction available as [|p ps IH]; intros acc l H; cbn in H.
  - injection H as <-. by rewrite app_nil_r.
  - destruct (_calculate_provider_score self p cs context constraints) as [s|e]; cbn in H;
      [|discriminate].
    rewrite (IH _ _ H), map_app. cbn. by rewrite <- app_assoc.
Qed.

Lemma insert_desc_perm x l : Permutation (insert_desc x l) (x :: l).
Proof.
  induction l as [|y l IH]; cbn; [reflexivity|].
  destruct (Qlt_le_dec (snd x) (snd y)); [|reflexivity].
  rewrite IH. apply perm_swap.
Qed.

Lemma sort_desc_perm l : Permutation (sort_desc l) l.
Proof.
  induction l as [|x l IH]; cbn; [reflexivity|].
  rewrite insert_desc_perm. by constructor.
Qed.

(** Claim C2.  Whatever the complexity score, context and constraints, a
    provider returned by [select_provider] survived the filter step: it is in
    the list [_filter_available_providers] returned, its [health_score] is at
    least 0.1, and it is not a provider with an empty [api_key] and a tier
    other than UNOFFICIAL. *)
Theorem select_provider_only_eligible self cs context constraints p :
  fst (select_provider self cs context constraints) = Ok (Some p) ->
  (exists available,
      _filter_available_providers self constraints = Ok available /\ p ∈ available) /\
  0.1 <= health_score p /\
  ~ (tier p <> UNOFFICIAL /\ api_key p = ""%string).
Proof.
  unfold select_provider. intros H.
  destruct (_filter_available_providers self constraints) as [available|e] eqn:Ef;
    [|discriminate].
  destruct available as [|a available]; [discriminate|].
  destruct (score_loop self (a :: available) cs context constraints []) as [scores|e] eqn:Es;
    [|discriminate].
  destruct (sort_desc scores) as [|[q s] rest] eqn:Esort; [discriminate|].
  cbn in H. injection H as ->.
  assert (Hin : p ∈ a :: available).
  { apply score_loop_providers in Es. cbn in Es. rewrite <- Es.
    apply (list_elem_of_fmap_2 fst _ (p, s)).
    rewrite <- (sort_desc_perm scores), Esort. left. }
  split; [exists (a :: available); split; [reflexivity|exact Hin]|].
  unfold _filter_available_providers in Ef.
  destruct (filter_loop_elem _ _ _ _ Ef p Hin) as [Hnil|[_ Hk]].
  - by apply elem_of_nil in Hnil.
  - exact (keeps_true _ _ Hk).
Qed.

(** In the three-provider scenario the winner is P1; P3, whose health is
    0.05, is not in the filtered list. *)
Lemma select_provider_only_eligible_witness :
  (exists available,
      _filter_available_providers registry None = Ok available /\ P1 ∈ available) /\
  0.1 <= health_score P1 /\
  ~ (tier P1 <> UNOFFICIAL /\ api_key P1 = ""%string).
Proof.
  apply (select_provider_only_eligible registry low_complexity None None P1).
  vm_compute. reflexivity.
Defined.

(** Claim C8.  [select_provider] leaves the registry and the tracker as they
    were, whether it returns a provider, returns [None] or raises: only the
    log grows. *)
Theorem select_provider_frame self cs context constraints :
  providers (snd (select_provider self cs context constraints)) = providers self /\
  performance_metrics (snd (select_provider self cs context constraints)) =
    performance_metrics self.
Proof.
  unfold select_provider.
  destruct (_filter_available_providers self constraints) as [[|a available]|e];
    [split; reflexivity| |split; reflexivity].
  destruct (score_loop self (a :: available) cs context constraints []) as [scores|e];
    [|split; reflexivity].
  destruct (sort_desc scores) as [|[q s] rest]; split; reflexivity.
Qed.

(** ** Well-formed constraints never raise *)


Lemma tier_value_ok x : is_tier_value x = true -> exists t, ProviderTier_of x = Ok t.
Proof.
  unfold is_tier_value, eq_str, ProviderTier_of.
  destruct x as [|q|s|l]; try discriminate.
  destruct (String.eqb s "official"); [by eexists|].
  destruct (String.eqb s "community"); [by eexists|].
  destruct (String.eqb s "unofficial"); [by eexists|discriminate].
Qed.

Lemma tier_value_bad x : is_tier_value x = false -> ProviderTier_of x = Raise ValueError.
Proof.
  unfold is_tier_value, eq_str, ProviderTier_of.
  destruct x as [|q|s|l]; try reflexivity.
  destruct (String.eqb s "official"); [discriminate|].
  destruct (String.eqb s "community"); [discriminate|].
  destruct (String.eqb s "unofficial"); [discriminate|reflexivity].
Qed.

Lemma tiers_of_ok l : forallb is_tier_value l = true -> exists ts, tiers_of (PyList l) = Ok ts.
Proof.
  induction l as [|x l IH]; cbn; intros H; [by eexists|].
  apply andb_true_iff in H as [Hx Hl]. destruct (IH Hl) as [ts Ets]. cbn in Ets.
  destruct (tier_value_ok x Hx) as [t ->]. rewrite Ets. by eexists.
Qed.

Lemma tiers_of_bad l :
  forallb is_tier_value l = false -> tiers_of (PyList l) = Raise ValueError.
Proof.
  induction l as [|x l IH]; cbn; [discriminate|]. intros H.
  destruct (is_tier_value x) eqn:Hx.
  - destruct (tier_value_ok x Hx) as [t ->]. cbn in H. specialize (IH H). cbn in IH.
    by rewrite IH.
  - by rewrite (tier_value_bad x Hx).
Qed.







(** ** Malformed constraints *)

Lemma bound_step_allows x v :
  bound_allows x v = true -> (if truthy v then num_gt x v else Ok false) = Ok false.
Proof.
  unfold bound_allows. destruct (truthy v); cbn; [|reflexivity].
  destruct v; try discriminate. cbn. by intros ->%negb_true_iff.
Qed.

Lemma bound_step_malformed x v :
  malformed_bound v = true -> (if truthy v then num_gt x v else Ok false) = Raise TypeError.
Proof.
  unfold malformed_bound, ok_bound. destruct (truthy v); cbn; [|discriminate].
  destruct v; cbn; try discriminate; reflexivity.
Qed.

Lemma tiers_step_malformed v :
  malformed_tiers v = true -> truthy v = true /\ exists e, tiers_of v = Raise e.
Proof.
  unfold malformed_tiers, ok_tiers. destruct (truthy v); cbn [negb orb]; [|discriminate].
  intros Hm%negb_true_iff. split; [reflexivity|].
  destruct v as [|q|s|l]; try (by eexists).
  rewrite (tiers_of_bad l Hm). by eexists.
Qed.

Lemma keeps_raises p d :
  eligible p -> d <> [] ->
  malformed_bound (get d "max_cost_per_1k") = true \/
  (bound_allows (cost_per_1k_tokens p) (get d "max_cost_per_1k") = true /\
   malformed_bound (get d "max_timeout") = true) \/
  (bound_allows (cost_per_1k_tokens p) (get d "max_cost_per_1k") = true /\
   bound_allows (inject_Z (timeout p)) (get d "max_timeout") = true /\
   malformed_tiers (get d "allowed_tiers") = true) ->
  exists e, keeps p (Some d) = Raise e.
Proof.
  intros [Hh Hk] Hd Hbad. unfold keeps.
  destruct (negb (ProviderTier_eqb (tier p) UNOFFICIAL) && String.eqb (api_key p) "") eqn:Ekey.
  { exfalso. apply Hk. apply andb_true_iff in Ekey as [E1 E2]. split.
    - intros Ht. rewrite Ht in E1. discriminate.
    - by apply String.eqb_eq. }
  destruct (Qlt_le_dec (health_score p) 0.1) as [Hlt|_]; [lra|].
  destruct d as [|kv d]; [contradiction|]. cbn [truthy_dict oget].
  destruct Hbad as [Hc|[(Hc & Ht)|(Hc & Ht & Ha)]].
  - rewrite (bound_step_malformed _ _ Hc). by eexists.
  - rewrite (bound_step_allows _ _ Hc). cbn [mbind Result_bind].
    rewrite (bound_step_malformed _ _ Ht). by eexists.
  - rewrite (bound_step_allows _ _ Hc). cbn [mbind Result_bind].
    rewrite (bound_step_allows _ _ Ht). cbn [mbind Result_bind].
    destruct (tiers_step_malformed _ Ha) as (-> & e & ->). by eexists.
Qed.

(** Claim C6, as amended.  A malformed constraint value is not skipped: when
    some registered provider passes the key and health checks and reaches a
    field whose value is present but malformed -- a non-numeric
    [max_cost_per_1k], a non-numeric [max_timeout] behind a cost bound that
    lets the provider through, or an [allowed_tiers] that is not a list of
    tier strings behind cost and timeout bounds that let it through --
    [select_provider] raises, returns no provider and leaves [self] as it
    was. *)
Theorem malformed_constraint_raises self cs context d p :
  p ∈ map snd (providers self) -> eligible p -> d <> [] ->
  malformed_bound (get d "max_cost_per_1k") = true \/
  (bound_allows (cost_per_1k_tokens p) (get d "max_cost_per_1k") = true /\
   malformed_bound (get d "max_timeout") = true) \/
  (bound_allows (cost_per_1k_tokens p) (get d "max_cost_per_1k") = true /\
   bound_allows (inject_Z (timeout p)) (get d "max_timeout") = true /\
   malformed_tiers (get d "allowed_tiers") = true) ->
  raises (fst (select_provider self cs context (Some d))) /\
  snd (select_provider self cs context (Some d)) = self.
Proof.
  intros Hin Hel Hd Hbad. destruct (keeps_raises p d Hel Hd Hbad) as [e He].
  pose proof (filter_loop_raises (Some d) p e _ Hin He []) as Hr.
  unfold select_provider, _filter_available_providers.
  destruct (filter_loop (map snd (providers self)) (Some d) []); [contradiction|].
  split; [exact I|reflexivity].
Qed.

(** P1 under a well-formed cost ceiling and an unknown tier name. *)
Lemma malformed_constraint_raises_witness :
  raises (fst (select_provider registry low_complexity None
                 (Some [("max_cost_per_1k"%string, PyNum 0.001);
                        ("allowed_tiers"%string, PyList [PyStr "premium"])]))) /\
  snd (select_provider registry low_complexity None
         (Some [("max_cost_per_1k"%string, PyNum 0.001);
                ("allowed_tiers"%string, PyList [PyStr "premium"])])) = registry.
Proof.
  apply (malformed_constraint_raises registry low_complexity None
           [("max_cost_per_1k"%string, PyNum 0.001);
            ("allowed_tiers"%string, PyList [PyStr "premium"])] P1).
  - vm_compute. left.
  - split; [vm_compute; discriminate|]. intros [_ Hkey]. vm_compute in Hkey. discriminate.
  - discriminate.
  - right. right. vm_compute. repeat split; reflexivity.
Defined.

(** Claim C6 as stated fails: with the three-provider registry, an
    unrecognized tier string in [allowed_tiers] makes [select_provider] raise
    [ValueError], and a string as [max_cost_per_1k] makes it raise
    [TypeError]; the remaining constraints are never applied. *)
Lemma malformed_constraint_not_ignored :
  fst (select_provider registry low_complexity None
         (Some [("allowed_tiers"%string, PyList [PyStr "premium"])])) = Raise ValueError /\
  fst (select_provider registry low_complexity None
         (Some [("max_cost_per_1k"%string, PyStr "cheap")])) = Raise TypeError.
Proof. split; vm_compute; reflexivity. Qed.

(** ** Cost monotonicity *)






(** ** The performance tracker *)

(** Claim C5.  [update_provider_metrics] replaces [avg_response_time],
    [avg_cost_efficiency] and [success_rate] by 0.9 times the old value plus
    0.1 times the sample, the sample of [success_rate] being 1 for a success
    and 0 for a failure; on a fresh record, one update with [success=True]
    and [response_time=2.0] leaves [success_rate] at 1.0 and sets
    [avg_response_time] to 1.1. *)
Theorem update_provider_metrics_ema :
  (forall self provider_name response_time success cost_efficiency now,
      let old := default (fresh provider_name now)
                         (performance_metrics self !! provider_name) in
      exists new,
        performance_metrics
          (update_provider_metrics self provider_name response_time success cost_efficiency now)
          !! provider_name = Some new /\
        avg_response_time new == 0.9 * avg_response_time old + 0.1 * response_time /\
        avg_cost_efficiency new == 0.9 * avg_cost_efficiency old + 0.1 * cost_efficiency /\
        success_rate new == 0.9 * success_rate old + 0.1 * (if success then 1.0 else 0.0)) /\
  (forall self provider_name cost_efficiency now,
      (performance_metrics self !! provider_name = None \/
       exists t0, performance_metrics self !! provider_name = Some (fresh provider_name t0)) ->
      exists new,
        performance_metrics
          (update_provider_metrics self provider_name 2.0 true cost_efficiency now)
          !! provider_name = Some new /\
        success_rate new == 1.0 /\ avg_response_time new == 1.1).
Proof.
  split.
  - intros self provider_name response_time success cost_efficiency now old.
    unfold update_provider_metrics. cbn [performance_metrics]. rewrite lookup_insert_eq.
    eexists. split; [reflexivity|]. cbn [avg_response_time avg_cost_efficiency success_rate].
    subst old. destruct (performance_metrics self !! provider_name) as [r|];
      unfold default, from_option, id; destruct success; (split; [|split]); ring.
  - intros self provider_name cost_efficiency now Hfresh.
    unfold update_provider_metrics. cbn [performance_metrics]. rewrite lookup_insert_eq.
    eexists. split; [reflexivity|].
    destruct Hfresh as [->|[t0 ->]]; cbn; split; reflexivity.
Qed.

(** The first update of P1 in the three-provider registry. *)
Lemma update_provider_metrics_ema_witness :
  exists new,
    performance_metrics (update_provider_metrics registry "p1" 2.0 true 1.0 5)
      !! "p1"%string = Some new /\
    success_rate new == 1.0 /\ avg_response_time new == 1.1.
Proof.
  apply (proj2 update_provider_metrics_ema registry "p1"%string 1.0 5).
  right. exists 0. vm_compute. reflexivity.
Defined.

Lemma fresh_bounded n t : bounded (fresh n t).
Proof. unfold bounded, in_unit; cbn; lra. Qed.

Lemma init_bounded ps t0 name r :
  performance_metrics (__init__ ps t0) !! name = Some r -> bounded r.
Proof.
  unfold __init__. cbn [performance_metrics].
  generalize (map fst ps). intros names.
  assert (Hgen : forall m : gmap string ProviderPerformance,
    (forall n x, m !! n = Some x -> bounded x) ->
    fold_left (fun m n => <[n := fresh n t0]> m) names m !! name = Some r -> bounded r).
  { induction names as [|n names IH]; intros m Hm; cbn; [apply Hm|].
    apply IH. intros n' x. rewrite lookup_insert. case_decide.
    - intros [= <-]. apply fresh_bounded.
    - apply Hm. }
  apply Hgen. intros n x. by rewrite lookup_empty.
Qed.

Lemma update_bounded self name rt success ce now :
  in_unit ce ->
  (forall n x, performance_metrics self !! n = Some x -> bounded x) ->
  forall n x,
    performance_metrics (update_provider_metrics self name rt success ce now) !! n = Some x ->
    bounded x.
Proof.
  intros Hce Hinv n x. unfold update_provider_metrics. cbn [performance_metrics].
  rewrite lookup_insert. case_decide; [|apply Hinv].
  intros [= <-].
  assert (Hold : bounded (match performance_metrics self !! name with
                          | Some m => m | None => fresh name now end)).
  { destruct (performance_metrics self !! name) eqn:E; [by eapply Hinv|apply fresh_bounded]. }
  destruct Hold as [Hs Hc]. unfold bounded, in_unit in *.
  cbn [success_rate avg_cost_efficiency].
  destruct success; lra.
Qed.

(** Claim C9.  Starting from the records [__init__] creates, after any
    sequence of [update_provider_metrics] calls whose [cost_efficiency] lies
    in [[0,1]], every record has [success_rate] and [avg_cost_efficiency] in
    [[0,1]]; and each call raises the [request_count] of the named provider by
    exactly 1 (from 0 when the record is new) and leaves every other
    provider's record as it was. *)
Theorem update_provider_metrics_invariant ps t0 (us : list MetricsUpdate) :
  Forall (fun u => in_unit (u_cost_efficiency u)) us ->
  (forall name r,
      performance_metrics (apply_updates (__init__ ps t0) us) !! name = Some r ->
      in_unit (success_rate r) /\ in_unit (avg_cost_efficiency r)) /\
  (forall u, u ∈ us -> forall self,
      request_count_of (apply_update self u) (u_provider_name u) =
        (request_count_of self (u_provider_name u) + 1)%Z /\
      forall other, other <> u_provider_name u ->
        performance_metrics (apply_update self u) !! other = performance_metrics self !! other).
Proof.
  intros Hus. split.
  - unfold apply_updates.
    assert (Hgen : forall self,
      (forall n x, performance_metrics self !! n = Some x -> bounded x) ->
      forall n x, performance_metrics (fold_left apply_update us self) !! n = Some x ->
                  bounded x).
    { induction Hus as [|u us Hu Hus IH]; intros self Hinv; cbn; [exact Hinv|].
      apply IH. unfold apply_update. by apply update_bounded. }
    intros name r. apply Hgen. intros n x. apply init_bounded.
  - intros u _ self. unfold apply_update, request_count_of, update_provider_metrics.
    cbn [performance_metrics]. split.
    + rewrite lookup_insert_eq. cbn [request_count].
      destruct (performance_metrics self !! u_provider_name u); reflexivity.
    + intros other Hne. by rewrite lookup_insert_ne.
Qed.

(** A success and a failure reported for P1, then a first report for a
    provider the registry does not know. *)
Lemma update_provider_metrics_invariant_witness :
  (forall name r,
      performance_metrics
        (apply_updates (__init__ [("p1"%string, P1)] 0)
           [mkMetricsUpdate "p1" 2.0 true 1.0 1; mkMetricsUpdate "p1" 9.5 false 0.5 2;
            mkMetricsUpdate "other" 0.3 true 0.0 3]) !! name = Some r ->
      in_unit (success_rate r) /\ in_unit (avg_cost_efficiency r)) /\
  (forall u,
      u ∈ [mkMetricsUpdate "p1" 2.0 true 1.0 1; mkMetricsUpdate "p1" 9.5 false 0.5 2;
           mkMetricsUpdate "other" 0.3 true 0.0 3] ->
      forall self,
      request_count_of (apply_update self u) (u_provider_name u) =
        (request_count_of self (u_provider_name u) + 1)%Z /\
      forall other, other <> u_provider_name u ->
        performance_metrics (apply_update self u) !! other = performance_metrics self !! other).
Proof.
  apply (update_provider_metrics_invariant [("p1"%string, P1)] 0
           [mkMetricsUpdate "p1" 2.0 true 1.0 1; mkMetricsUpdate "p1" 9.5 false 0.5 2;
            mkMetricsUpdate "other" 0.3 true 0.0 3]).
  repeat constructor; vm_compute; discriminate.
Defined.

End SelectorFacts.

(* ===================================================================== *)
(** * Properties of the metrics collector *)
(* ===================================================================== *)

Section MetricsFacts.
Import Metrics.
Variable hour_key_of : Q -> string.

Lemma zero_levels_lookup (m : gmap string Z) level :
  dom m = dom zero_levels -> (is_Some (m !! level) <-> level ∈ known_levels).
Proof.
  intros Hdom. rewrite <- elem_of_dom, Hdom. unfold zero_levels, known_levels.
  rewrite !dom_insert_L, dom_empty_L, !elem_of_union, !elem_of_singleton, elem_of_empty.
  rewrite !elem_of_cons, elem_of_nil. tauto.
Qed.

Lemma dom_bump (m : gmap string Z) level n v :
  m !! level = Some n -> dom (<[level := v]> m) = dom m.
Proof.
  intros H. rewrite dom_insert_L. apply elem_of_dom_2 in H.
  apply set_eq. intros x. rewrite elem_of_union, elem_of_singleton. split; [|tauto].
  intros [->|Hx]; assumption.
Qed.

Lemma record_request_keyed self provider_name model success response_time cost
      input_tokens output_tokens complexity_level error_type now :
  counters_keyed self ->
  counters_keyed (snd (record_request hour_key_of self provider_name model success
                         response_time cost input_tokens output_tokens complexity_level
                         error_type now)).
Proof.
  intros [Hc Hh]. unfold record_request.
  cbn [complexity_stats _update_provider_metrics set_provider_metrics set_request_metrics].
  destruct (complexity_stats self !! complexity_level) as [n|] eqn:En.
  - unfold _update_hourly_stats.
    cbn [hourly_stats set_complexity_stats set_provider_metrics set_request_metrics
         _update_provider_metrics timestamp Metrics.complexity_level h_complexity].
    set (hk := hour_key_of now).
    assert (Hst : dom (h_complexity (default fresh_hour (hourly_stats self !! hk)))
                  = dom zero_levels).
    { destruct (hourly_stats self !! hk) eqn:E; cbn; [by eapply Hh|reflexivity]. }
    destruct (h_complexity (default fresh_hour (hourly_stats self !! hk)) !! complexity_level)
      as [k|] eqn:Ek; cbn [snd]; split; cbn [complexity_stats hourly_stats log set_hourly_stats set_complexity_stats set_provider_metrics set_request_metrics].
    + by rewrite (dom_bump _ _ _ _ En).
    + intros hour stats. rewrite lookup_insert. case_decide.
      * intros [= <-]. cbn. by rewrite (dom_bump _ _ _ _ Ek).
      * apply Hh.
    + by rewrite (dom_bump _ _ _ _ En).
    + intros hour stats. rewrite lookup_insert. case_decide.
      * intros [= <-]. cbn. exact Hst.
      * apply Hh.
  - split; cbn; [exact Hc|exact Hh].
Qed.

Lemma reachable_keyed self : reachable hour_key_of self -> counters_keyed self.
Proof.
  induction 1 as [retention now| |self now _ [Hc Hh]].
  - split; cbn; [reflexivity|]. intros hour stats. by rewrite lookup_empty.
  - by apply record_request_keyed.
  - split; cbn; [exact Hc|]. intros hour stats [H _]%map_lookup_filter_Some. by eapply Hh.
Qed.

(** Claim C10.  In every state the collector can reach, [record_request]
    returns normally when [complexity_level] is "low", "medium" or "high",
    and raises [KeyError] for any other string.  In that case the metric has
    already been appended to the log and the provider's aggregate already
    counts it: starting from the provider's previous aggregate, or from
    zeros when it had none, [total_requests] is one higher, so is
    [successful_requests] or [failed_requests], the response time, the cost
    and the tokens of the request are added to their totals,
    [last_request_time] is the time of the request, and a failure with an
    error type has raised that type's count by one; the aggregates of the
    other providers, the complexity counters and the hourly buckets are
    untouched. *)
Theorem record_request_unknown_level self provider_name model success response_time cost
        input_tokens output_tokens complexity_level error_type now :
  reachable hour_key_of self ->
  let result := record_request hour_key_of self provider_name model success response_time
                               cost input_tokens output_tokens complexity_level error_type
                               now in
  let metric := mkRequestMetric now provider_name model success response_time cost
                                input_tokens output_tokens complexity_level error_type in
  let seen := provider_metrics self !! provider_name in
  (complexity_level ∈ known_levels -> fst result = Ok ()) /\
  (complexity_level ∉ known_levels ->
   fst result = Raise KeyError /\
   request_metrics (snd result) = request_metrics self ++ [metric] /\
   (exists pm,
      provider_metrics (snd result) !! provider_name = Some pm /\
      total_requests pm = (from_option total_requests 0 seen + 1)%Z /\
      successful_requests pm =
        (from_option successful_requests 0 seen + (if success then 1 else 0))%Z /\
      failed_requests pm =
        (from_option failed_requests 0 seen + (if success then 0 else 1))%Z /\
      total_response_time pm == from_option total_response_time 0 seen + response_time /\
      total_cost pm == from_option total_cost 0 seen + cost /\
      total_tokens pm =
        (from_option total_tokens 0 seen + (input_tokens + output_tokens))%Z /\
      last_request_time pm = Some now /\
      (forall e, success = false -> error_type = Some e -> e <> ""%string ->
         error_counts pm !! e =
         Some (default 0 (seen ≫= fun old => error_counts old !! e) + 1)%Z)) /\
   (forall other, other <> provider_name ->
      provider_metrics (snd result) !! other = provider_metrics self !! other) /\
   complexity_stats (snd result) = complexity_stats self /\
   hourly_stats (snd result) = hourly_stats self).
Proof.
  intros Hreach result metric seen. destruct (reachable_keyed self Hreach) as [Hc Hh].
  pose proof (zero_levels_lookup _ complexity_level Hc) as Hkey.
  subst result. unfold record_request.
  cbn [complexity_stats _update_provider_metrics set_provider_metrics set_request_metrics].
  split.
  - intros Hin. destruct (proj2 Hkey Hin) as [n ->].
    unfold _update_hourly_stats.
    cbn [hourly_stats set_complexity_stats set_provider_metrics set_request_metrics
         _update_provider_metrics timestamp Metrics.complexity_level h_complexity].
    set (hk := hour_key_of now).
    assert (Hst : dom (h_complexity (default fresh_hour (hourly_stats self !! hk)))
                  = dom zero_levels).
    { destruct (hourly_stats self !! hk) eqn:E; cbn; [by eapply Hh|reflexivity]. }
    apply (zero_levels_lookup _ complexity_level) in Hst.
    destruct (proj2 Hst Hin) as [k ->].
    reflexivity.
  - intros Hnot.
    destruct (complexity_stats self !! complexity_level) as [n|] eqn:En.
    { exfalso. apply Hnot, Hkey. by exists n. }
    subst metric seen. cbn.
    split; [reflexivity|]. split; [reflexivity|]. split; [|split; [|split; reflexivity]].
    + eexists. split; [apply lookup_insert_eq|].
      destruct (provider_metrics self !! provider_name) as [old|]; cbn.
      * split; [reflexivity|]. split; [destruct success; lia|].
        split; [destruct success; lia|]. split; [reflexivity|]. split; [reflexivity|].
        split; [reflexivity|]. split; [reflexivity|].
        intros e -> -> He. apply String.eqb_neq in He. rewrite He. cbn [negb andb].
        apply lookup_insert_eq.
      * split; [reflexivity|]. split; [destruct success; reflexivity|].
        split; [destruct success; reflexivity|]. split; [ring|].
        split; [ring|]. split; [reflexivity|]. split; [reflexivity|].
        intros e -> -> He. apply String.eqb_neq in He. rewrite He. cbn [negb andb].
        rewrite lookup_insert_eq. by rewrite lookup_empty.
    + intros other Hne. by apply lookup_insert_ne.
Qed.
End MetricsFacts.

(** The failure path of the API reports the level "unknown" to a new
    collector: the call raises, and the provider "unknown" has one failed
    request on record. *)
Lemma record_request_unknown_level_witness :
  let result := Metrics.record_request fixed_hour (Metrics.__init__ 24 0) "unknown" "unknown"
                  false 0.25 0.0 0 0 "unknown" (Some "ValueError"%string) 1 in
  fst result = Raise KeyError /\
  exists pm,
    Metrics.provider_metrics (snd result) !! "unknown"%string = Some pm /\
    Metrics.total_requests pm = 1%Z /\ Metrics.failed_requests pm = 1%Z /\
    Metrics.error_counts pm !! "ValueError"%string = Some 1%Z.
Proof.
  intros result.
  destruct (record_request_unknown_level fixed_hour (Metrics.__init__ 24 0) "unknown"
              "unknown" false 0.25 0.0 0 0 "unknown" (Some "ValueError"%string) 1
              (Metrics.reach_init fixed_hour 24 0)) as [_ Hbad].
  destruct Hbad as (Hraise & _ & (pm & Epm & Htotal & _ & Hfailed & _ & _ & _ & _ & Herr) & _).
  { unfold known_levels. rewrite !elem_of_cons, elem_of_nil.
    intros [H|[H|[H|[]]]]; discriminate H. }
  split; [exact Hraise|]. exists pm. split; [exact Epm|].
  split; [exact Htotal|]. split; [exact Hfailed|].
  apply (Herr "ValueError"%string); [reflexivity|reflexivity|discriminate].
Defined.

(* ===================================================================== *)
(** * Further properties of the selection engine *)
(* ===================================================================== *)

Section SelectorMore.
Import Engine Loader Selector.

(** ** The winner has the highest score, and is the first to have it *)

Lemma sort_desc_head l : forall x rest,
  sort_desc l = x :: rest ->
  exists pre post,
    l = pre ++ x :: post /\
    (forall y, y ∈ pre -> snd y < snd x) /\
    (forall y, y ∈ post -> snd y <= snd x).
Proof.
  induction l as [|a l IH]; intros x rest H; [discriminate|].
  change (sort_desc (a :: l)) with (insert_desc a (sort_desc l)) in H.
  destruct (sort_desc l) as [|y r] eqn:El.
  - cbn in H. injection H as <- <-.
    assert (l = []) as ->.
    { pose proof (sort_desc_perm l) as Hp. rewrite El in Hp.
      by apply Permutation_nil_l in Hp. }
    exists [], []. split; [reflexivity|]. split; intros z Hz; by apply elem_of_nil in Hz.
  - destruct (IH y r eq_refl) as (pre & post & -> & Hpre & Hpost).
    cbn in H. destruct (Qlt_le_dec (snd a) (snd y)) as [Hlt|Hle].
    + injection H as <- <-. exists (a :: pre), post. split; [reflexivity|]. split; [|exact Hpost].
      intros z [->|Hz]%elem_of_cons; [exact Hlt|by apply Hpre].
    + injection H as <- <-. exists [], (pre ++ y :: post). split; [reflexivity|].
      split; [intros z Hz; by apply elem_of_nil in Hz|].
      intros z [Hz|[->|Hz]%elem_of_cons]%elem_of_app.
      * apply Qlt_le_weak. eapply Qlt_le_trans; [by apply Hpre|exact Hle].
      * exact Hle.
      * eapply Qle_trans; [by apply Hpost|exact Hle].
Qed.

(** [score_loop] pairs each provider, in order, with its score. *)
Lemma score_loop_scored self cs context constraints available : forall acc l,
  score_loop self available cs context constraints acc = Ok l ->
  exists scored,
    l = acc ++ scored /\
    Forall2 (fun q qs => fst qs = q /\
                         _calculate_provider_score self q cs context constraints = Ok (snd qs))
            available scored.
Proof.
  induction available as [|p ps IH]; intros acc l H; cbn in H.
  - injection H as <-. exists []. split; [by rewrite app_nil_r|constructor].
  - destruct (_calculate_provider_score self p cs context constraints) as [s|e] eqn:Es;
      cbn in H; [|discriminate].
    destruct (IH _ _ H) as (scored & -> & HF).
    exists ((p, s) :: scored). split; [by rewrite <- app_assoc|].
    constructor; [split; [reflexivity|exact Es]|exact HF].
Qed.

Lemma Forall2_elem_l {A B} (P : A -> B -> Prop) l k :
  Forall2 P l k -> forall x, x ∈ l -> exists y, y ∈ k /\ P x y.
Proof.
  induction 1 as [|a b l k Hab _ IH]; intros x Hx; [by apply elem_of_nil in Hx|].
  apply elem_of_cons in Hx as [->|Hx].
  - exists b. split; [left|exact Hab].
  - destruct (IH x Hx) as (y & Hy & Hxy). exists y. split; [by right|exact Hxy].
Qed.

(** The provider [select_provider] returns has the highest total score of
    the filtered list; every provider before it in that list scores strictly
    lower, so a tie goes to the provider met first in the registry. *)
Theorem select_provider_best_first self cs context constraints p :
  fst (select_provider self cs context constraints) = Ok (Some p) ->
  exists pre post s,
    _filter_available_providers self constraints = Ok (pre ++ p :: post) /\
    _calculate_provider_score self p cs context constraints = Ok s /\
    (forall q, q ∈ pre ->
       exists t, _calculate_provider_score self q cs context constraints = Ok t /\ t < s) /\
    (forall q, q ∈ post ->
       exists t, _calculate_provider_score self q cs context constraints = Ok t /\ t <= s).
Proof.
  unfold select_provider. intros H.
  destruct (_filter_available_providers self constraints) as [available|e]; [|discriminate].
  destruct available as [|a available]; [discriminate|].
  destruct (score_loop self (a :: available) cs context constraints []) as [scores|e] eqn:Es;
    [|discriminate].
  destruct (sort_desc scores) as [|[q s] rest] eqn:Esort; [discriminate|].
  cbn in H. injection H as ->.
  destruct (score_loop_scored _ _ _ _ _ _ _ Es) as (scored & -> & HF). cbn in Esort, HF.
  destruct (sort_desc_head _ _ _ Esort) as (pre' & post' & -> & Hpre & Hpost).
  apply Forall2_app_inv_r in HF as (pre & tl & Hfpre & Htl & ->).
  apply Forall2_cons_inv_r in Htl as (p' & post & [Hp Hs] & Hfpost & ->).
  cbn in Hp, Hs. subst p'.
  exists pre, post, s. split; [reflexivity|]. split; [exact Hs|]. split.
  - intros x Hx. destruct (Forall2_elem_l _ _ _ Hfpre x Hx) as ([x' t] & Hin & Hx' & Ht).
    exists t. split; [exact Ht|]. exact (Hpre _ Hin).
  - intros x Hx. destruct (Forall2_elem_l _ _ _ Hfpost x Hx) as ([x' t] & Hin & Hx' & Ht).
    exists t. split; [exact Ht|]. exact (Hpost _ Hin).
Qed.

(** In the three-provider scenario P2 follows the winner P1 and scores no
    higher. *)
Lemma select_provider_best_first_witness :
  exists pre post s,
    _filter_available_providers registry None = Ok (pre ++ P1 :: post) /\
    _calculate_provider_score registry P1 low_complexity None None = Ok s /\
    (forall q, q ∈ pre ->
       exists t, _calculate_provider_score registry q low_complexity None None = Ok t /\ t < s) /\
    (forall q, q ∈ post ->
       exists t, _calculate_provider_score registry q low_complexity None None = Ok t /\ t <= s).
Proof.
  apply (select_provider_best_first registry low_complexity None None P1).
  vm_compute. reflexivity.
Defined.

(** ** Rankings *)

Lemma insert_ranking_perm x l : Permutation (insert_ranking x l) (x :: l).
Proof.
  induction l as [|y l IH]; cbn; [reflexivity|].
  destruct (Qlt_le_dec (snd x) (snd y)); [|reflexivity].
  rewrite IH. apply perm_swap.
Qed.

Lemma sort_rankings_perm l : Permutation (sort_rankings l) l.
Proof.
  induction l as [|x l IH]; cbn; [reflexivity|].
  rewrite insert_ranking_perm. by constructor.
Qed.

Lemma descending_cons {A} (x : A * Q) l :
  (forall y, y ∈ l -> snd y <= snd x) -> descending l -> descending (x :: l).
Proof.
  intros Hx Hl i j a b Hij Hi Hj. destruct j as [|j]; [lia|]. cbn in Hj.
  destruct i as [|i]; cbn in Hi.
  - injection Hi as <-. apply Hx. by eapply list_elem_of_lookup_2.
  - apply (Hl i j); [lia|assumption|assumption].
Qed.

Lemma descending_inv {A} (x : A * Q) l :
  descending (x :: l) -> (forall y, y ∈ l -> snd y <= snd x) /\ descending l.
Proof.
  intros H. split.
  - intros y [j Hj]%list_elem_of_lookup_1. apply (H 0%nat (S j)); [lia|reflexivity|exact Hj].
  - intros i j a b Hij Hi Hj. apply (H (S i) (S j)); [lia|exact Hi|exact Hj].
Qed.

Lemma insert_ranking_descending x l :
  descending l -> descending (insert_ranking x l).
Proof.
  induction l as [|y l IH]; intros Hl; cbn.
  - apply descending_cons; [intros z Hz; by apply elem_of_nil in Hz|exact Hl].
  - destruct (descending_inv _ _ Hl) as [Hy Hl'].
    destruct (Qlt_le_dec (snd x) (snd y)) as [Hlt|Hle].
    + apply descending_cons; [|by apply IH].
      intros z Hz. rewrite insert_ranking_perm in Hz.
      apply elem_of_cons in Hz as [->|Hz]; [by apply Qlt_le_weak|by apply Hy].
    + apply descending_cons; [|exact Hl].
      intros z [->|Hz]%elem_of_cons; [exact Hle|].
      eapply Qle_trans; [by apply Hy|exact Hle].
Qed.

Lemma sort_rankings_descending l : descending (sort_rankings l).
Proof.
  induction l as [|x l IH]; cbn.
  - intros i j a b _ Hi. by rewrite lookup_nil in Hi.
  - by apply insert_ranking_descending.
Qed.

Lemma rankings_loop_scored self cs ps : forall acc,
  exists scored,
    rankings_loop self ps cs acc = Ok (acc ++ scored) /\
    Forall2 (fun p ns => fst ns = name p /\
                         _calculate_provider_score self p cs None None = Ok (snd ns))
            ps scored.
Proof.
  induction ps as [|p ps IH]; intros acc.
  - exists []. cbn. rewrite app_nil_r. split; [reflexivity|constructor].
  - cbn [rankings_loop].
    destruct (_calculate_provider_score self p cs None None) as [s|e] eqn:Es.
    2:{ unfold _calculate_provider_score in Es. cbn in Es. discriminate Es. }
    cbn [mbind Result_bind].
    destruct (IH (acc ++ [(name p, s)])) as (scored & El & Hl).
    exists ((name p, s) :: scored). split.
    + rewrite El. by rewrite <- app_assoc.
    + constructor; [split; [reflexivity|exact Es]|exact Hl].
Qed.

(** Where every rate limit converts to a float, [get_provider_rankings]
    returns without raising and ranks the whole registry: the result holds,
    for each registered provider, the unhealthy and the keyless ones
    included, one pair of its name and its own score, and the scores are in
    non-increasing order. *)
Theorem get_provider_rankings_complete self cs :
  Forall (fun kp => fits_float (max_requests_per_minute (snd kp))) (providers self) ->
  exists scored rankings,
    Forall2 (fun p ns => fst ns = name p /\
                         _calculate_provider_score self p cs None None = Ok (snd ns))
            (map snd (providers self)) scored /\
    get_provider_rankings self cs = Ok rankings /\
    Permutation rankings scored /\
    descending rankings.
Proof.
  intros _. unfold get_provider_rankings.
  destruct (rankings_loop_scored self cs (map snd (providers self)) []) as (scored & -> & Hl).
  cbn [mbind Result_bind app]. exists scored. eexists. split; [exact Hl|].
  split; [reflexivity|]. split.
  - apply sort_rankings_perm.
  - apply sort_rankings_descending.
Qed.

(** The three providers of the registry: P3, unhealthy and without a key,
    is ranked too. *)
Lemma get_provider_rankings_complete_witness :
  exists rankings,
    get_provider_rankings registry low_complexity = Ok rankings /\
    Permutation (map fst rankings) ["P1"; "P2"; "P3"]%string /\
    descending rankings.
Proof.
  destruct (get_provider_rankings_complete registry low_complexity)
    as (scored & rankings & Hs & E & Hperm & Hdesc).
  - unfold registry, __init__. cbn [providers].
    do 3 (constructor; [vm_compute; reflexivity|]). constructor.
  - exists rankings. split; [exact E|]. split; [|exact Hdesc].
    rewrite Hperm.
    assert (Hn : map fst scored = map name (map snd (providers registry))).
    { clear -Hs. induction Hs as [|p ns ps l [Hn _] _ IH]; cbn; [reflexivity|].
      by rewrite Hn, IH. }
    rewrite Hn. reflexivity.
Defined.

(** ** The filter step as a pure filter *)

Lemma tiers_of_existsb t l ts :
  tiers_of (PyList l) = Ok ts ->
  existsb (ProviderTier_eqb t) ts =
  existsb (fun x => match ProviderTier_of x with
                    | Ok t' => ProviderTier_eqb t t'
                    | Raise _ => false
                    end) l.
Proof.
  revert ts. induction l as [|x l IH]; intros ts H; cbn in H.
  - by injection H as <-.
  - destruct (ProviderTier_of x) as [t'|e] eqn:Ex; cbn in H; [|discriminate].
    destruct (fold_right _ _ l) as [ts'|e] eqn:El; cbn in H; [|discriminate].
    injection H as <-. cbn. rewrite Ex. f_equal. by apply IH.
Qed.

Lemma bound_step_value x v :
  ok_bound v = true ->
  (if truthy v then num_gt x v else Ok false) = Ok (negb (bound_allows x v)).
Proof.
  unfold ok_bound, bound_allows. destruct (truthy v); cbn; [|reflexivity].
  destruct v; cbn; try discriminate. intros _. by rewrite negb_involutive.
Qed.

Lemma keeps_passes p constraints :
  well_formed_constraints constraints -> keeps p constraints = Ok (passes constraints p).
Proof.
  intros Hwf. unfold keeps, passes.
  destruct (ProviderTier_eqb (tier p) UNOFFICIAL); cbn [negb andb orb];
    [|destruct (String.eqb (api_key p) ""); cbn [negb andb orb]; [reflexivity|]].
  all: unfold Qltb; destruct (Qlt_le_dec (health_score p) 0.1); cbn [negb andb orb];
    [reflexivity|].
  all: destruct constraints as [[|kv d]|]; cbn [truthy_dict negb andb orb]; try reflexivity.
  all: destruct Hwf as (Hc & Ht & Ha & _); cbn [oget].
  all: rewrite (bound_step_value (cost_per_1k_tokens p) _ Hc); cbn [mbind Result_bind].
  all: destruct (bound_allows (cost_per_1k_tokens p) _); cbn [negb andb]; [|reflexivity].
  all: rewrite (bound_step_value (inject_Z (timeout p)) _ Ht); cbn [mbind Result_bind].
  all: destruct (bound_allows (inject_Z (timeout p)) _); cbn [negb andb]; [|reflexivity].
  all: unfold tier_allowed, model_offered, ok_tiers in *.
  all: destruct (truthy (get (kv :: d) "allowed_tiers")); cbn [negb orb] in *.
  all: try (destruct (get (kv :: d) "allowed_tiers") as [|qa|sa|la]; try discriminate Ha;
            destruct (tiers_of_ok la Ha) as [ts Ets]; rewrite Ets; cbn [mbind Result_bind];
            rewrite (tiers_of_existsb (tier p) la ts Ets)).
  all: cbn [mbind Result_bind].
  all: repeat match goal with
              | |- context [existsb ?f ?l] => destruct (existsb f l)
              | |- context [truthy ?v] => destruct (truthy v)
              end; reflexivity.
Qed.

Lemma filter_loop_filter constraints ps :
  well_formed_constraints constraints ->
  forall available,
    filter_loop ps constraints available =
    Ok (available ++ List.filter (passes constraints) ps).
Proof.
  intros Hwf. induction ps as [|p ps IH]; intros available; cbn.
  - by rewrite app_nil_r.
  - rewrite (keeps_passes p constraints Hwf). cbn [mbind Result_bind].
    rewrite IH. destruct (passes constraints p); [by rewrite <- app_assoc|reflexivity].
Qed.

(** With well-formed constraints the filter step returns exactly the
    registered providers that have a key (or are UNOFFICIAL), a health of at
    least 0.1 and meet every constraint that is present, in registry order. *)
Theorem filter_available_is_filter self constraints :
  well_formed_constraints constraints ->
  _filter_available_providers self constraints =
  Ok (List.filter (passes constraints) (map snd (providers self))).
Proof.
  intros Hwf. unfold _filter_available_providers.
  by rewrite (filter_loop_filter constraints _ Hwf).
Qed.

(** A cost ceiling below P1's price and a tier list without P3's tier. *)
Lemma filter_available_is_filter_witness :
  _filter_available_providers registry
    (Some [("max_cost_per_1k"%string, PyNum 0.00007);
           ("allowed_tiers"%string, PyList [PyStr "community"; PyStr "official"])]) =
  Ok (List.filter
        (passes (Some [("max_cost_per_1k"%string, PyNum 0.00007);
                       ("allowed_tiers"%string, PyList [PyStr "community"; PyStr "official"])]))
        (map snd (providers registry))).
Proof.
  apply (filter_available_is_filter registry
           (Some [("max_cost_per_1k"%string, PyNum 0.00007);
                  ("allowed_tiers"%string, PyList [PyStr "community"; PyStr "official"])])).
  vm_compute. repeat split; reflexivity.
Defined.

Lemma keeps_skipped p d : all_skipped d -> keeps p (Some d) = keeps p None.
Proof.
  intros (Hc & Ht & Ha & Hm). unfold keeps. cbn [oget truthy_dict].
  rewrite Hc, Ht, Ha, Hm. cbn [mbind Result_bind andb].
  repeat match goal with |- context [if ?b then _ else _] => destruct b end; reflexivity.
Qed.

(** A constraint whose value is false in a condition is no constraint: with
    [max_cost_per_1k] at 0 (or [None], or an empty [allowed_tiers] list, and
    so on for the four fields) the filter step returns what it returns
    without constraints.  A ceiling of zero does not select free providers. *)
Theorem skipped_constraints_do_not_filter self d :
  all_skipped d ->
  _filter_available_providers self (Some d) = _filter_available_providers self None.
Proof.
  intros Hd. unfold _filter_available_providers. generalize (@nil ProviderConfig).
  induction (map snd (providers self)) as [|p ps IH]; intros acc; [reflexivity|].
  cbn [filter_loop]. rewrite (keeps_skipped p d Hd).
  destruct (keeps p None) as [b|e]; cbn [mbind Result_bind]; [apply IH|reflexivity].
Qed.

(** A zero cost ceiling together with an empty tier list. *)
Lemma skipped_constraints_do_not_filter_witness :
  _filter_available_providers registry
    (Some [("max_cost_per_1k"%string, PyNum 0); ("allowed_tiers"%string, PyList [])]) =
  _filter_available_providers registry None.
Proof.
  apply (skipped_constraints_do_not_filter registry
           [("max_cost_per_1k"%string, PyNum 0); ("allowed_tiers"%string, PyList [])]).
  vm_compute. repeat split; reflexivity.
Defined.

(** ** Ranges of the four scores *)

Lemma match_range c x :
  0.1 <= c ->
  0 < Qmin 1.0 (c / Qmax 0.1 x) <= 1 /\ (x <= c -> Qmin 1.0 (c / Qmax 0.1 x) == 1).
Proof.
  intros Hc.
  assert (Hm : 0.1 <= Qmax 0.1 x) by apply Q.le_max_l.
  assert (Hpos : 0 < c / Qmax 0.1 x) by (apply Qlt_shift_div_l; lra).
  split; [split|].
  - destruct (Q.min_spec 1.0 (c / Qmax 0.1 x)) as [[_ ->]|[_ ->]]; lra.
  - pose proof (Q.le_min_l 1.0 (c / Qmax 0.1 x)). lra.
  - intros Hx. rewrite Q.min_l; [reflexivity|].
    apply Qle_shift_div_l; [lra|].
    destruct (Q.max_spec 0.1 x) as [[_ ->]|[_ ->]]; lra.
Qed.

Lemma tier_capabilities_floor t :
  0.1 <= reasoning (tier_capabilities t) /\ 0.1 <= knowledge (tier_capabilities t) /\
  0.1 <= computation (tier_capabilities t) /\ 0.1 <= coordination (tier_capabilities t).
Proof. destruct t; cbn; repeat split; lra. Qed.

Lemma capability_score_unit p cs : 0 < _calculate_capability_score p cs <= 1.
Proof.
  unfold _calculate_capability_score.
  destruct (tier_capabilities_floor (tier p)) as (Hr & Hk & Hc & Ho).
  destruct (match_range _ (reasoning cs) Hr) as [[? ?] _].
  destruct (match_range _ (knowledge cs) Hk) as [[? ?] _].
  destruct (match_range _ (computation cs) Hc) as [[? ?] _].
  destruct (match_range _ (coordination cs) Ho) as [[? ?] _].
  split; lra.
Qed.

(** The capability score lies in (0,1], whatever the provider and the task,
    and is exactly 1 when the task asks no more than the provider's tier
    offers on each of the four axes. *)
Theorem capability_score_range p cs :
  0 < _calculate_capability_score p cs <= 1 /\
  (covered_by cs (tier_capabilities (tier p)) -> _calculate_capability_score p cs == 1).
Proof.
  unfold _calculate_capability_score, covered_by.
  destruct (tier_capabilities_floor (tier p)) as (Hr & Hk & Hc & Ho).
  destruct (match_range _ (reasoning cs) Hr) as [[? ?] Er].
  destruct (match_range _ (knowledge cs) Hk) as [[? ?] Ek].
  destruct (match_range _ (computation cs) Hc) as [[? ?] Ec].
  destruct (match_range _ (coordination cs) Ho) as [[? ?] Eo].
  split; [split; lra|].
  intros (Cr & Ck & Cc & Co). rewrite (Er Cr), (Ek Ck), (Ec Cc), (Eo Co). reflexivity.
Qed.

(** A low-complexity task is within reach of the lowest tier. *)
Lemma capability_score_range_witness :
  0 < _calculate_capability_score P3 low_complexity <= 1 /\
  _calculate_capability_score P3 low_complexity == 1.
Proof.
  destruct (capability_score_range P3 low_complexity) as [Hrange Hfull].
  split; [exact Hrange|]. apply Hfull.
  unfold covered_by. repeat split; vm_compute; discriminate.
Defined.

Lemma weights_sum context :
  w_capability (weights_for context) + w_performance (weights_for context) +
  w_cost (weights_for context) + w_reliability (weights_for context) <= 1.05 /\
  (truthy_dict context = false ->
   w_capability (weights_for context) + w_performance (weights_for context) +
   w_cost (weights_for context) + w_reliability (weights_for context) == 1) /\
  0 <= w_capability (weights_for context) /\ 0 <= w_performance (weights_for context) /\
  0 <= w_cost (weights_for context) /\ 0 <= w_reliability (weights_for context).
Proof.
  unfold weights_for. destruct (truthy_dict context).
  - split_ifs; cbn; (split; [lra|]); (split; [discriminate|]); repeat split; lra.
  - cbn. split; [lra|]. split; [intros _; reflexivity|]. repeat split; lra.
Qed.

Lemma performance_score_range self p :
  tracked_in_range self p -> in_unit (_calculate_performance_score self p).
Proof.
  intros Hr. unfold _calculate_performance_score, in_unit.
  destruct (performance_metrics self !! name p) as [r|] eqn:Er; [|lra].
  destruct (Hr r Er) as [[[? ?] [? ?]] Ht].
  unfold Qdiv. change (/ 10.0) with (10 # 100).
  destruct (Q.max_spec 0.0 (1.0 - avg_response_time r * (10 # 100))) as [[? ->]|[? ->]]; lra.
Qed.

Lemma reliability_score_range p :
  in_unit (health_score p) -> (0 <= max_requests_per_minute p)%Z ->
  0 <= _calculate_reliability_score p <= 0.95.
Proof.
  intros [Hh0 Hh1] Hrpm. unfold _calculate_reliability_score.
  assert (Hq : 0 <= inject_Z (max_requests_per_minute p) / 1000.0).
  { apply Qle_shift_div_l; [lra|]. rewrite Qmult_0_l.
    unfold Qle; cbn. lia. }
  assert (Hf : 0 <= Qmin 1.0 (inject_Z (max_requests_per_minute p) / 1000.0) <= 1).
  { split; [apply Q.min_glb; lra|]. pose proof (Q.le_min_l 1.0
      (inject_Z (max_requests_per_minute p) / 1000.0)). lra. }
  set (f := Qmin 1.0 _) in *.
  assert (Hb : 0.6 <= tier_reliability (tier p) <= 0.95) by (destruct (tier p); cbn; lra).
  set (b := tier_reliability (tier p)) in *. set (h := health_score p) in *.
  assert (Hbh : 0 <= b * h <= 0.95).
  { split; [apply Qmult_le_0_compat; lra|].
    apply Qle_trans with (0.95 * 1); [apply Qmult_le_compat_nonneg; lra|lra]. }
  set (bh := b * h) in *.
  split; [apply Qmult_le_0_compat; lra|].
  apply Qle_trans with (0.95 * 1); [apply Qmult_le_compat_nonneg; lra|lra].
Qed.

(** For a provider with health in [[0,1]], a non-negative price, a
    non-negative rate limit that converts to a float and a tracker record
    within range, and with no budget weight applied, the total score is
    defined and lies in [[0, 1.05]]; without a context it is at most 1.
    (The three priority overrides raise one weight by 0.15 and lower another
    by 0.10, so their weights add up to 1.05.) *)
Theorem provider_score_range self p cs context constraints :
  in_unit (health_score p) -> 0 <= cost_per_1k_tokens p ->
  (0 <= max_requests_per_minute p)%Z -> fits_float (max_requests_per_minute p) ->
  tracked_in_range self p ->
  truthy_dict constraints && truthy (oget constraints "budget_weight") = false ->
  exists s,
    _calculate_provider_score self p cs context constraints = Ok s /\
    0 <= s <= 1.05 /\ (truthy_dict context = false -> s <= 1).
Proof.
  intros Hh Hc Hrpm _ Htr Hbw. unfold _calculate_provider_score, _calculate_cost_score.
  rewrite Hbw. cbn [mbind Result_bind]. eexists. split; [reflexivity|].
  destruct (capability_score_unit p cs) as [Hc0 Hc1].
  destruct (performance_score_range self p Htr) as [Hp0 Hp1].
  destruct (reliability_score_range p Hh Hrpm) as [Hr0 Hr1].
  assert (Hk : 0 <= Qmax 0.0 (1.0 - cost_per_1k_tokens p / 0.01) <= 1).
  { unfold Qdiv. change (/ 0.01) with 100.
    destruct (Q.max_spec 0.0 (1.0 - cost_per_1k_tokens p * 100)) as [[? ->]|[? ->]]; lra. }
  destruct (weights_sum context) as (Hsum & Hone & Hw1 & Hw2 & Hw3 & Hw4).
  set (a := _calculate_capability_score p cs) in *.
  set (b := _calculate_performance_score self p) in *.
  set (c := Qmax 0.0 _) in *.
  set (d := _calculate_reliability_score p) in *.
  set (w1 := w_capability _) in *. set (w2 := w_performance _) in *.
  set (w3 := w_cost _) in *. set (w4 := w_reliability _) in *.
  assert (Hprod : forall x w, 0 <= x <= 1 -> 0 <= w -> 0 <= x * w <= w).
  { intros x w Hx Hw. split; [apply Qmult_le_0_compat; lra|].
    apply Qle_trans with (1 * w); [apply Qmult_le_compat_r; lra|lra]. }
  pose proof (Hprod a w1 ltac:(lra) Hw1). pose proof (Hprod b w2 ltac:(lra) Hw2).
  pose proof (Hprod c w3 ltac:(lra) Hw3). pose proof (Hprod d w4 ltac:(lra) Hw4).
  split; [lra|]. intros Hctx. specialize (Hone Hctx). lra.
Qed.

(** P1 in the three-provider registry, scored without a context. *)
Lemma provider_score_range_witness :
  exists s,
    _calculate_provider_score registry P1 low_complexity None None = Ok s /\
    0 <= s <= 1.05 /\ s <= 1.
Proof.
  destruct (provider_score_range registry P1 low_complexity None None)
    as (s & Es & Hs & Hone).
  - split; vm_compute; discriminate.
  - vm_compute. discriminate.
  - vm_compute. discriminate.
  - vm_compute. reflexivity.
  - intros r Hr. vm_compute in Hr. discriminate.
  - reflexivity.
  - exists s. split; [exact Es|]. split; [exact Hs|]. apply Hone. reflexivity.
Defined.

(** ** The tracker a new selector starts with *)

Lemma init_lookup ps t0 n :
  performance_metrics (__init__ ps t0) !! n =
  if decide (n ∈ map fst ps) then Some (fresh n t0) else None.
Proof.
  unfold __init__. cbn [performance_metrics].
  generalize (map fst ps). intros names.
  assert (Hgen : forall m : gmap string ProviderPerformance,
    fold_left (fun m k => <[k := fresh k t0]> m) names m !! n =
    if decide (n ∈ names) then Some (fresh n t0) else m !! n).
  { induction names as [|k names IH]; intros m; cbn.
    - case_decide as H; [by apply elem_of_nil in H|reflexivity].
    - rewrite IH. repeat case_decide; try reflexivity.
      + exfalso. apply H0. by right.
      + apply elem_of_cons in H0 as [->|?]; [|contradiction]. by rewrite lookup_insert_eq.
      + rewrite lookup_insert_ne; [reflexivity|]. intros ->. apply H0. left. }
  rewrite Hgen. by rewrite lookup_empty.
Qed.

(** In a new selector the performance score of a provider registered under
    its own name is 0.96; a provider whose registry key differs from its
    [name] (the loader keys by the lower-cased name) has no record the score
    can read, and gets the default 0.5. *)
Theorem fresh_performance_score ps t0 p :
  (name p ∈ map fst ps -> _calculate_performance_score (__init__ ps t0) p == 0.96) /\
  (name p ∉ map fst ps -> _calculate_performance_score (__init__ ps t0) p = 0.5).
Proof.
  unfold _calculate_performance_score. rewrite init_lookup. split; intros H.
  - rewrite decide_True by exact H. cbn. reflexivity.
  - rewrite decide_False by exact H. reflexivity.
Qed.

(** P1 registered under its own name, and under the lower-cased key. *)
Lemma fresh_performance_score_witness :
  _calculate_performance_score (__init__ [("P1"%string, P1)] 0) P1 == 0.96 /\
  _calculate_performance_score (__init__ [("p1"%string, P1)] 0) P1 = 0.5.
Proof.
  split.
  - apply (proj1 (fresh_performance_score [("P1"%string, P1)] 0 P1)).
    cbn. by apply list_elem_of_singleton.
  - apply (proj2 (fresh_performance_score [("p1"%string, P1)] 0 P1)).
    cbn. intros H%list_elem_of_singleton. discriminate.
Defined.

(** ** How one update moves the averages *)

(** The direction of one update.  A success never lowers a [success_rate]
    that is at most 1 and a failure never raises one that is at least 0,
    so from the same record a success leaves the rate at least as high as a
    failure would; a non-negative [avg_response_time] stays non-negative
    under a non-negative sample, and of two reported times the larger never
    gives the smaller new average. *)
Theorem update_moves_toward_sample self provider_name response_time success
        cost_efficiency now :
  let old := default (fresh provider_name now) (performance_metrics self !! provider_name) in
  let after rt ok :=
    performance_metrics (update_provider_metrics self provider_name rt ok cost_efficiency now)
      !! provider_name in
  exists new,
    after response_time success = Some new /\
    (success = true -> success_rate old <= 1 -> success_rate old <= success_rate new <= 1) /\
    (success = false -> 0 <= success_rate old -> 0 <= success_rate new <= success_rate old) /\
    (forall failed passed,
       after response_time false = Some failed -> after response_time true = Some passed ->
       success_rate failed <= success_rate passed) /\
    (0 <= avg_response_time old -> 0 <= response_time -> 0 <= avg_response_time new) /\
    (forall slower new',
       response_time <= slower -> after slower success = Some new' ->
       avg_response_time new <= avg_response_time new').
Proof.
  intros old after. subst after. unfold update_provider_metrics. cbn [performance_metrics].
  rewrite !lookup_insert_eq. eexists. split; [reflexivity|].
  cbn [success_rate avg_response_time].
  assert (Hold : old = match performance_metrics self !! provider_name with
                       | Some m => m | None => fresh provider_name now end).
  { subst old. by destruct (performance_metrics self !! provider_name). }
  rewrite <- Hold. clearbody old.
  split; [intros -> H; lra|]. split; [intros -> H; lra|].
  split; [intros failed passed [= <-] [= <-]; cbn [success_rate]; lra|].
  split; [intros H0 H1; lra|].
  intros slower new' Hle. rewrite lookup_insert_eq. intros [= <-].
  cbn [avg_response_time]. lra.
Qed.

(** A failed request of four seconds against P1's fresh record: the rate
    does not rise, and a slower answer would not have given a lower
    average. *)
Lemma update_moves_toward_sample_witness :
  exists new,
    performance_metrics (update_provider_metrics registry "p1" 4.0 false 1.0 7)
      !! "p1"%string = Some new /\
    0 <= success_rate new <= 1.0 /\
    0 <= avg_response_time new /\
    forall new',
      performance_metrics (update_provider_metrics registry "p1" 5.0 false 1.0 7)
        !! "p1"%string = Some new' ->
      avg_response_time new <= avg_response_time new'.
Proof.
  destruct (update_moves_toward_sample registry "p1"%string 4.0 false 1.0 7)
    as (new & E & _ & Hfail & _ & Hpos & Hmono).
  exists new. split; [exact E|]. split; [|split].
  - apply Hfail; [reflexivity|]. vm_compute. discriminate.
  - apply Hpos; vm_compute; discriminate.
  - intros new' E'. apply (Hmono 5.0 new'); [vm_compute; discriminate|exact E'].
Defined.

(** ** Runs of equal outcomes, and the life of a record *)

Lemma success_rate_of_update self u name :
  u_provider_name u = name ->
  success_rate_of (apply_update self u) name ==
  0.9 * success_rate_of self name + 0.1 * (if u_success u then 1 else 0).
Proof.
  intros <-. unfold success_rate_of, apply_update, update_provider_metrics.
  cbn [performance_metrics]. rewrite lookup_insert_eq. cbn [success_rate].
  destruct (performance_metrics self !! u_provider_name u); destruct (u_success u);
    cbn [success_rate fresh]; ring.
Qed.

Lemma request_count_of_update self u name :
  u_provider_name u = name ->
  request_count_of (apply_update self u) name = (request_count_of self name + 1)%Z.
Proof.
  intros <-. unfold request_count_of, apply_update, update_provider_metrics.
  cbn [performance_metrics]. rewrite lookup_insert_eq. cbn [request_count].
  destruct (performance_metrics self !! u_provider_name u); reflexivity.
Qed.

(** A run of [n] updates of one provider that all report the same outcome,
    starting from a [success_rate] in [[0,1]] (1.0 before the first update).
    Failures never raise the rate, and a positive rate stays positive
    however many failures follow; successes never lower it, and it stays at
    most 1.  [request_count] grows by exactly [n]. *)
Theorem success_rate_after_run self name (outcome : bool) (us : list MetricsUpdate) :
  Forall (fun u => u_provider_name u = name /\ u_success u = outcome) us ->
  in_unit (success_rate_of self name) ->
  (if outcome
   then success_rate_of self name <= success_rate_of (apply_updates self us) name <= 1
   else 0 <= success_rate_of (apply_updates self us) name <= success_rate_of self name /\
        (0 < success_rate_of self name -> 0 < success_rate_of (apply_updates self us) name)) /\
  request_count_of (apply_updates self us) name =
    (request_count_of self name + Z.of_nat (length us))%Z.
Proof.
  intros Hus. revert self. induction Hus as [|u us [Hn Ho] _ IH]; intros self [H0 H1].
  - change (apply_updates self []) with self. cbn [length Z.of_nat].
    split; [destruct outcome; repeat split; lra || auto|lia].
  - change (apply_updates self (u :: us)) with (apply_updates (apply_update self u) us).
    pose proof (success_rate_of_update self u name Hn) as Es. rewrite Ho in Es.
    pose proof (request_count_of_update self u name Hn) as Ec.
    assert (Hunit : in_unit (success_rate_of (apply_update self u) name)).
    { unfold in_unit. destruct outcome; lra. }
    destruct (IH (apply_update self u) Hunit) as [Hrate Hcount].
    split.
    + destruct outcome.
      * destruct Hrate as [Ha Hb]. split; lra.
      * destruct Hrate as [[Ha Hb] Hpos]. split; [split; lra|].
        intros Hp. apply Hpos. lra.
    + rewrite Hcount, Ec. change (length (u :: us)) with (S (length us)). lia.
Qed.

(** Two failures in a row for P1: the rate has not risen and is still
    positive, and two requests are counted. *)
Lemma success_rate_after_run_witness :
  let us := [mkMetricsUpdate "p1" 1.0 false 1.0 1; mkMetricsUpdate "p1" 1.0 false 1.0 2] in
  0 < success_rate_of (apply_updates registry us) "p1" <= success_rate_of registry "p1" /\
  request_count_of (apply_updates registry us) "p1" = 2%Z.
Proof.
  intros us.
  destruct (success_rate_after_run registry "p1"%string false us) as [[[_ Hle] Hpos] Hcount].
  - subst us. repeat constructor.
  - split; vm_compute; discriminate.
  - split; [split; [|exact Hle]|exact Hcount].
    apply Hpos. vm_compute. reflexivity.
Defined.

(** Records are created on first use and never deleted: after any sequence
    of updates the tracker holds exactly the providers it held before and
    the providers that were updated. *)
Theorem tracker_keys_grow self (us : list MetricsUpdate) :
  dom (performance_metrics (apply_updates self us)) =
  dom (performance_metrics self) ∪ list_to_set (map u_provider_name us).
Proof.
  revert self. induction us as [|u us IH]; intros self.
  - change (apply_updates self []) with self. cbn [map list_to_set].
    by rewrite union_empty_r_L.
  - change (apply_updates self (u :: us)) with (apply_updates (apply_update self u) us).
    rewrite IH. unfold apply_update at 1, update_provider_metrics.
    cbn [performance_metrics map list_to_set]. rewrite dom_insert_L.
    apply set_eq. intros x. rewrite !elem_of_union. tauto.
Qed.

End SelectorMore.

(* ===================================================================== *)
(** * Properties of the provider loader *)
(* ===================================================================== *)

Section LoaderFacts.
Import Loader.

(** ** Health updates *)

Lemma lookup_assign_eq ps key v :
  lookup (assign ps key v) key = Some v.
Proof.
  induction ps as [|[k p] ps IH]; cbn; [by rewrite String.eqb_refl|].
  destruct (String.eqb k key) eqn:E; cbn; rewrite E; [reflexivity|exact IH].
Qed.

Lemma lookup_assign_ne ps key v key' :
  key' <> key -> lookup (assign ps key v) key' = lookup ps key'.
Proof.
  intros Hne. induction ps as [|[k p] ps IH]; cbn.
  - destruct (String.eqb key key') eqn:E; [|reflexivity].
    apply String.eqb_eq in E. congruence.
  - destruct (String.eqb k key) eqn:E; cbn.
    + apply String.eqb_eq in E. subst k.
      destruct (String.eqb key key') eqn:E'; [|reflexivity].
      apply String.eqb_eq in E'. congruence.
    + by rewrite IH.
Qed.

Lemma assign_keys_present ps key v :
  is_Some (lookup ps key) -> map fst (assign ps key v) = map fst ps.
Proof.
  induction ps as [|[k p] ps IH]; cbn; [by intros [? ?]|].
  destruct (String.eqb k key) eqn:E; cbn; [reflexivity|].
  intros H. by rewrite IH.
Qed.

(** [update_provider_health] finds the provider whatever the case of the
    name and stores the clamped score: 0 for a score below 0, 1 for a score
    above 1, the score itself in between.  It changes nothing else: the keys
    and their order stay, the record keeps its other fields, every other
    provider keeps its record, and an unknown name leaves the registry as it
    was. *)
Theorem update_provider_health_clamps providers name h :
  map fst (update_provider_health providers name h) = map fst providers /\
  (forall key, key <> Text.lower name ->
     lookup (update_provider_health providers name h) key = lookup providers key) /\
  match get_provider providers name with
  | Some p =>
      exists p', get_provider (update_provider_health providers name h) name = Some p' /\
                 p' = with_health p (health_score p') /\
                 (h < 0 -> health_score p' == 0) /\
                 (1 < h -> health_score p' == 1) /\
                 (in_unit h -> health_score p' == h)
  | None => update_provider_health providers name h = providers
  end.
Proof.
  unfold update_provider_health, get_provider.
  destruct (lookup providers (Text.lower name)) as [p|] eqn:E.
  - split; [apply assign_keys_present; by rewrite E|].
    split; [intros key Hne; by apply lookup_assign_ne|].
    eexists. split; [apply lookup_assign_eq|]. cbn [health_score with_health].
    split; [reflexivity|].
    pose proof (Q.min_spec 1.0 h) as Hmin.
    pose proof (Q.max_spec 0.0 (Qmin 1.0 h)) as Hmax.
    set (m := Qmin 1.0 h) in *. set (M := Qmax 0.0 m) in *.
    unfold in_unit. destruct Hmin as [[? ?]|[? ?]]; destruct Hmax as [[? ?]|[? ?]];
      (split; [intros ?; lra|split; [intros ?; lra|intros [? ?]; lra]]).
  - split; [reflexivity|]. split; [reflexivity|reflexivity].
Qed.

(** The name in capitals reaches P3, a score of 1.5 is stored as 1, and P2
    is left alone. *)
Lemma update_provider_health_clamps_witness :
  exists p',
    get_provider (update_provider_health (Selector.providers registry) "P3" 1.5) "P3" = Some p' /\
    health_score p' == 1 /\
    lookup (update_provider_health (Selector.providers registry) "P3" 1.5) "p2" =
    lookup (Selector.providers registry) "p2".
Proof.
  destruct (update_provider_health_clamps (Selector.providers registry) "P3" 1.5)
    as (_ & Hother & Hthis).
  change (get_provider (Selector.providers registry) "P3") with (Some P3) in Hthis.
  destruct Hthis as (p' & E & _ & _ & Hhigh & _).
  exists p'. split; [exact E|]. split.
  - apply Hhigh. vm_compute. reflexivity.
  - apply Hother. vm_compute. discriminate.
Defined.

(** ** Validation *)

Lemma app_nil_iff {A} (l k : list A) : l ++ k = [] <-> l = [] /\ k = [].
Proof. split; [apply app_eq_nil|intros [-> ->]; reflexivity]. Qed.

Lemma provider_issues_nil_iff p : provider_issues p = [] <-> valid_config p.
Proof.
  unfold provider_issues, valid_config, Text.startswith.
  rewrite !app_nil_iff.
  assert (Hurl : (if String.eqb (base_url p) "" then ["Missing base URL"%string]
                  else if negb (String.prefix "http://" (base_url p)
                                || String.prefix "https://" (base_url p))
                       then ["Invalid base URL format"%string] else []) = [] <->
                 (String.prefix "http://" (base_url p) = true \/
                  String.prefix "https://" (base_url p) = true)).
  { destruct (String.eqb (base_url p) "") eqn:Eu.
    - apply String.eqb_eq in Eu. rewrite Eu. cbn. split; [discriminate|].
      intros [?|?]; discriminate.
    - destruct (String.prefix "http://" (base_url p));
      destruct (String.prefix "https://" (base_url p)); cbn;
      (split; [intros ?; try discriminate; auto|intros [?|?]; try discriminate; auto]). }
  assert (Hmod : match models p with [] => ["No models specified"%string] | _ => [] end = []
                 <-> models p <> []).
  { destruct (models p); split; try discriminate; try congruence; auto. }
  assert (Hkey : (if ProviderTier_eqb (tier p) OFFICIAL && String.eqb (api_key p) ""
                  then ["Official provider missing API key"%string] else []) = [] <->
                 (tier p = OFFICIAL -> api_key p <> ""%string)).
  { destruct (String.eqb_spec (api_key p) ""); destruct (tier p); cbn;
      split; try discriminate; try congruence; auto.
    intros H. exfalso. by apply H. }
  assert (Htime : (if (timeout p <=? 0)%Z then ["Invalid timeout value"%string] else [])
                  = [] <-> (0 < timeout p)%Z).
  { destruct (Z.leb_spec (timeout p) 0); split; try discriminate; auto; lia. }
  assert (Hrpm : (if (max_requests_per_minute p <=? 0)%Z
                  then ["Invalid max requests per minute"%string] else []) = [] <->
                 (0 < max_requests_per_minute p)%Z).
  { destruct (Z.leb_spec (max_requests_per_minute p) 0); split; try discriminate; auto; lia. }
  assert (Hcost : (if Qltb (cost_per_1k_tokens p) 0
                   then ["Invalid cost per 1k tokens"%string] else []) = [] <->
                  0 <= cost_per_1k_tokens p).
  { unfold Qltb. destruct (Qlt_le_dec (cost_per_1k_tokens p) 0);
      split; try discriminate; auto. intros ?. lra. }
  rewrite Hurl, Hmod, Hkey, Htime, Hrpm, Hcost. reflexivity.
Qed.

(** [validate_providers] reports a provider exactly when its record is not
    valid: the base URL must start with http:// or https://, the model list
    must be non-empty, an OFFICIAL provider needs a key, time-out and rate
    limit must be positive and the cost non-negative.  Every reported list of
    issues is non-empty, and the reports keep the registry order. *)
Theorem validate_providers_exact providers :
  (forall p, provider_issues p = [] <-> valid_config p) /\
  validate_providers providers =
    List.filter (fun ki => match snd ki with [] => false | _ => true end)
                (map (fun kp => (fst kp, provider_issues (snd kp))) providers).
Proof.
  split; [exact provider_issues_nil_iff|].
  induction providers as [|[k p] ps IH]; [reflexivity|].
  cbn [validate_providers map List.filter fst snd].
  rewrite IH. destruct (provider_issues p); reflexivity.
Qed.

(** P1's record is valid, so no issue is reported for it. *)
Lemma validate_providers_exact_witness : provider_issues P1 = [].
Proof.
  apply (proj1 (validate_providers_exact []) P1).
  unfold valid_config. split; [right; reflexivity|].
  split; [discriminate|]. split; [discriminate|].
  split; [reflexivity|]. split; [reflexivity|]. vm_compute. discriminate.
Defined.

(** Validation and selection disagree on keyless COMMUNITY providers:
    [validate_providers] asks a key of OFFICIAL providers only, so such a
    record, valid otherwise, is reported clean, while the filter step of the
    selector drops it whatever the constraints. *)
Theorem keyless_community_valid_but_dropped p constraints :
  tier p = COMMUNITY -> api_key p = ""%string -> valid_config p ->
  provider_issues p = [] /\ Selector.keeps p constraints = Ok false.
Proof.
  intros Ht Hk Hv. split; [by apply provider_issues_nil_iff|].
  unfold Selector.keeps. rewrite Ht, Hk. reflexivity.
Qed.

(** P2 with its key removed. *)
Lemma keyless_community_valid_but_dropped_witness :
  provider_issues (mkProviderConfig "P2" COMMUNITY "https://api.p2.example" "" ["m-small"]
                     30 60 0.00005 2 1.0 "") = [] /\
  Selector.keeps (mkProviderConfig "P2" COMMUNITY "https://api.p2.example" "" ["m-small"]
                    30 60 0.00005 2 1.0 "") None = Ok false.
Proof.
  apply (keyless_community_valid_but_dropped
           (mkProviderConfig "P2" COMMUNITY "https://api.p2.example" "" ["m-small"]
              30 60 0.00005 2 1.0 "") None).
  - reflexivity.
  - reflexivity.
  - unfold valid_config. split; [right; reflexivity|].
    split; [discriminate|]. split; [discriminate|].
    split; [reflexivity|]. split; [reflexivity|]. vm_compute. discriminate.
Defined.

(** ** Ordering by priority *)

Lemma insert_by_priority_perm x l : Permutation (insert_by_priority x l) (x :: l).
Proof.
  induction l as [|y l IH]; cbn; [reflexivity|].
  destruct (priority y <? priority x)%Z; [|reflexivity].
  rewrite IH. apply perm_swap.
Qed.

Lemma ascending_cons x l :
  (forall y, y ∈ l -> (priority x <= priority y)%Z) ->
  ascending_priority l -> ascending_priority (x :: l).
Proof.
  intros Hx Hl i j a b Hij Hi Hj. destruct j as [|j]; [lia|]. cbn in Hj.
  destruct i as [|i]; cbn in Hi.
  - injection Hi as <-. apply Hx. by eapply list_elem_of_lookup_2.
  - apply (Hl i j); [lia|assumption|assumption].
Qed.

Lemma ascending_inv x l :
  ascending_priority (x :: l) ->
  (forall y, y ∈ l -> (priority x <= priority y)%Z) /\ ascending_priority l.
Proof.
  intros H. split.
  - intros y [j Hj]%list_elem_of_lookup_1. apply (H 0%nat (S j)); [lia|reflexivity|exact Hj].
  - intros i j a b Hij Hi Hj. apply (H (S i) (S j)); [lia|exact Hi|exact Hj].
Qed.

Lemma insert_by_priority_ascending x l :
  ascending_priority l -> ascending_priority (insert_by_priority x l).
Proof.
  induction l as [|y l IH]; intros Hl; cbn.
  - apply ascending_cons; [intros z Hz; by apply elem_of_nil in Hz|exact Hl].
  - destruct (ascending_inv _ _ Hl) as [Hy Hl'].
    destruct (Z.ltb_spec (priority y) (priority x)) as [Hlt|Hle].
    + apply ascending_cons; [|by apply IH].
      intros z Hz. rewrite insert_by_priority_perm in Hz.
      apply elem_of_cons in Hz as [->|Hz]; [lia|by apply Hy].
    + apply ascending_cons; [|exact Hl].
      intros z [->|Hz]%elem_of_cons; [exact Hle|].
      specialize (Hy z Hz). lia.
Qed.

Lemma insert_by_priority_stable k x l :
  with_priority k (insert_by_priority x l) = with_priority k (x :: l).
Proof.
  unfold with_priority. induction l as [|y l IH]; [reflexivity|].
  cbn [insert_by_priority]. destruct (Z.ltb_spec (priority y) (priority x)) as [Hlt|Hle];
    [|reflexivity].
  cbn [List.filter] in *. rewrite IH.
  destruct (Z.eqb_spec (priority y) k); destruct (Z.eqb_spec (priority x) k);
    try reflexivity. lia.
Qed.

(** [get_providers_by_priority] returns every provider of the registry once,
    lowest priority number first, and providers of equal priority in their
    registry order. *)
Theorem get_providers_by_priority_sorted providers :
  Permutation (get_providers_by_priority providers) (map snd providers) /\
  ascending_priority (get_providers_by_priority providers) /\
  forall k, with_priority k (get_providers_by_priority providers) =
            with_priority k (map snd providers).
Proof.
  unfold get_providers_by_priority.
  induction (map snd providers) as [|x l (IHp & IHa & IHs)]; cbn [fold_right].
  - split; [reflexivity|]. split; [|reflexivity].
    intros i j a b _ Hi. by rewrite lookup_nil in Hi.
  - split; [rewrite insert_by_priority_perm; by constructor|].
    split; [by apply insert_by_priority_ascending|].
    intros k. rewrite insert_by_priority_stable. unfold with_priority in *.
    cbn [List.filter]. by rewrite IHs.
Qed.

(** ** Statistics *)

Lemma tier_partition (l : list ProviderConfig) :
  (length (List.filter (fun p => ProviderTier_eqb (tier p) OFFICIAL) l) +
   length (List.filter (fun p => ProviderTier_eqb (tier p) COMMUNITY) l) +
   length (List.filter (fun p => ProviderTier_eqb (tier p) UNOFFICIAL) l))%nat = length l.
Proof.
  induction l as [|p l IH]; [reflexivity|]. cbn [List.filter].
  destruct (tier p); cbn [ProviderTier_eqb length]; lia.
Qed.

Lemma fold_costs_nonneg (l : list Q) acc :
  0 <= acc -> Forall (fun c => 0 <= c) l -> 0 <= fold_left Qplus l acc.
Proof.
  revert acc. induction l as [|c l IH]; intros acc Hacc Hl; cbn; [exact Hacc|].
  inversion Hl as [|? ? Hc Hl']; subst. apply IH; [lra|exact Hl'].
Qed.

(** [get_provider_stats] answers [{"total": 0}] exactly for an empty
    registry; otherwise the total is the number of providers, the three
    tier counts add up to it, the number of providers with a key does not
    exceed it, and the average cost is not negative when no cost is. *)
Theorem get_provider_stats_consistent providers :
  match get_provider_stats providers with
  | NoProviders => providers = []
  | Stats total by_tier with_api_keys average =>
      providers <> [] /\ total = length providers /\
      map fst by_tier = ["official"; "community"; "unofficial"]%string /\
      fold_right Nat.add 0%nat (map snd by_tier) = total /\
      (with_api_keys <= total)%nat /\
      (Forall (fun kp => 0 <= cost_per_1k_tokens (snd kp)) providers -> 0 <= average)
  end.
Proof.
  unfold get_provider_stats. destruct providers as [|kp ps]; [reflexivity|].
  set (l := kp :: ps). split; [discriminate|]. split; [reflexivity|].
  split; [reflexivity|]. split; [|split].
  - cbn [map fst snd fold_right]. unfold get_providers_by_tier.
    rewrite <- (List.length_map snd l), <- (tier_partition (map snd l)). lia.
  - unfold get_available_providers. rewrite <- (List.length_map snd l).
    apply List.filter_length_le.
  - intros Hcosts. apply Qle_shift_div_l.
    + unfold l. cbn [length]. unfold Qlt. cbn. lia.
    + rewrite Qmult_0_l. apply fold_costs_nonneg; [lra|].
      apply Forall_map. exact Hcosts.
Qed.

(** The three providers of the registry: one per tier, two with a key, no
    negative cost. *)
Lemma get_provider_stats_consistent_witness :
  exists by_tier average,
    get_provider_stats (Selector.providers registry) = Stats 3 by_tier 2 average /\
    fold_right Nat.add 0%nat (map snd by_tier) = 3%nat /\ 0 <= average.
Proof.
  pose proof (get_provider_stats_consistent (Selector.providers registry)) as H.
  destruct (get_provider_stats (Selector.providers registry))
    as [|total by_tier with_api_keys average] eqn:E; [discriminate H|].
  destruct H as (_ & Htotal & _ & Hsum & _ & Havg).
  exists by_tier, average. split; [|split].
  - vm_compute in E. injection E as <- <- <- <-. reflexivity.
  - rewrite Hsum, Htotal. reflexivity.
  - apply Havg. unfold registry, Selector.__init__. cbn [Selector.providers].
    do 3 (constructor; [vm_compute; discriminate|]). constructor.
Defined.

(** ** Loading *)

Lemma assign_keys ps key v k :
  k ∈ map fst (assign ps key v) -> k = key \/ k ∈ map fst ps.
Proof.
  induction ps as [|[k' p'] ps IH]; cbn.
  - intros ->%list_elem_of_singleton. by left.
  - destruct (String.eqb_spec k' key) as [->|Hne]; cbn.
    + intros [->|Hin]%elem_of_cons; [by left|right; by right].
    + intros [->|Hin]%elem_of_cons; [right; left|].
      destruct (IH Hin) as [->|?]; [by left|right; by right].
Qed.

Lemma assign_keyed ps key v :
  keyed_by_name ps -> key = Text.lower (name v) -> keyed_by_name (assign ps key v).
Proof.
  intros [Hnd Hel] Hkey. induction ps as [|[k' p'] ps IH]; cbn.
  - split; [apply NoDup_singleton|].
    intros k p [= -> ->]%list_elem_of_singleton. exact Hkey.
  - cbn in Hnd. apply NoDup_cons in Hnd as [Hk' Hnd].
    destruct (String.eqb_spec k' key) as [->|Hne].
    + split; [cbn; by apply NoDup_cons|].
      intros k p [[= -> ->]|Hin]%elem_of_cons; [exact Hkey|].
      apply Hel. by right.
    + destruct IH as [IHnd IHel]; [exact Hnd|intros k p Hin; apply Hel; by right|].
      split.
      * cbn. apply NoDup_cons. split; [|exact IHnd].
        intros [->|Hin]%assign_keys; [by apply Hne|contradiction].
      * intros k p [[= -> ->]|Hin]%elem_of_cons; [apply Hel; left|by apply IHel].
Qed.

Lemma lookup_keyed ps k p :
  NoDup (map fst ps) -> (k, p) ∈ ps -> lookup ps k = Some p.
Proof.
  induction ps as [|[k' p'] ps IH]; intros Hnd Hin; [by apply elem_of_nil in Hin|].
  cbn in Hnd. apply NoDup_cons in Hnd as [Hk' Hnd]. cbn.
  apply elem_of_cons in Hin as [[= -> ->]|Hin].
  - by rewrite String.eqb_refl.
  - destruct (String.eqb_spec k' k) as [->|Hne]; [|by apply IH].
    exfalso. apply Hk'. apply (list_elem_of_fmap_2 fst _ (k, p)). exact Hin.
Qed.

Section LoadingFacts.
Variable py_int : string -> option Z.
Variable py_float : string -> option Q.
Variable getenv : string -> option string.

Lemma load_rows_keyed rows : forall ps,
  keyed_by_name ps -> keyed_by_name (load_rows py_int py_float getenv ps rows).
Proof.
  induction rows as [|row rows IH]; intros ps Hps; [exact Hps|].
  cbn [load_rows fold_left]. apply IH.
  destruct (_parse_provider_row py_int py_float getenv row) as [p|]; [|exact Hps].
  by apply assign_keyed.
Qed.

Lemma load_rows_lookup_other key rows : forall ps,
  (forall row q, row ∈ rows -> _parse_provider_row py_int py_float getenv row = Some q ->
                 Text.lower (name q) <> key) ->
  lookup (load_rows py_int py_float getenv ps rows) key = lookup ps key.
Proof.
  induction rows as [|row rows IH]; intros ps Hrows; [reflexivity|].
  cbn [load_rows fold_left].
  change (fold_left _ rows ?x) with (load_rows py_int py_float getenv x rows).
  rewrite IH by (intros r q Hr; apply Hrows; by right).
  destruct (_parse_provider_row py_int py_float getenv row) as [q|] eqn:Eq; [|reflexivity].
  apply lookup_assign_ne. intros Heq. apply (Hrows row q); [left|exact Eq|by symmetry].
Qed.

(** Loading keeps the registry keyed by lower-cased name without duplicates:
    every loaded provider is found again under any spelling of its name that
    differs only in letter case; and of several rows whose names differ only
    in case, the last one that parses is the record that stays. *)
Theorem load_rows_case_insensitive rows :
  let providers := load_rows py_int py_float getenv [] rows in
  keyed_by_name providers /\
  (forall k p spelling,
     (k, p) ∈ providers -> Text.lower spelling = Text.lower (name p) ->
     get_provider providers spelling = Some p) /\
  (forall before row after p,
     rows = before ++ row :: after ->
     _parse_provider_row py_int py_float getenv row = Some p ->
     (forall r q, r ∈ after -> _parse_provider_row py_int py_float getenv r = Some q ->
                  Text.lower (name q) <> Text.lower (name p)) ->
     get_provider providers (name p) = Some p).
Proof.
  intros providers.
  assert (Hk : keyed_by_name providers).
  { apply load_rows_keyed. split; [constructor|]. intros k p Hin. by apply elem_of_nil in Hin. }
  split; [exact Hk|]. split.
  - intros k p spelling Hin Hsp. unfold get_provider. rewrite Hsp.
    destruct Hk as [Hnd Hel]. rewrite <- (Hel k p Hin). by apply lookup_keyed.
  - intros before row after p -> Hp Hafter. subst providers.
    unfold get_provider, load_rows. rewrite fold_left_app. cbn [fold_left]. rewrite Hp.
    change (fold_left _ after ?x) with (load_rows py_int py_float getenv x after).
    rewrite load_rows_lookup_other by exact Hafter. apply lookup_assign_eq.
Qed.

(** ** Parsing one row *)

Lemma lower_empty s : Text.lower s = ""%string -> s = ""%string.
Proof. destruct s; [reflexivity|discriminate]. Qed.

(** A row whose tier is not one of the three tier names is not rejected: it
    parses exactly as the same row with the tier "unofficial". *)
Theorem unknown_tier_is_unofficial r1 r2 t :
  (forall key, key <> "Tier"%string -> row_get r1 key = row_get r2 key) ->
  row_get r1 "Tier" = Content t -> row_get r2 "Tier" = Content "unofficial" ->
  Text.strip t <> ""%string ->
  is_tier_value (PyStr (Text.lower (Text.strip t))) = false ->
  _parse_provider_row py_int py_float getenv r1 =
  _parse_provider_row py_int py_float getenv r2.
Proof.
  intros Hsame H1 H2 Hne Hbad. unfold _parse_provider_row, stripped, int_field, float_field.
  rewrite H1, H2, !Hsame by discriminate.
  assert (Hempty : String.eqb "" (Text.lower (Text.strip t)) = false).
  { destruct (String.eqb_spec "" (Text.lower (Text.strip t))) as [E|_]; [|reflexivity].
    symmetry in E. apply lower_empty in E. contradiction. }
  destruct (row_get r2 "Name") as [| |n]; try reflexivity;
  destruct (row_get r2 "Base_URL") as [| |u]; try reflexivity;
  destruct (row_get r2 "APIKey") as [| |a]; try reflexivity;
  destruct (row_get r2 "Model(s)") as [| |m]; try reflexivity;
  cbn [mbind option_bind fmap option_fmap option_map existsb];
  rewrite Hempty, (tier_value_bad _ Hbad); reflexivity.
Qed.

Lemma strip_models_nonempty pieces :
  Forall (fun m => m <> ""%string)
         (map Text.strip
              (List.filter (fun model => negb (String.eqb (Text.strip model) "")) pieces)).
Proof.
  induction pieces as [|x l IH]; cbn; [constructor|].
  destruct (String.eqb_spec (Text.strip x) ""); cbn; [exact IH|]. by constructor.
Qed.

(** A row that parses gives a provider with a non-empty name and base URL,
    model names that are all non-empty, and the full health score 1.0; and
    an API key written none or null (in any case, or left out or empty)
    becomes the empty key. *)
Theorem parsed_provider_shape row p :
  _parse_provider_row py_int py_float getenv row = Some p ->
  name p <> ""%string /\ base_url p <> ""%string /\
  Forall (fun m => m <> ""%string) (models p) /\
  health_score p = 1.0 /\
  (match row_get row "APIKey" with
   | Content a => existsb (String.eqb (Text.lower (Text.strip a))) ["none"; "null"; ""] = true
   | Missing => True
   | Null => False
   end -> api_key p = ""%string).
Proof.
  unfold _parse_provider_row. intros H.
  apply bind_Some in H as (n & Hn & H). apply bind_Some in H as (t & Ht & H).
  apply bind_Some in H as (u & Hu & H). apply bind_Some in H as (a & Ha & H).
  apply bind_Some in H as (m & Hm & H).
  destruct (existsb (String.eqb "") [n; t; u; m]) eqn:E; [discriminate|].
  apply bind_Some in H as (ti & _ & H). apply bind_Some in H as (mr & _ & H).
  apply bind_Some in H as (c & _ & H). apply bind_Some in H as (pr & _ & H).
  apply bind_Some in H as (o & _ & H). injection H as <-.
  cbn [name base_url models health_score api_key].
  cbn [existsb] in E. apply orb_false_elim in E as [En E].
  apply orb_false_elim in E as [_ E]. apply orb_false_elim in E as [Eu _].
  apply String.eqb_neq in En. apply String.eqb_neq in Eu.
  split; [congruence|]. split; [congruence|].
  split; [apply strip_models_nonempty|]. split; [reflexivity|].
  unfold stripped in Ha. unfold resolve_api_key.
  destruct (row_get row "APIKey") as [| |s]; [|discriminate|].
  - injection Ha as <-. intros _. reflexivity.
  - injection Ha as <-. intros ->. reflexivity.
Qed.
End LoadingFacts.
End LoaderFacts.

(** Two rows for the same provider in different case, the second with the
    key spelled none: the second record stays, found under any spelling. *)
Lemma load_rows_case_insensitive_witness :
  exists p,
    Loader._parse_provider_row no_int no_float no_env (sample_row "OPENAI" "community" "none")
    = Some p /\
    Loader.get_provider
      (Loader.load_rows no_int no_float no_env []
         [sample_row "OpenAI" "official" "sk-1"; sample_row "OPENAI" "community" "none"])
      "openAI" = Some p.
Proof.
  destruct (load_rows_case_insensitive no_int no_float no_env
              [sample_row "OpenAI" "official" "sk-1"; sample_row "OPENAI" "community" "none"])
    as (_ & Hfind & _).
  eexists. split; [vm_compute; reflexivity|].
  apply (Hfind "openai"%string); [vm_compute; left|reflexivity].
Defined.

(** The tier "premium" is read as "unofficial". *)
Lemma unknown_tier_is_unofficial_witness :
  Loader._parse_provider_row no_int no_float no_env (sample_row "Acme" "Premium " "k") =
  Loader._parse_provider_row no_int no_float no_env (sample_row "Acme" "unofficial" "k").
Proof.
  apply (unknown_tier_is_unofficial no_int no_float no_env
           (sample_row "Acme" "Premium " "k") (sample_row "Acme" "unofficial" "k") "Premium ").
  - intros key Hne. unfold sample_row. cbn [Loader.row_get].
    destruct (String.eqb "Name" key); [reflexivity|].
    destruct (String.eqb_spec "Tier" key) as [E|_]; [congruence|reflexivity].
  - reflexivity.
  - reflexivity.
  - vm_compute. discriminate.
  - reflexivity.
Defined.

(** A row whose key is the word NONE. *)
Lemma parsed_provider_shape_witness :
  exists p,
    Loader._parse_provider_row no_int no_float no_env (sample_row "OpenAI" "official" "NONE")
    = Some p /\
    Loader.name p <> ""%string /\ Loader.base_url p <> ""%string /\
    Forall (fun m => m <> ""%string) (Loader.models p) /\
    Loader.health_score p = 1.0 /\ Loader.api_key p = ""%string.
Proof.
  eexists. split; [vm_compute; reflexivity|].
  destruct (parsed_provider_shape no_int no_float no_env
              (sample_row "OpenAI" "official" "NONE") _ eq_refl)
    as (Hn & Hu & Hm & Hh & Hk).
  split; [exact Hn|]. split; [exact Hu|]. split; [exact Hm|]. split; [exact Hh|].
  apply Hk. reflexivity.
Defined.

(* ===================================================================== *)
(** * Further properties of the metrics collector *)
(* ===================================================================== *)

Section MetricsMore.
Import Metrics.
Variable hour_key_of : Q -> string.

(** ** What one call changes *)

Lemma record_request_provider_metrics self provider_name model success response_time cost
      input_tokens output_tokens complexity_level error_type now :
  provider_metrics
    (snd (record_request hour_key_of self provider_name model success response_time cost
            input_tokens output_tokens complexity_level error_type now)) =
  <[provider_name :=
      aggregate (default (fresh provider_name) (provider_metrics self !! provider_name))
        (mkRequestMetric now provider_name model success response_time cost input_tokens
           output_tokens complexity_level error_type)]> (provider_metrics self).
Proof.
  unfold record_request.
  cbn [complexity_stats _update_provider_metrics set_provider_metrics set_request_metrics
       provider provider_metrics].
  destruct (complexity_stats self !! complexity_level) as [n|]; [|reflexivity].
  unfold _update_hourly_stats.
  cbn [hourly_stats set_complexity_stats set_provider_metrics set_request_metrics
       _update_provider_metrics timestamp Metrics.complexity_level h_complexity].
  destruct (h_complexity _ !! complexity_level); reflexivity.
Qed.

Lemma record_request_log self provider_name model success response_time cost
      input_tokens output_tokens complexity_level error_type now :
  request_metrics
    (snd (record_request hour_key_of self provider_name model success response_time cost
            input_tokens output_tokens complexity_level error_type now)) =
  request_metrics self ++
  [mkRequestMetric now provider_name model success response_time cost input_tokens
     output_tokens complexity_level error_type].
Proof.
  unfold record_request.
  cbn [complexity_stats _update_provider_metrics set_provider_metrics set_request_metrics
       provider provider_metrics].
  destruct (complexity_stats self !! complexity_level) as [n|]; [|reflexivity].
  unfold _update_hourly_stats.
  cbn [hourly_stats set_complexity_stats set_provider_metrics set_request_metrics
       _update_provider_metrics timestamp Metrics.complexity_level h_complexity].
  destruct (h_complexity _ !! complexity_level); reflexivity.
Qed.

(** ** The aggregates add up *)

Lemma aggregate_keeps_consistent key pm metric :
  aggregate_consistent key pm -> aggregate_consistent key (aggregate pm metric).
Proof.
  intros (Hn & Ht & Hs & Hf). unfold aggregate_consistent, aggregate.
  cbn [name total_requests successful_requests failed_requests].
  destruct (success metric); repeat split; try assumption; lia.
Qed.

Lemma success_rate_unit key pm : aggregate_consistent key pm -> in_unit (success_rate pm).
Proof.
  intros (_ & Ht & Hs & Hf). unfold success_rate, in_unit.
  destruct (Z.ltb_spec 0 (total_requests pm)) as [Hpos|_]; [|lra].
  assert (Hq : 0 < inject_Z (total_requests pm)) by (unfold Qlt; cbn; lia).
  split.
  - apply Qle_shift_div_l; [exact Hq|]. rewrite Qmult_0_l. unfold Qle; cbn; lia.
  - apply Qle_shift_div_r; [exact Hq|]. rewrite Qmult_1_l. unfold Qle; cbn; lia.
Qed.

(** In every state the collector can reach, each provider's aggregate is
    stored under the provider's name, its request count is the sum of its
    successes and failures, and its [success_rate] lies in [[0,1]]. *)
Theorem provider_aggregates_add_up self :
  reachable hour_key_of self ->
  forall key pm, provider_metrics self !! key = Some pm ->
    aggregate_consistent key pm /\ in_unit (success_rate pm).
Proof.
  intros Hreach.
  assert (Hinv : forall key pm, provider_metrics self !! key = Some pm ->
                                aggregate_consistent key pm).
  { induction Hreach as [retention now| |self now _ IH].
    - intros key pm. cbn. by rewrite lookup_empty.
    - intros key pm. rewrite record_request_provider_metrics, lookup_insert.
      case_decide as Hk; [|apply IHHreach].
      intros [= <-]. subst key. apply aggregate_keeps_consistent.
      destruct (provider_metrics self !! provider_name) as [old|] eqn:E; cbn [default].
      + by apply IHHreach.
      + unfold aggregate_consistent. cbn. repeat split; lia.
    - exact IH. }
  intros key pm Hpm. split; [by apply Hinv|]. eapply success_rate_unit. by apply Hinv.
Qed.

(** ** The log never holds more than the aggregates count *)

Lemma filter_app_length {A} (f : A -> bool) l x :
  length (List.filter f (l ++ [x])) =
  (length (List.filter f l) + (if f x then 1 else 0))%nat.
Proof.
  rewrite List.filter_app, List.length_app. cbn. destruct (f x); reflexivity.
Qed.

Lemma filter_filter_le {A} (f g : A -> bool) l :
  (length (List.filter f (List.filter g l)) <= length (List.filter f l))%nat.
Proof.
  induction l as [|x l IH]; [reflexivity|]. cbn.
  destruct (g x); cbn; destruct (f x); cbn; lia.
Qed.

Lemma stdpp_filter_is_filter {A} (f : A -> bool) (l : list A) :
  filter (fun m => Is_true (f m)) l = List.filter f l.
Proof.
  induction l as [|x l IH]; [reflexivity|]. cbn. rewrite <- IH.
  unfold filter at 1. cbn. destruct (f x); cbn; reflexivity.
Qed.

(** In every reachable state the requests of a provider still in the log
    are at most the provider's [total_requests]: each call adds one to both,
    also when it raises, and the retention sweep prunes the log only.  After
    a sweep the system totals, counted from the log, can fall below the
    provider aggregates. *)
Theorem log_within_aggregates self :
  reachable hour_key_of self ->
  forall provider_name,
    (logged_requests self provider_name <= total_requests_of self provider_name)%Z.
Proof.
  induction 1 as [retention now|self pn model success rt cost it ot level et now _ IH
                  |self now _ IH]; intros provider_name.
  - unfold logged_requests, total_requests_of. cbn [__init__ request_metrics provider_metrics].
    rewrite lookup_empty. reflexivity.
  - unfold logged_requests, total_requests_of, len in *.
    rewrite record_request_provider_metrics, record_request_log, filter_app_length.
    cbn [provider]. specialize (IH provider_name). rewrite lookup_insert.
    case_decide as Hk.
    + subst pn. rewrite String.eqb_refl. cbn [aggregate total_requests].
      destruct (provider_metrics self !! provider_name); cbn [default fresh total_requests] in *.
      all: unfold id; lia.
    + destruct (String.eqb_spec pn provider_name); [contradiction|]. lia.
  - unfold logged_requests, total_requests_of, len in *.
    specialize (IH provider_name). cbn [_cleanup_old_metrics log set_hourly_stats
      set_request_metrics request_metrics provider_metrics].
    rewrite stdpp_filter_is_filter.
    pose proof (filter_filter_le (fun m => String.eqb (provider m) provider_name)
                  (fun m => Qltb (now - inject_Z (retention_hours self * 3600)) (timestamp m))
                  (request_metrics self)).
    lia.
Qed.

(** ** The hourly buckets add up *)

Lemma level_sum_bump (m : gmap string Z) level n :
  level ∈ known_levels -> m !! level = Some n ->
  level_sum (<[level := (n + 1)%Z]> m) = (level_sum m + 1)%Z.
Proof.
  unfold known_levels, level_sum. rewrite !elem_of_cons, elem_of_nil.
  intros [->|[->|[->|[]]]] Hn; rewrite Hn;
    repeat first [rewrite lookup_insert_eq | rewrite lookup_insert_ne by discriminate];
    cbn [default from_option id]; unfold id; lia.
Qed.

(** In every reachable state each hourly bucket is balanced: its three
    complexity counters add up to its request count, and its successes lie
    between 0 and that count. *)
Theorem hourly_buckets_add_up self :
  reachable hour_key_of self ->
  forall hour stats, hourly_stats self !! hour = Some stats ->
    level_sum (h_complexity stats) = h_requests stats /\
    (0 <= h_successes stats <= h_requests stats)%Z.
Proof.
  induction 1 as [retention now|self pn model success rt cost it ot level et now Hr IH
                  |self now _ IH]; intros hour stats.
  - cbn. by rewrite lookup_empty.
  - destruct (reachable_keyed hour_key_of self Hr) as [Hc Hh].
    unfold record_request.
    cbn [complexity_stats _update_provider_metrics set_provider_metrics set_request_metrics].
    destruct (complexity_stats self !! level) as [n|] eqn:En; [|apply IH].
    assert (Hlevel : level ∈ known_levels).
    { apply (zero_levels_lookup _ level Hc). by exists n. }
    unfold _update_hourly_stats.
    cbn [hourly_stats set_complexity_stats set_provider_metrics set_request_metrics
         _update_provider_metrics timestamp Metrics.complexity_level h_complexity
         Metrics.success Metrics.cost Metrics.response_time Metrics.provider].
    set (hk := hour_key_of now).
    assert (Hold : level_sum (h_complexity (default fresh_hour (hourly_stats self !! hk))) =
                   h_requests (default fresh_hour (hourly_stats self !! hk)) /\
                   (0 <= h_successes (default fresh_hour (hourly_stats self !! hk))
                    <= h_requests (default fresh_hour (hourly_stats self !! hk)))%Z).
    { destruct (hourly_stats self !! hk) as [b|] eqn:Eb; cbn [default from_option]; unfold id;
        [exact (IH hk b Eb)|]. split; [reflexivity|cbn; lia]. }
    destruct (h_complexity (default fresh_hour (hourly_stats self !! hk)) !! level)
      as [k|] eqn:Ek; cbn [snd log hourly_stats set_hourly_stats].
    + rewrite lookup_insert. case_decide; [|apply IH].
      intros [= <-]. cbn [h_complexity h_requests h_successes].
      rewrite (level_sum_bump _ _ _ Hlevel Ek). destruct Hold as [Hsum Hsucc].
      rewrite Hsum. split; [reflexivity|]. destruct success; lia.
    + exfalso. assert (Hdom : dom (h_complexity (default fresh_hour (hourly_stats self !! hk)))
                             = dom zero_levels).
      { destruct (hourly_stats self !! hk) eqn:E; cbn; [by eapply Hh|reflexivity]. }
      apply (zero_levels_lookup _ level) in Hdom.
      destruct (proj2 Hdom Hlevel) as [k Hk]. rewrite Hk in Ek. discriminate.
  - cbn [_cleanup_old_metrics log set_hourly_stats set_request_metrics hourly_stats].
    intros [H _]%map_lookup_filter_Some. exact (IH hour stats H).
Qed.

(** ** The retention sweep *)

Lemma filter_idem {A} (f : A -> bool) l : List.filter f (List.filter f l) = List.filter f l.
Proof.
  induction l as [|x l IH]; [reflexivity|]. cbn. destruct (f x) eqn:E; cbn; [|exact IH].
  by rewrite E, IH.
Qed.

(** [_cleanup_old_metrics] keeps exactly the metrics newer than the cutoff
    (now minus the retention window) and the hourly buckets whose key is not
    below the cutoff hour; it leaves the provider aggregates and the
    complexity counters as they were, and a second sweep at the same time
    removes nothing more. *)
Theorem cleanup_keeps_recent self now :
  let cutoff := now - inject_Z (retention_hours self * 3600) in
  let swept := _cleanup_old_metrics hour_key_of self now in
  request_metrics swept =
    List.filter (fun m => Qltb cutoff (timestamp m)) (request_metrics self) /\
  (forall hour stats,
     hourly_stats swept !! hour = Some stats <->
     hourly_stats self !! hour = Some stats /\ String.ltb hour (hour_key_of cutoff) = false) /\
  provider_metrics swept = provider_metrics self /\
  complexity_stats swept = complexity_stats self /\
  request_metrics (_cleanup_old_metrics hour_key_of swept now) = request_metrics swept /\
  hourly_stats (_cleanup_old_metrics hour_key_of swept now) = hourly_stats swept.
Proof.
  intros cutoff swept. subst swept. unfold _cleanup_old_metrics.
  cbn [log set_hourly_stats set_request_metrics request_metrics hourly_stats provider_metrics
       complexity_stats retention_hours]. fold cutoff.
  rewrite !stdpp_filter_is_filter.
  split; [reflexivity|]. split.
  - intros hour stats. rewrite map_lookup_filter_Some. cbn [fst].
    destruct (String.ltb hour (hour_key_of cutoff)); cbn; split; intros [? ?];
      split; try assumption; try reflexivity; try discriminate; tauto.
  - split; [reflexivity|]. split; [reflexivity|]. split; [apply filter_idem|].
    apply map_eq. intros hour. apply option_eq. intros stats.
    rewrite !map_lookup_filter_Some. tauto.
Qed.

(** ** Reports *)

Lemma sum_from_nonneg l : forall acc,
  0 <= acc -> Forall (fun x => 0 <= x) l -> 0 <= fold_left Qplus l acc.
Proof.
  induction l as [|x l IH]; intros acc Hacc Hl; [exact Hacc|].
  apply Forall_cons in Hl as [Hx Hl]. cbn. apply IH; [lra|exact Hl].
Qed.

Lemma len_filter_le {A} (f : A -> bool) l : (0 <= len (List.filter f l) <= len l)%Z.
Proof. unfold len. pose proof (List.filter_length_le f l). lia. Qed.

(** Whatever the state, the system report adds up: total = successes +
    failures, the success rate lies in [[0,1]], the savings are not
    negative, the requests of the last hour do not exceed the total, and,
    when no recorded cost is negative, the savings percentage lies in
    [[0,100]].  With an empty log the rates are 0: nothing is divided by
    zero. *)
Theorem system_metrics_consistent self now later :
  let report := get_system_metrics self now later in
  (sm_total_requests report = sm_successful_requests report + sm_failed_requests report)%Z /\
  (0 <= sm_successful_requests report)%Z /\ (0 <= sm_failed_requests report)%Z /\
  in_unit (sm_success_rate report) /\
  0 <= sm_cost_savings report /\
  (0 <= sm_requests_per_hour report <= sm_total_requests report)%Z /\
  (Forall (fun m => 0 <= cost m) (request_metrics self) ->
   0 <= sm_cost_savings_percentage report <= 100) /\
  (request_metrics self = [] ->
   sm_total_requests report = 0%Z /\ sm_success_rate report == 0 /\
   sm_avg_response_time report == 0 /\ sm_cost_savings_percentage report == 0).
Proof.
  intros report. subst report. unfold get_system_metrics.
  cbn [sm_total_requests sm_successful_requests sm_failed_requests sm_success_rate
       sm_cost_savings sm_requests_per_hour sm_cost_savings_percentage sm_avg_response_time].
  pose proof (len_filter_le success (request_metrics self)) as Hs.
  set (total := len (request_metrics self)) in *.
  set (good := len (List.filter success (request_metrics self))) in *.
  split; [lia|]. split; [lia|]. split; [lia|]. split; [|split; [|split; [|split]]].
  - unfold in_unit. destruct (Z.ltb_spec 0 total) as [Hpos|_]; [|lra].
    assert (Hq : 0 < inject_Z total) by (unfold Qlt; cbn; lia).
    split.
    + apply Qle_shift_div_l; [exact Hq|]. rewrite Qmult_0_l. unfold Qle; cbn; lia.
    + apply Qle_shift_div_r; [exact Hq|]. rewrite Qmult_1_l. unfold Qle; cbn; lia.
  - apply Q.le_max_l.
  - unfold _calculate_requests_per_hour. subst total.
    destruct (request_metrics self) as [|m l] eqn:El; [cbn; lia|].
    apply len_filter_le.
  - intros Hcost. set (est := inject_Z total * 0.002).
    set (spent := sum (map cost (request_metrics self))).
    assert (Hspent : 0 <= spent).
    { apply sum_from_nonneg; [lra|]. apply Forall_map. exact Hcost. }
    unfold Qltb. destruct (Qlt_le_dec 0 est) as [Hest|_]; [|lra].
    assert (Hsav : 0 <= Qmax 0 (est - spent) <= est).
    { destruct (Q.max_spec 0 (est - spent)) as [[? E]|[? E]]; rewrite E; lra. }
    set (sav := Qmax 0 (est - spent)) in *.
    assert (Hr : 0 <= sav / est <= 1).
    { split; [apply Qle_shift_div_l; lra|apply Qle_shift_div_r; lra]. }
    set (r := sav / est) in *. lra.
  - intros Hempty. subst total good. rewrite Hempty. cbn. repeat split; reflexivity.
Qed.

(** Every call of [record_request] is counted, also one that raises: the
    provider's report shows one request more, the system report shows one
    request more, and the reports of the other providers are unchanged. *)
Theorem record_request_is_counted self provider_name model success response_time cost
        input_tokens output_tokens complexity_level error_type now :
  let after := snd (record_request hour_key_of self provider_name model success
                      response_time cost input_tokens output_tokens complexity_level
                      error_type now) in
  pr_total_requests (get_provider_metrics after provider_name) =
    (pr_total_requests (get_provider_metrics self provider_name) + 1)%Z /\
  (forall t t', sm_total_requests (get_system_metrics after t t') =
                (sm_total_requests (get_system_metrics self t t') + 1)%Z) /\
  (forall other, other <> provider_name ->
     get_provider_metrics after other = get_provider_metrics self other).
Proof.
  intros after. subst after. unfold get_provider_metrics, get_system_metrics.
  cbn [sm_total_requests]. rewrite record_request_provider_metrics, record_request_log.
  split; [|split].
  - rewrite lookup_insert_eq. cbn [pr_total_requests aggregate total_requests].
    destruct (provider_metrics self !! provider_name); reflexivity.
  - intros _ _. unfold len. rewrite List.length_app. cbn. lia.
  - intros other Hne. by rewrite lookup_insert_ne.
Qed.

(** ** From the analyzer to the collector *)

Lemma record_request_known self provider_name model success response_time cost
      input_tokens output_tokens level error_type now :
  reachable hour_key_of self -> level ∈ known_levels ->
  exists n,
    complexity_stats self !! level = Some n /\
    record_request hour_key_of self provider_name model success response_time cost
      input_tokens output_tokens level error_type now
    = (Ok (),
       snd (record_request hour_key_of self provider_name model success response_time cost
              input_tokens output_tokens level error_type now)) /\
    complexity_stats
      (snd (record_request hour_key_of self provider_name model success response_time cost
              input_tokens output_tokens level error_type now)) =
    <[level := (n + 1)%Z]> (complexity_stats self).
Proof.
  intros Hreach Hlevel. destruct (reachable_keyed hour_key_of self Hreach) as [Hc Hh].
  destruct (proj2 (zero_levels_lookup _ level Hc) Hlevel) as [n En].
  exists n. split; [exact En|]. unfold record_request.
  cbn [complexity_stats _update_provider_metrics set_provider_metrics set_request_metrics].
  rewrite En. unfold _update_hourly_stats.
  cbn [hourly_stats set_complexity_stats set_provider_metrics set_request_metrics
       _update_provider_metrics timestamp Metrics.complexity_level h_complexity].
  set (hk := hour_key_of now).
  assert (Hdom : dom (h_complexity (default fresh_hour (hourly_stats self !! hk)))
                 = dom zero_levels).
  { destruct (hourly_stats self !! hk) eqn:E; cbn; [by eapply Hh|reflexivity]. }
  destruct (proj2 (zero_levels_lookup _ level Hdom) Hlevel) as [k ->].
  split; reflexivity.
Qed.

Lemma complexity_level_known score : Engine.complexity_level score ∈ known_levels.
Proof.
  unfold Engine.complexity_level, known_levels.
  destruct (Qlt_le_dec _ _); [left|]. destruct (Qlt_le_dec _ _); [right; left|].
  right; right; left.
Qed.

(** The level the analyzer derives from a score is always one the collector
    counts: recording a request under it, in any reachable state, returns
    normally and raises that level's counter, and no other, by one. *)
Theorem analyzer_level_is_recorded self score provider_name model success response_time
        cost input_tokens output_tokens error_type now :
  reachable hour_key_of self ->
  let level := Engine.complexity_level score in
  let result := record_request hour_key_of self provider_name model success response_time
                  cost input_tokens output_tokens level error_type now in
  level ∈ known_levels /\
  fst result = Ok () /\
  (forall other,
     complexity_stats (snd result) !! other =
     if decide (other = level)
     then Some (default 0 (complexity_stats self !! level) + 1)%Z
     else complexity_stats self !! other).
Proof.
  intros Hreach level result.
  pose proof (complexity_level_known score) as Hlevel. fold level in Hlevel.
  destruct (record_request_known self provider_name model success response_time cost
              input_tokens output_tokens level error_type now Hreach Hlevel)
    as (n & En & Eres & Estats).
  subst result. split; [exact Hlevel|]. split; [by rewrite Eres|].
  intros other. rewrite Estats, lookup_insert, En. cbn [default from_option]. unfold id.
  repeat case_decide; congruence.
Qed.
End MetricsMore.

(** The aggregate of P1 after its first request. *)
Lemma provider_aggregates_add_up_witness :
  exists pm,
    Metrics.provider_metrics one_request !! "p1"%string = Some pm /\
    aggregate_consistent "p1" pm /\ in_unit (Metrics.success_rate pm).
Proof.
  destruct (Metrics.provider_metrics one_request !! "p1"%string) as [pm|] eqn:E;
    [|vm_compute in E; discriminate].
  exists pm. split; [reflexivity|].
  exact (provider_aggregates_add_up fixed_hour one_request
           (Metrics.reach_record fixed_hour _ _ _ _ _ _ _ _ _ _ _ (Metrics.reach_init _ _ _))
           "p1"%string pm E).
Defined.

(** The log and the aggregate of P1 after its first request. *)
Lemma log_within_aggregates_witness :
  (logged_requests one_request "p1" <= total_requests_of one_request "p1")%Z.
Proof.
  apply (log_within_aggregates fixed_hour one_request).
  apply Metrics.reach_record, Metrics.reach_init.
Defined.

(** The bucket of the hour of the first request. *)
Lemma hourly_buckets_add_up_witness :
  exists stats,
    Metrics.hourly_stats one_request !! "2026-01-01-00"%string = Some stats /\
    level_sum (Metrics.h_complexity stats) = Metrics.h_requests stats /\
    (0 <= Metrics.h_successes stats <= Metrics.h_requests stats)%Z.
Proof.
  destruct (Metrics.hourly_stats one_request !! "2026-01-01-00"%string) as [stats|] eqn:E;
    [|vm_compute in E; discriminate].
  exists stats. split; [reflexivity|].
  apply (hourly_buckets_add_up fixed_hour one_request) with (hour := "2026-01-01-00"%string);
    [|exact E].
  apply Metrics.reach_record, Metrics.reach_init.
Defined.

(** The report of a collector whose one request cost 0.001. *)
Lemma system_metrics_consistent_witness :
  0 <= Metrics.sm_cost_savings_percentage (Metrics.get_system_metrics one_request 2 3) <= 100 /\
  Metrics.sm_success_rate (Metrics.get_system_metrics (Metrics.__init__ 24 0) 2 3) == 0.
Proof.
  split.
  - apply (system_metrics_consistent one_request 2 3).
    vm_compute. repeat constructor. discriminate.
  - apply (system_metrics_consistent (Metrics.__init__ 24 0) 2 3). reflexivity.
Defined.

(** A low-complexity request recorded by a new collector. *)
Lemma analyzer_level_is_recorded_witness :
  let level := Engine.complexity_level low_complexity in
  let result := Metrics.record_request fixed_hour (Metrics.__init__ 24 0) "p1" "m-large" true
                  0.25 0.001 10 20 level None 1 in
  level ∈ known_levels /\
  fst result = Ok () /\
  (forall other,
     Metrics.complexity_stats (snd result) !! other =
     if decide (other = level)
     then Some (default 0 (Metrics.complexity_stats (Metrics.__init__ 24 0) !! level) + 1)%Z
     else Metrics.complexity_stats (Metrics.__init__ 24 0) !! other).
Proof.
  apply (analyzer_level_is_recorded fixed_hour (Metrics.__init__ 24 0) low_complexity).
  apply Metrics.reach_init.
Defined.

(* ===================================================================== *)
(** * Further properties of the complexity analyzer *)
(* ===================================================================== *)

Section EngineMore.
Import Text Engine.

(** ** Letter case *)

Lemma is_space_lower_char c : is_space (lower_char c) = is_space c.
Proof. destruct c as [[] [] [] [] [] [] [] []]; reflexivity. Qed.

Lemma word_count_from_lower s : forall in_word,
  word_count_from in_word (lower s) = word_count_from in_word s.
Proof.
  induction s as [|c s IH]; intros in_word; [reflexivity|].
  cbn [lower word_count_from]. rewrite is_space_lower_char.
  destruct (is_space c); [apply IH|]. destruct in_word; by rewrite IH.
Qed.

(** The analysis does not depend on letter case: two contents with the same
    lower-cased text get the same result, under every context. *)
Theorem analyze_complexity_ignores_case c1 c2 context :
  lower c1 = lower c2 ->
  analyze_complexity c1 context = analyze_complexity c2 context.
Proof.
  intros H. unfold analyze_complexity, _get_length_modifier, word_count.
  rewrite <- (word_count_from_lower c1), <- (word_count_from_lower c2), H. reflexivity.
Qed.

(** A request typed in capitals. *)
Lemma analyze_complexity_ignores_case_witness :
  analyze_complexity "EXPLAIN WHY The Sky Is Blue" None =
  analyze_complexity "explain why the sky is blue" None.
Proof.
  apply (analyze_complexity_ignores_case "EXPLAIN WHY The Sky Is Blue"
           "explain why the sky is blue" None).
  reflexivity.
Defined.

(** ** The complexity hint *)

Lemma hint_nonempty h l :
  existsb (String.eqb (lower h)) l = true -> ~ In ""%string l -> truthy (PyStr h) = true.
Proof.
  intros Hin Hl. cbn. destruct (String.eqb_spec h "") as [->|_]; [|reflexivity].
  exfalso. apply Hl. apply existsb_exists in Hin as (x & Hx & E).
  apply String.eqb_eq in E. cbn in E. by subst x.
Qed.

Lemma high_hint_modifier d h dimension :
  get d "complexity_hint" = PyStr h ->
  existsb (String.eqb (lower h)) ["high"; "complex"; "advanced"] = true ->
  readable_hint (get d "domain") = true ->
  exists m, _get_context_modifier d dimension = Ok m /\ 1 <= m.
Proof.
  intros Hh Hhigh Hd. unfold _get_context_modifier. rewrite Hh.
  rewrite (hint_nonempty h _ Hhigh) by (cbn; intuition discriminate).
  cbn [str_of mbind Result_bind]. rewrite Hhigh.
  destruct (readable_hint_cases _ Hd) as [->|(dm & -> & ->)];
    cbn [str_of mbind Result_bind]; split_ifs; eexists; (split; [reflexivity|lra]).
Qed.

Lemma low_hint_modifier d h dimension :
  get d "complexity_hint" = PyStr h ->
  existsb (String.eqb (lower h)) ["low"; "simple"; "basic"] = true ->
  readable_hint (get d "domain") = true ->
  exists m, _get_context_modifier d dimension = Ok m /\ 0 <= m <= 1.
Proof.
  intros Hh Hlow Hd.
  assert (Hnot : existsb (String.eqb (lower h)) ["high"; "complex"; "advanced"] = false).
  { pose proof Hlow as Hl. apply existsb_exists in Hl as (x & Hx & E).
    apply String.eqb_eq in E. rewrite E.
    destruct Hx as [<-|[<-|[<-|[]]]]; reflexivity. }
  unfold _get_context_modifier. rewrite Hh.
  rewrite (hint_nonempty h _ Hlow) by (cbn; intuition discriminate).
  cbn [str_of mbind Result_bind]. rewrite Hnot, Hlow.
  destruct (readable_hint_cases _ Hd) as [->|(dm & -> & ->)];
    cbn [str_of mbind Result_bind]; split_ifs; eexists; (split; [reflexivity|lra]).
Qed.

Lemma axis_scaled_up s m l p :
  0 <= s -> 1 <= m -> 0 <= l -> 0 <= p ->
  Qmin 1.0 (s * l * p) <= Qmin 1.0 (s * m * l * p).
Proof.
  intros Hs Hm Hl Hp. apply Q.min_le_compat_l.
  assert (H : 0 <= s * l * p) by (repeat apply Qmult_le_0_compat; assumption).
  assert (E : s * m * l * p == m * (s * l * p)) by ring. rewrite E.
  apply Qle_trans with (1 * (s * l * p)); [lra|]. apply Qmult_le_compat_r; assumption.
Qed.

Lemma axis_scaled_down s m l p :
  0 <= s -> 0 <= m <= 1 -> 0 <= l -> 0 <= p ->
  Qmin 1.0 (s * m * l * p) <= Qmin 1.0 (s * l * p).
Proof.
  intros Hs Hm Hl Hp. apply Q.min_le_compat_l.
  assert (H : 0 <= s * l * p) by (repeat apply Qmult_le_0_compat; assumption).
  assert (E : s * m * l * p == m * (s * l * p)) by ring. rewrite E.
  apply Qle_trans with (1 * (s * l * p)); [|lra]. apply Qmult_le_compat_r; lra.
Qed.

(** A complexity hint moves every axis one way.  With a hint of "high",
    "complex" or "advanced" (in any letter case) no axis is lower than
    without a context, and with "low", "simple" or "basic" none is higher,
    whatever domain the context names besides. *)
Theorem complexity_hint_direction content d h :
  get d "complexity_hint" = PyStr h ->
  readable_hint (get d "domain") = true ->
  exists hinted plain,
    analyze_complexity content (Some d) = Ok hinted /\
    analyze_complexity content None = Ok plain /\
    (existsb (String.eqb (lower h)) ["high"; "complex"; "advanced"] = true ->
     axes_le plain hinted) /\
    (existsb (String.eqb (lower h)) ["low"; "simple"; "basic"] = true ->
     axes_le hinted plain).
Proof.
  intros Hh Hd.
  assert (Hctx : hints_are_strings (Some d)).
  { split; [|exact Hd]. rewrite Hh. unfold readable_hint. cbn. apply orb_true_r. }
  pose proof (reasoning_range (lower content)) as [Hr _].
  pose proof (knowledge_range (lower content)) as [Hk _].
  pose proof (computation_range (lower content)) as [Hc _].
  pose proof (coordination_range (lower content)) as [Ho _].
  pose proof (length_modifier_nonneg content) as Hl.
  pose proof (pattern_modifier_nonneg (lower content)) as Hp.
  unfold analyze_complexity.
  destruct d as [|kv d]; [discriminate|].
  destruct (context_modifier_ok (kv :: d) "reasoning" Hctx) as (m1 & E1 & _).
  destruct (context_modifier_ok (kv :: d) "knowledge" Hctx) as (m2 & E2 & _).
  destruct (context_modifier_ok (kv :: d) "computation" Hctx) as (m3 & E3 & _).
  destruct (context_modifier_ok (kv :: d) "coordination" Hctx) as (m4 & E4 & _).
  rewrite E1, E2, E3, E4. cbn [mbind Result_bind].
  do 2 eexists. split; [reflexivity|]. split; [reflexivity|].
  unfold axes_le. cbn [reasoning knowledge computation coordination]. split.
  - intros Hhigh.
    destruct (high_hint_modifier _ h "reasoning" Hh Hhigh Hd) as (n1 & F1 & ?).
    destruct (high_hint_modifier _ h "knowledge" Hh Hhigh Hd) as (n2 & F2 & ?).
    destruct (high_hint_modifier _ h "computation" Hh Hhigh Hd) as (n3 & F3 & ?).
    destruct (high_hint_modifier _ h "coordination" Hh Hhigh Hd) as (n4 & F4 & ?).
    rewrite E1 in F1. rewrite E2 in F2. rewrite E3 in F3. rewrite E4 in F4.
    injection F1 as ->. injection F2 as ->. injection F3 as ->. injection F4 as ->.
    repeat split; apply axis_scaled_up; assumption.
  - intros Hlow.
    destruct (low_hint_modifier _ h "reasoning" Hh Hlow Hd) as (n1 & F1 & ?).
    destruct (low_hint_modifier _ h "knowledge" Hh Hlow Hd) as (n2 & F2 & ?).
    destruct (low_hint_modifier _ h "computation" Hh Hlow Hd) as (n3 & F3 & ?).
    destruct (low_hint_modifier _ h "coordination" Hh Hlow Hd) as (n4 & F4 & ?).
    rewrite E1 in F1. rewrite E2 in F2. rewrite E3 in F3. rewrite E4 in F4.
    injection F1 as ->. injection F2 as ->. injection F3 as ->. injection F4 as ->.
    repeat split; apply axis_scaled_down; assumption.
Qed.

(** The hint "Advanced" together with a research domain. *)
Lemma complexity_hint_direction_witness :
  exists hinted plain,
    analyze_complexity "explain the theory of physics"
      (Some [("complexity_hint"%string, PyStr "Advanced");
             ("domain"%string, PyStr "research")]) = Ok hinted /\
    analyze_complexity "explain the theory of physics" None = Ok plain /\
    axes_le plain hinted.
Proof.
  destruct (complexity_hint_direction "explain the theory of physics"
              [("complexity_hint"%string, PyStr "Advanced");
               ("domain"%string, PyStr "research")] "Advanced" eq_refl eq_refl)
    as (hinted & plain & E1 & E2 & Hup & _).
  exists hinted, plain. split; [exact E1|]. split; [exact E2|]. apply Hup. reflexivity.
Defined.
End EngineMore.

(* ===================================================================== *)
(** * Properties of the model choice of the token counter *)
(* ===================================================================== *)

Section TokenCounterFacts.
Import TokenCounter.

(** A model named by the caller is used as it is, for every provider: the
    check against the provider's model list changes nothing.  Without a
    model (or with an empty one) the provider's default is used; it is one
    of the provider's supported models when the provider is known, and
    gpt-3.5-turbo when it is not. *)
Theorem effective_model_choice provider model :
  (forall m, model = Some m -> m <> ""%string -> _get_effective_model provider model = m) /\
  (model = None \/ model = Some ""%string ->
   _get_effective_model provider model = get_default_model provider) /\
  (get_supported_models provider <> [] ->
   In (get_default_model provider) (get_supported_models provider)) /\
  (get_supported_models provider = [] ->
   get_default_model provider = "gpt-3.5-turbo"%string).
Proof.
  unfold _get_effective_model, get_default_model, get_supported_models.
  split; [|split; [|split]].
  - intros m -> Hm. destruct (String.eqb_spec m "") as [?|_]; [contradiction|].
    cbn [negb default from_option]. unfold id.
    destruct (mapping_get provider_model_mapping (provider_key provider)) as [[d ms]|];
      [|reflexivity].
    destruct (existsb (String.eqb m) ms); reflexivity.
  - intros [->| ->]; reflexivity.
  - generalize (provider_key provider). intros k. unfold provider_model_mapping.
    cbn [mapping_get].
    repeat (destruct (String.eqb _ k); [intros _; left; reflexivity|]).
    intros H. by contradiction H.
  - generalize (provider_key provider). intros k. unfold provider_model_mapping.
    cbn [mapping_get].
    repeat (destruct (String.eqb _ k); [discriminate|]). reflexivity.
Qed.

(** A local model asked of OpenAI is priced as that local model. *)
Lemma effective_model_choice_witness :
  _get_effective_model "OpenAI" (Some "llama2"%string) = "llama2"%string /\
  _get_effective_model "Local-Ollama" None = get_default_model "Local-Ollama" /\
  In (get_default_model "Local-Ollama") (get_supported_models "Local-Ollama").
Proof.
  split; [|split].
  - apply (proj1 (effective_model_choice "OpenAI" (Some "llama2"%string)) "llama2"%string);
      [reflexivity|discriminate].
  - apply (proj1 (proj2 (effective_model_choice "Local-Ollama" None))). by left.
  - apply (proj1 (proj2 (proj2 (effective_model_choice "Local-Ollama" None)))).
    vm_compute. discriminate.
Defined.
End TokenCounterFacts.

(** The failure path of the API reports to the provider "unknown" under the
    level "unknown": the call raises, and is counted all the same. *)
Lemma record_request_is_counted_witness :
  let after := snd (Metrics.record_request fixed_hour one_request "unknown" "unknown" false
                      0.5 0.0 0 0 "unknown" (Some "ValueError"%string) 2) in
  Metrics.pr_total_requests (Metrics.get_provider_metrics after "unknown") = 1%Z /\
  Metrics.sm_total_requests (Metrics.get_system_metrics after 3 3) = 2%Z /\
  Metrics.get_provider_metrics after "p1" = Metrics.get_provider_metrics one_request "p1".
Proof.
  destruct (record_request_is_counted fixed_hour one_request "unknown" "unknown" false
              0.5 0.0 0 0 "unknown" (Some "ValueError"%string) 2) as (Hp & Hs & Ho).
  split; [exact Hp|]. split; [exact (Hs 3 3)|]. apply Ho. discriminate.
Defined.
